(** * crypto_grid_scalper: the decision core of the grid trading bot

    A shallow embedding of the Python sources
    [src/grid.py], [src/risk.py], [src/position_reopen_manager.py],
    [src/market_position_manager.py] and [src/bot.py], and of
    [extract_trend_and_momentum] of the analyzer
    ([Volatility_Detector_Binance/src/bot/analyze_ticker.py]), together
    with the properties of the decision core that are stated about them.

    Layout: the embedding comes first (one module per source file), the
    supporting lemmas and the theorems follow. *)

From Stdlib Require Import ZArith QArith Qpower Qround Qabs Lia Lqa.
From Stdlib Require Import List String Ascii Bool Permutation Sorted Morphisms Setoid.
Import ListNotations.

Local Open Scope Z_scope.

(* ================================================================== *)
(** * Python's [decimal.Decimal] under the context set in [grid.py]

    [grid.py] runs [getcontext().prec = 10] at import time, and [bot.py]
    imports it before anything else computes: every arithmetic operation
    on a [Decimal] in the bot is therefore rounded to ten significant
    digits with the default rounding, [ROUND_HALF_EVEN].  Construction
    from a string and comparisons are exact.

    A finite decimal is a signed coefficient and an exponent, the number
    [coef * 10 ^ expo].  Not modelled: signed zero, NaN and the
    infinities (prices and percentages are finite numbers), and the
    exponent limits of the context ([Emax = 999999]), which values made
    from Python floats by a handful of operations cannot reach. *)

Module Dec.

Record Decimal : Type := mkDec { coef : Z; expo : Z }.

(** [getcontext().prec = 10] *)
Definition prec : Z := 10.

(** [len(self._int)]: the number of decimal digits of a coefficient;
    the coefficient zero is the one-digit string ["0"]. *)
Fixpoint ndigits_aux (fuel : nat) (n : Z) : Z :=
  match fuel with
  | O => 1
  | S f => if n <? 10 then 1 else 1 + ndigits_aux f (n / 10)
  end.

Definition ndigits (n : Z) : Z :=
  ndigits_aux (Z.to_nat (Z.log2 n)) n.

(** [Decimal._fix] with [ROUND_HALF_EVEN]: a coefficient of more than
    [prec] digits keeps its [prec] leading digits; the dropped tail
    rounds it up when it is more than half a unit, or exactly half and
    the kept coefficient is odd.  A carry out of the top digit
    ([99...9 + 1]) drops one more digit. *)
Definition fix_ (d : Decimal) : Decimal :=
  let a := Z.abs (coef d) in
  let n := ndigits a in
  if n <=? prec then d
  else
    let k := n - prec in
    let q := a / 10 ^ k in
    let r := a mod 10 ^ k in
    let up := (10 ^ k <? 2 * r) || ((2 * r =? 10 ^ k) && Z.odd q) in
    let q' := if up then q + 1 else q in
    if 10 ^ prec <=? q'
    then mkDec (Z.sgn (coef d) * (q' / 10)) (expo d + k + 1)
    else mkDec (Z.sgn (coef d) * q') (expo d + k).

(** The coefficient of [d] written at the exponent [e <= expo d]. *)
Definition scale (e : Z) (d : Decimal) : Z := coef d * 10 ^ (expo d - e).

(** [Decimal.__add__]: the exact sum at the smaller exponent, then [_fix]. *)
Definition add (x y : Decimal) : Decimal :=
  let e := Z.min (expo x) (expo y) in
  fix_ (mkDec (scale e x + scale e y) e).

(** [Decimal.__neg__] of a value that needs no rounding, as used by
    [__sub__] ([copy_negate]). *)
Definition neg (x : Decimal) : Decimal := mkDec (- coef x) (expo x).

(** [Decimal.__sub__]: [self + other.copy_negate()]. *)
Definition sub (x y : Decimal) : Decimal := add x (neg y).

(** [Decimal.__mul__]: the exact product, then [_fix]. *)
Definition mul (x y : Decimal) : Decimal :=
  fix_ (mkDec (coef x * coef y) (expo x + expo y)).

(** The loop of [__truediv__] that brings an exact quotient back towards
    the ideal exponent by removing trailing zeros. *)
Fixpoint strip_zeros (fuel : nat) (ideal : Z) (q e : Z) : Z * Z :=
  match fuel with
  | O => (q, e)
  | S f =>
      if (e <? ideal) && (q mod 10 =? 0)
      then strip_zeros f ideal (q / 10) (e + 1)
      else (q, e)
  end.

(** The quotient computed by [Decimal.__truediv__] once both operands are
    known to be non-zero numbers: [prec + 1] or [prec + 2] digits of the
    quotient, with a sticky last digit when the division left a
    remainder, handed to [_fix]. *)
Definition div_nz (x y : Decimal) : Decimal :=
  if coef x =? 0 then fix_ (mkDec 0 (expo x - expo y))
  else
    let a := Z.abs (coef x) in
    let b := Z.abs (coef y) in
    let s := Z.sgn (coef x) * Z.sgn (coef y) in
    let shift := ndigits b - ndigits a + prec + 1 in
    let e := expo x - expo y - shift in
    let num := if 0 <=? shift then a * 10 ^ shift else a in
    let den := if 0 <=? shift then b else b * 10 ^ (- shift) in
    let q := num / den in
    let r := num mod den in
    if r =? 0 then
      let '(q', e') := strip_zeros (Z.to_nat shift) (expo x - expo y) q e in
      fix_ (mkDec (s * q') e')
    else
      fix_ (mkDec (s * (if q mod 5 =? 0 then q + 1 else q)) e).

(** [Decimal.__truediv__].  A zero divisor raises ([DivisionByZero], or
    [InvalidOperation] for [0 / 0]) under the default traps: the result
    is [None]. *)
Definition div (x y : Decimal) : option Decimal :=
  if coef y =? 0 then None else Some (div_nz x y).

(** [Decimal._rescale] with [ROUND_HALF_EVEN]: the value written at the
    exponent [e], rounded when [e] is above the exponent it has. *)
Definition rescale (e : Z) (d : Decimal) : Decimal :=
  if e <=? expo d then mkDec (coef d * 10 ^ (expo d - e)) e
  else
    let a := Z.abs (coef d) in
    let k := e - expo d in
    let q := a / 10 ^ k in
    let r := a mod 10 ^ k in
    let up := (10 ^ k <? 2 * r) || ((2 * r =? 10 ^ k) && Z.odd q) in
    mkDec (Z.sgn (coef d) * (if up then q + 1 else q)) e.

(** [round(d, n)], that is [d.quantize(Decimal('1E-n'))]: [None] stands
    for the [InvalidOperation] raised when the result would need more
    than [prec] digits. *)
Definition round_to (n : Z) (d : Decimal) : option Decimal :=
  let e := - n in
  if coef d =? 0 then Some (mkDec 0 e)
  else if prec <? ndigits (Z.abs (coef d)) + expo d - e then None
  else
    let ans := rescale e d in
    if prec <? ndigits (Z.abs (coef ans)) then None else Some ans.

(** Comparisons are exact: both operands are read at the smaller
    exponent ([Decimal._cmp]). *)
Definition leb (x y : Decimal) : bool :=
  let e := Z.min (expo x) (expo y) in scale e x <=? scale e y.

Definition ltb (x y : Decimal) : bool :=
  let e := Z.min (expo x) (expo y) in scale e x <? scale e y.

(** The number a decimal denotes. *)
Definition dval (d : Decimal) : Q := inject_Z (coef d) * (10 # 1) ^ expo d.

(** [Decimal(str(n))] for an integer [n], and the literals of the source. *)
Definition of_Z (n : Z) : Decimal := mkDec n 0.
Definition zero : Decimal := of_Z 0.
Definition one : Decimal := of_Z 1.
Definition two : Decimal := of_Z 2.
Definition hundred : Decimal := of_Z 100.

End Dec.

(* ================================================================== *)
(** * Python values read from the environment

    [config.py] keeps the two limits [MAX_CONSECUTIVE_GRID_POSITIONS] and
    [MAX_MARKET_POSITION_REOPENS] as the strings [os.getenv] returns; the
    code that reads them also accepts an integer or [None] (it tests
    [isinstance(.., str)] and catches [TypeError]).

    A Python [str] is a sequence of code points.  A [string] stands for
    the [str] it encodes in UTF-8; a byte that is not part of a
    well-formed UTF-8 sequence stands for the code point of its own
    value, so that every [string] denotes one [str] and every [str]
    (without surrogates) is denoted by its encoding.  [int] follows
    CPython 3.11: the white space and the decimal digits of Unicode
    14.0, and the default limit of 4300 digits. *)

Module Py.

Local Open Scope string_scope.

Inductive Value : Type :=
| VStr (s : string)
| VInt (n : Z)
| VNone.

(** [str.lower], as far as a comparison with ASCII text can tell: the
    letters [A-Z] become [a-z]; the bytes of the other code points are
    left as they are.  (The only code point outside ASCII that
    [str.lower] sends to ASCII text is the Kelvin sign, to [k]; the code
    compares the result with ["unlimited"] and ["stop"] only.) *)
Definition lower_ascii (c : ascii) : ascii :=
  let n := nat_of_ascii c in
  if ((65 <=? n) && (n <=? 90))%nat then ascii_of_nat (n + 32) else c.

Fixpoint lower (s : string) : string :=
  match s with
  | EmptyString => EmptyString
  | String c s' => String (lower_ascii c) (lower s')
  end.

(** The payload of a UTF-8 continuation byte. *)
Definition continuation (c : ascii) : option N :=
  let n := N_of_ascii c in
  if ((128 <=? n) && (n <=? 191))%N then Some (n - 128)%N else None.

(** The code point a well-formed sequence of two, three or four bytes
    starting with [a] encodes, and what follows it: no overlong form, no
    surrogate, nothing above [U+10FFFF]. *)
Definition multibyte (a : ascii) (rest : list ascii) : option (N * list ascii) :=
  let n := N_of_ascii a in
  match rest with
  | b :: r1 =>
      match continuation b with
      | Some x =>
          if ((194 <=? n) && (n <=? 223))%N
          then Some (((n - 192) * 64 + x)%N, r1)
          else
            match r1 with
            | c :: r2 =>
                match continuation c with
                | Some y =>
                    if ((224 <=? n) && (n <=? 239))%N then
                      let cp := (((n - 224) * 64 + x) * 64 + y)%N in
                      if ((2048 <=? cp)
                          && negb ((55296 <=? cp) && (cp <=? 57343)))%N
                      then Some (cp, r2) else None
                    else
                      match r2 with
                      | d :: r3 =>
                          match continuation d with
                          | Some z =>
                              if ((240 <=? n) && (n <=? 244))%N then
                                let cp :=
                                  ((((n - 240) * 64 + x) * 64 + y) * 64 + z)%N in
                                if ((65536 <=? cp) && (cp <=? 1114111))%N
                                then Some (cp, r3) else None
                              else None
                          | None => None
                          end
                      | [] => None
                      end
                | None => None
                end
            | [] => None
            end
      | None => None
      end
  | [] => None
  end.

Fixpoint code_points_aux (fuel : nat) (l : list ascii) : list N :=
  match fuel, l with
  | S f, a :: rest =>
      match multibyte a rest with
      | Some (cp, rest') => cp :: code_points_aux f rest'
      | None => N_of_ascii a :: code_points_aux f rest
      end
  | _, _ => []
  end.

(** The code points of the [str] a [string] stands for. *)
Definition code_points (s : string) : list N :=
  code_points_aux (String.length s) (list_ascii_of_string s).

(** The white space [int] skips on both sides: tab, line feed, vertical
    tab, form feed, carriage return and space, and outside ASCII the
    code points [str.isspace] accepts ([U+0085], [U+00A0], [U+1680],
    [U+2000] to [U+200A], [U+2028], [U+2029], [U+202F], [U+205F],
    [U+3000]).  The separators [U+001C] to [U+001F] are not skipped. *)
Definition is_space (c : N) : bool :=
  (((9 <=? c) && (c <=? 13)) || (c =? 32) || (c =? 133) || (c =? 160)
   || (c =? 5760) || ((8192 <=? c) && (c <=? 8202)) || (c =? 8232)
   || (c =? 8233) || (c =? 8239) || (c =? 8287) || (c =? 12288))%N.

(** The code points of the digit zero of every decimal number system
    (general category [Nd]); the nine that follow each are its digits
    one to nine. *)
Definition digit_zeros : list N :=
  [
    48; 1632; 1776; 1984; 2406; 2534; 2662; 2790; 2918; 3046; 3174;
    3302; 3430; 3558; 3664; 3792; 3872; 4160; 4240; 6112; 6160; 6470;
    6608; 6784; 6800; 6992; 7088; 7232; 7248; 42528; 43216; 43264;
    43472; 43504; 43600; 44016; 65296; 66720; 68912; 69734; 69872;
    69942; 70096; 70384; 70736; 70864; 71248; 71360; 71472; 71904;
    72016; 72784; 73040; 73120; 92768; 92864; 93008; 120782; 120792;
    120802; 120812; 120822; 123200; 123632; 125264; 130032
  ]%N.

(** [Py_UNICODE_TODECIMAL] *)
Definition decimal_value (c : N) : option Z :=
  match find (fun z => ((z <=? c) && (c <? z + 10))%N) digit_zeros with
  | Some z => Some (Z.of_N (c - z))
  | None => None
  end.

Fixpoint lstrip (l : list N) : list N :=
  match l with
  | c :: l' => if is_space c then lstrip l' else l
  | [] => []
  end.

Definition strip (l : list N) : list N :=
  rev (lstrip (rev (lstrip l))).

(** [sys.get_int_max_str_digits()] as the interpreter starts. *)
Definition max_str_digits : N := 4300.

(** Decimal digits, single underscores allowed between two digits.
    [after_digit] tells whether the previous character was a digit,
    [count] how many digits were read: more than [max_str_digits] is a
    [ValueError] too. *)
Fixpoint digits (acc : Z) (count : N) (after_digit : bool) (l : list N)
    : option Z :=
  match l with
  | [] =>
      if (after_digit && (count <=? max_str_digits)%N)%bool
      then Some acc else None
  | c :: l' =>
      match decimal_value c with
      | Some d => digits (10 * acc + d) (count + 1)%N true l'
      | None =>
          if ((c =? 95)%N && after_digit)%bool then digits acc count false l'
          else None
      end
  end.

(** [int(s)] for a string: [None] stands for [ValueError]. *)
Definition int_of_string (s : string) : option Z :=
  match strip (code_points s) with
  | 43%N :: l => digits 0 0 false l
  | 45%N :: l => option_map Z.opp (digits 0 0 false l)
  | l => digits 0 0 false l
  end.

(** [int(v)]: [None] stands for [ValueError] or [TypeError]. *)
Definition int (v : Value) : option Z :=
  match v with
  | VStr s => int_of_string s
  | VInt n => Some n
  | VNone => None
  end.

(** [isinstance(v, str) and v.lower() == "unlimited"] *)
Definition is_unlimited (v : Value) : bool :=
  match v with
  | VStr s => String.eqb (lower s) "unlimited"
  | _ => false
  end.

(** [d.get(key, default)] for a key that may be missing. *)
Definition get {A : Type} (field : option A) (default : A) : A :=
  match field with
  | Some v => v
  | None => default
  end.

End Py.

(* ================================================================== *)
(** * [src/config.py]

    The dictionary built by [load_config].  [load_config] rejects a
    [mode] outside [long], [short], [neutral] and a [tpMode] outside
    [PERCENTAGE], [GRID_RANGE], so both are enumerations here.  A number
    that Python holds as a float is kept as the decimal [Decimal(str(x))]
    denotes, which determines the float; [takeProfitPercent] and
    [stopLossPercent] are [float(..) or None]. *)

Inductive Mode : Type := Long | Short | Neutral.

Inductive TpMode : Type := PERCENTAGE | GRID_RANGE.

Record Config : Type := mkConfig {
  mode : Mode;
  symbol : string;
  leverage : Z;
  startPrice : Dec.Decimal;
  endPrice : Dec.Decimal;
  gridSize : Dec.Decimal;
  positionSizeType : string;
  positionSize : Dec.Decimal;
  enableRangeExitRule : bool;
  rangeExitThresholdPercent : Dec.Decimal;
  tpMode : TpMode;
  takeProfitPercent : option Dec.Decimal;
  stopLossPercent : option Dec.Decimal;
  dualSidePosition : bool;
  enableMarketPositionLogic : bool;
  analysisIntervalMinutes : Z;
  volatilityDetectorMaxRetries : Z;
  enablePositionReopen : bool;
  maxConsecutiveGridPositions : option Py.Value;
  gridBotNeutralOnly : bool;
  maxMarketPositionReopens : option Py.Value;
  neutralMomentumAction : option string
}.

(** Truth value of an optional number: [None] and zero are false. *)
Definition truthy (x : option Dec.Decimal) : bool :=
  match x with
  | Some d => negb (Dec.coef d =? 0)
  | None => false
  end.

(** How a call ends: with a value, with an exception that leaves the
    function, or never (the model ran out of fuel). *)
Inductive Outcome (A : Type) : Type :=
| Returns (a : A)
| Raises
| Diverges.
Arguments Returns {A} a.
Arguments Raises {A}.
Arguments Diverges {A}.

(* ================================================================== *)
(** * [src/grid.py] *)

Module Grid.

Record Grid : Type := mkGrid {
  config : Config;
  grid_levels : list Dec.Decimal;
  grid_width : Dec.Decimal;
  grid_center_price : Dec.Decimal
}.

(** [Grid.__init__] *)
Definition init (cfg : Config) : Grid :=
  mkGrid cfg [] Dec.zero Dec.zero.

(** The [while current_price <= new_end_price] loop of [generate]:
    [levels] is [self.grid_levels], appended to in place. *)
Fixpoint generate_loop (fuel : nat) (interval new_end_price : Dec.Decimal)
    (current_price : Dec.Decimal) (levels : list Dec.Decimal)
    : option (list Dec.Decimal) :=
  match fuel with
  | O => None
  | S fuel' =>
      if Dec.leb current_price new_end_price
      then generate_loop fuel' interval new_end_price
             (Dec.add current_price interval) (levels ++ [current_price])
      else Some levels
  end.

(** [Grid.generate].  The result is the grid after the call; the value
    returned to the caller is its [grid_levels]. *)
Definition generate (fuel : nat) (g : Grid) (center_price : Dec.Decimal)
    : Outcome Grid :=
  let center_price_dec := center_price in
  let start_price_dec := startPrice (config g) in
  let end_price_dec := endPrice (config g) in
  let grid_divisions := gridSize (config g) in
  let width := Dec.sub end_price_dec start_price_dec in
  match Dec.div width grid_divisions with
  | None => Raises
  | Some interval =>
      let half := Dec.div_nz width Dec.two in
      let new_start_price := Dec.sub center_price_dec half in
      let new_end_price := Dec.add center_price_dec half in
      match generate_loop fuel interval new_end_price new_start_price [] with
      | None => Diverges
      | Some levels => Returns (mkGrid (config g) levels width center_price_dec)
      end
  end.

End Grid.

(* ================================================================== *)
(** * [src/risk.py] *)

Module RiskManager.

Definition max_consecutive_reason : string := "Max Consecutive Positions Triggered"%string.
Definition stop_loss_reason : string := "Stop Loss Triggered"%string.
Definition take_profit_reason : string := "Take Profit Triggered"%string.
Definition range_exit_reason : string := "Range Exit Rule Triggered"%string.

(** [RiskManager._check_max_consecutive_positions] *)
Definition _check_max_consecutive_positions (cfg : Config)
    (position_counter : Z) : bool :=
  let max_positions_str := Py.get (maxConsecutiveGridPositions cfg) (Py.VStr "3"%string) in
  if Py.is_unlimited max_positions_str then false
  else
    match Py.int max_positions_str with
    | Some max_positions => position_counter >=? max_positions
    | None => false
    end.

(** [RiskManager._check_range_exit_rule] *)
Definition _check_range_exit_rule (cfg : Config) (grid : Grid.Grid)
    (current_price_dec : Dec.Decimal) : bool :=
  let half := Dec.div_nz (Grid.grid_width grid) Dec.two in
  let active_grid_lower_boundary := Dec.sub (Grid.grid_center_price grid) half in
  let active_grid_upper_boundary := Dec.add (Grid.grid_center_price grid) half in
  let threshold_percent := Dec.div_nz (rangeExitThresholdPercent cfg) Dec.hundred in
  let exit_threshold_amount := Dec.mul (Grid.grid_width grid) threshold_percent in
  let upper_exit_price := Dec.add active_grid_upper_boundary exit_threshold_amount in
  let lower_exit_price := Dec.sub active_grid_lower_boundary exit_threshold_amount in
  Dec.leb upper_exit_price current_price_dec
  || Dec.leb current_price_dec lower_exit_price.

(** [RiskManager._check_stop_loss]; [sl] is [config['stopLossPercent']],
    which the caller has found to be set. *)
Definition _check_stop_loss (cfg : Config) (sl : Dec.Decimal)
    (current_price_dec entry_price : Dec.Decimal) : bool :=
  let entry_price_dec := entry_price in
  let sl_percent := Dec.div_nz sl Dec.hundred in
  match mode cfg with
  | Long =>
      let sl_price := Dec.mul entry_price_dec (Dec.sub Dec.one sl_percent) in
      Dec.leb current_price_dec sl_price
  | Short =>
      let sl_price := Dec.mul entry_price_dec (Dec.add Dec.one sl_percent) in
      Dec.leb sl_price current_price_dec
  | Neutral => false
  end.

(** [RiskManager._check_take_profit] *)
Definition _check_take_profit (cfg : Config) (tp : Dec.Decimal)
    (current_price_dec entry_price : Dec.Decimal) : bool :=
  let entry_price_dec := entry_price in
  let tp_percent := Dec.div_nz tp Dec.hundred in
  match mode cfg with
  | Long =>
      let tp_price := Dec.mul entry_price_dec (Dec.add Dec.one tp_percent) in
      Dec.leb tp_price current_price_dec
  | Short =>
      let tp_price := Dec.mul entry_price_dec (Dec.sub Dec.one tp_percent) in
      Dec.leb current_price_dec tp_price
  | Neutral => false
  end.

(** The guard [config[key] and entry_price and check(..)] of
    [check_exit_conditions], with Python's short-circuit [and]. *)
Definition guarded (pct entry_price : option Dec.Decimal)
    (check : Dec.Decimal -> Dec.Decimal -> bool) : bool :=
  match pct, entry_price with
  | Some p, Some e => truthy pct && truthy entry_price && check p e
  | _, _ => false
  end.

(** [RiskManager.check_exit_conditions].  [open_positions] is not read
    by the method and is left out. *)
Definition check_exit_conditions (cfg : Config) (grid : Grid.Grid)
    (current_price : Dec.Decimal) (position_counter : Z)
    (entry_price : option Dec.Decimal) : option string :=
  let current_price_dec := current_price in
  if _check_max_consecutive_positions cfg position_counter
  then Some max_consecutive_reason
  else if guarded (stopLossPercent cfg) entry_price
            (fun sl e => _check_stop_loss cfg sl current_price_dec e)
  then Some stop_loss_reason
  else if guarded (takeProfitPercent cfg) entry_price
            (fun tp e => _check_take_profit cfg tp current_price_dec e)
  then Some take_profit_reason
  else if enableRangeExitRule cfg
            && _check_range_exit_rule cfg grid current_price_dec
  then Some range_exit_reason
  else None.

End RiskManager.

(* ================================================================== *)
(** * Python floats

    The bot also computes on binary floats ([float(..)] of exchange
    strings, TP/SL targets, order quantities).  Their arithmetic is left
    abstract: the development holds for every implementation of this
    interface.  [==] on floats is taken to decide equality, which holds
    of the finite floats once the two zeros are identified (no NaN). *)

Class FloatOps : Type := {
  float : Type;
  (** [float(d)] for a [Decimal] [d] *)
  of_decimal : Dec.Decimal -> float;
  (** [Decimal(str(x))] *)
  to_decimal : float -> Dec.Decimal;
  fadd : float -> float -> float;
  fsub : float -> float -> float;
  fmul : float -> float -> float;
  (** [x / y] for [y] other than zero *)
  fdiv : float -> float -> float;
  fabs : float -> float;
  (** [x <= y], [x < y] and [x == y] *)
  fleb : float -> float -> bool;
  fltb : float -> float -> bool;
  feqb : float -> float -> bool;
  feqb_eq : forall x y, feqb x y = true <-> x = y
}.

Section FloatLiterals.
Context `{FloatOps}.

Definition float_of_Z (n : Z) : float := of_decimal (Dec.of_Z n).

(** [x / y]: [None] stands for [ZeroDivisionError]. *)
Definition py_fdiv (x y : float) : option float :=
  if feqb y (float_of_Z 0) then None else Some (fdiv x y).

End FloatLiterals.

(** The two order sides the bot trades with. *)
Inductive Side : Type := BUY | SELL.

(* ================================================================== *)
(** * The exchange gateway ([src/exchange.py])

    The core only sees what each gateway call returns.  Every method of
    [Exchange] catches its own exceptions and answers [None] (or [False])
    on failure.  The gateway is a script of replies, one for each call in
    the order the calls are made, together with the record of the calls
    made so far: quantifying over the script quantifies over every
    sequence of gateway responses. *)

Module Exchange.
Section WithFloat.
Context `{FloatOps}.

(** A number handed to the gateway: a float or a [Decimal]. *)
Inductive Num : Type :=
| NFloat (x : float)
| NDec (d : Dec.Decimal).

(** [get_position_information]'s result, after the callers' [float(..)]
    of ['positionAmt'] and ['entryPrice']. *)
Record PositionInfo : Type := mkPositionInfo {
  positionAmt : float;
  entryPrice : float
}.

Inductive Request : Type :=
| GetMarketPrice (symbol : string)
| GetPositionInformation (symbol : string)
| CreateOrder (symbol : string) (order_type : string) (quantity : Num)
    (side : string) (price : option Num) (position_side : string)
| ClosePositionMarket (symbol : string) (quantity : Num) (side : string)
    (position_side : string)
| CloseAllPositions (symbol : string)
| CancelAllOpenOrders (symbol : string).

(** What the gateway answers to one call: [ok] is the truth value of
    the result of an order, close or cancel call; [position] and [price]
    are the results of the two queries ([price] is [Decimal(str(..))] of
    the float returned). *)
Record Reply : Type := mkReply {
  ok : bool;
  position : option PositionInfo;
  price : option Dec.Decimal
}.

Record Exchange : Type := mkExchange {
  script : nat -> Reply;
  calls : list Request
}.

Definition call (ex : Exchange) (r : Request) : Reply * Exchange :=
  (script ex (List.length (calls ex)), mkExchange (script ex) (calls ex ++ [r])).

Definition get_market_price (ex : Exchange) (symbol : string)
    : option Dec.Decimal * Exchange :=
  let (rep, ex') := call ex (GetMarketPrice symbol) in (price rep, ex').

Definition get_position_information (ex : Exchange) (symbol : string)
    : option PositionInfo * Exchange :=
  let (rep, ex') := call ex (GetPositionInformation symbol) in (position rep, ex').

Definition create_order (ex : Exchange) (symbol order_type : string)
    (quantity : Num) (side : string) (price : option Num)
    (position_side : string) : bool * Exchange :=
  let (rep, ex') :=
    call ex (CreateOrder symbol order_type quantity side price position_side) in
  (ok rep, ex').

Definition close_position_market (ex : Exchange) (symbol : string)
    (quantity : Num) (side position_side : string) : bool * Exchange :=
  let (rep, ex') :=
    call ex (ClosePositionMarket symbol quantity side position_side) in
  (ok rep, ex').

Definition close_all_positions (ex : Exchange) (symbol : string) : Exchange :=
  snd (call ex (CloseAllPositions symbol)).

Definition cancel_all_open_orders (ex : Exchange) (symbol : string) : Exchange :=
  snd (call ex (CancelAllOpenOrders symbol)).

End WithFloat.
End Exchange.

Definition side_name (s : Side) : string :=
  match s with BUY => "BUY" | SELL => "SELL" end.

(* ================================================================== *)
(** * [src/position_reopen_manager.py] *)

Module PositionReopenManager.
Section WithFloat.
Context `{FloatOps}.

(** One dictionary of the queue [positions_to_reopen]. *)
Record Entry : Type := mkEntry {
  grid_level : float;
  side : string;
  quantity : float;
  position_idx : string
}.

(** [==] on two such dictionaries. *)
Definition Entry_eqb (a b : Entry) : bool :=
  feqb (grid_level a) (grid_level b)
  && String.eqb (side a) (side b)
  && feqb (quantity a) (quantity b)
  && String.eqb (position_idx a) (position_idx b).

(** [list.remove(x)]: drops the first element equal to [x].  (Python
    raises [ValueError] when there is none; [process_reopen_queue] only
    removes an element it has just read from a copy of the list.) *)
Fixpoint remove_first (x : Entry) (l : list Entry) : list Entry :=
  match l with
  | [] => []
  | y :: l' => if Entry_eqb y x then l' else y :: remove_first x l'
  end.

(** [_get_position_side_from_idx] *)
Definition _get_position_side_from_idx (position_idx : string) : string :=
  if String.eqb position_idx "0" then "LONG"
  else if String.eqb position_idx "1" then "SHORT"
  else if String.eqb position_idx "2" then "BOTH"
  else "BOTH".

(** [add_position_to_reopen]: appends, whatever the queue holds. *)
Definition add_position_to_reopen (queue : list Entry)
    (level : Dec.Decimal) (side_ : string) (qty : float) (idx : string)
    : list Entry :=
  queue ++ [mkEntry (of_decimal level) side_ qty idx].

(** The order [process_reopen_queue] places for an entry; the price is
    sent formatted with eight decimals. *)
Definition order_of (cfg : Config) (e : Entry) : Exchange.Request :=
  Exchange.CreateOrder (symbol cfg) "LIMIT" (Exchange.NFloat (quantity e))
    (side e) (Some (Exchange.NFloat (grid_level e)))
    (_get_position_side_from_idx (position_idx e)).

(** The [for position_data in self.positions_to_reopen[:]] loop:
    [pending] is what remains of the copy, [queue] the live list. *)
Fixpoint reopen_loop (cfg : Config) (pending : list Entry)
    (queue : list Entry) (ex : Exchange.Exchange) (reopened_count : Z)
    : list Entry * Exchange.Exchange * Z :=
  match pending with
  | [] => (queue, ex, reopened_count)
  | position_data :: pending' =>
      let (result, ex') :=
        Exchange.create_order ex (symbol cfg) "LIMIT"
          (Exchange.NFloat (quantity position_data)) (side position_data)
          (Some (Exchange.NFloat (grid_level position_data)))
          (_get_position_side_from_idx (position_idx position_data)) in
      if result
      then reopen_loop cfg pending' (remove_first position_data queue) ex'
             (reopened_count + 1)
      else reopen_loop cfg pending' queue ex' reopened_count
  end.

(** [process_reopen_queue]: the queue and the gateway after the call,
    and the boolean returned. *)
Definition process_reopen_queue (cfg : Config) (queue : list Entry)
    (ex : Exchange.Exchange) : list Entry * Exchange.Exchange * bool :=
  if negb (enablePositionReopen cfg) then (queue, ex, false)
  else
    match queue with
    | [] => (queue, ex, false)
    | _ =>
        let '(queue', ex', reopened_count) := reopen_loop cfg queue queue ex 0 in
        (queue', ex', 0 <? reopened_count)
    end.

(** [clear_reopen_queue] *)
Definition clear_reopen_queue (queue : list Entry) : list Entry := [].

(** [get_queue_size] *)
Definition get_queue_size (queue : list Entry) : Z := Z.of_nat (List.length queue).

End WithFloat.
End PositionReopenManager.

(* ================================================================== *)
(** * [src/market_position_manager.py] *)

Module MarketPositionManager.
Section WithFloat.
Context `{FloatOps}.

(** What the analyzer prints for a successful run: a dictionary whose
    ['trend'] and ['momentum'] are a string or [null].  It always has
    its keys, so it is a true value. *)
Record Analysis : Type := mkAnalysis {
  trend : option string;
  momentum : option string
}.

(** The analyzer subprocess: the outcome of each run in turn, [None]
    for a run that failed (time-out, exit code, empty or malformed
    output, error payload). *)
Record Analyzer : Type := mkAnalyzer {
  runs : nat -> option Analysis;
  run_count : nat
}.

(** [market_position_targets] when it is not the empty dictionary. *)
Record Targets : Type := mkTargets {
  target_entry_price : float;
  target_side : Side;
  sl_price : option float;
  tp_price : option float
}.

Inductive Action : Type := OPEN_LONG | OPEN_SHORT | CLOSE.

Inductive Trigger : Type := TAKE_PROFIT | STOP_LOSS.

(** The attributes of a [MarketPositionManager]; the gateway it shares
    with the bot is passed next to it.  Times are seconds. *)
Record State : Type := mkState {
  last_analysis_time : option Z;
  last_analysis_result : option Analysis;
  market_position : option Side;
  market_position_entry_price : option float;
  market_position_targets : option Targets;
  market_position_reopens : Z;
  last_signal : option string
}.

(** [MarketPositionManager.__init__] *)
Definition init : State :=
  mkState None None None None None 0 None.

Definition set_reopens (st : State) (n : Z) : State :=
  mkState (last_analysis_time st) (last_analysis_result st) (market_position st)
    (market_position_entry_price st) (market_position_targets st) n
    (last_signal st).

(** [should_run_analysis] at the clock reading [now]. *)
Definition should_run_analysis (cfg : Config) (st : State) (now : Z) : bool :=
  match last_analysis_time st with
  | None => true
  | Some t => now - t >=? analysisIntervalMinutes cfg * 60
  end.

(** The [for attempt in range(1, max_retries + 1)] loop of
    [run_volatility_detector_analysis]. *)
Fixpoint attempt_loop (attempts : nat) (an : Analyzer)
    : option Analysis * Analyzer :=
  match attempts with
  | O => (None, an)
  | S attempts' =>
      let an' := mkAnalyzer (runs an) (S (run_count an)) in
      match runs an (run_count an) with
      | Some analysis_result => (Some analysis_result, an')
      | None => attempt_loop attempts' an'
      end
  end.

(** [run_volatility_detector_analysis]: a success records the time. *)
Definition run_volatility_detector_analysis (cfg : Config) (st : State)
    (an : Analyzer) (now : Z) : option Analysis * State * Analyzer :=
  match attempt_loop (Z.to_nat (volatilityDetectorMaxRetries cfg)) an with
  | (Some analysis_result, an') =>
      (Some analysis_result,
       mkState (Some now) (last_analysis_result st) (market_position st)
         (market_position_entry_price st) (market_position_targets st)
         (market_position_reopens st) (last_signal st),
       an')
  | (None, an') => (None, st, an')
  end.

(** How an f-string prints a value that is a string or [None]. *)
Definition fmt (v : option string) : string :=
  match v with
  | Some s => s
  | None => "None"
  end.

(** [==] on two values that are a string or [None]. *)
Definition value_eqb (a b : option string) : bool :=
  match a, b with
  | Some x, Some y => String.eqb x y
  | None, None => true
  | _, _ => false
  end.

Definition nonempty (s : option string) : bool :=
  match s with
  | Some s' => negb (String.eqb s' EmptyString)
  | None => false
  end.

(** The last part of [determine_action]: the action for a signal. *)
Definition classify (cfg : Config) (trend_ momentum_ : option string)
    : option Action :=
  if value_eqb trend_ (Some "UPTREND"%string)
     && value_eqb momentum_ (Some "OVERBOUGHT"%string)
  then Some OPEN_LONG
  else if value_eqb trend_ (Some "DOWNTREND"%string)
          && value_eqb momentum_ (Some "OVERSOLD"%string)
  then Some OPEN_SHORT
  else if value_eqb momentum_ (Some "NEUTRAL"%string)
  then
    let neutral_action := Py.lower (Py.get (neutralMomentumAction cfg) "stop"%string) in
    if String.eqb neutral_action "stop" then Some CLOSE else None
  else None.

(** [determine_action] *)
Definition determine_action (cfg : Config) (st : State)
    (analysis_result : Analysis) : option Action * State :=
  let trend_ := trend analysis_result in
  let momentum_ := momentum analysis_result in
  let current_signal := (fmt trend_ ++ "_" ++ fmt momentum_)%string in
  let reopens :=
    if nonempty (last_signal st)
       && negb (value_eqb (last_signal st) (Some current_signal))
    then 0 else market_position_reopens st in
  let st1 :=
    mkState (last_analysis_time st) (last_analysis_result st)
      (market_position st) (market_position_entry_price st)
      (market_position_targets st) reopens (Some current_signal) in
  let same :=
    match last_analysis_result st1 with
    | Some prev =>
        value_eqb trend_ (trend prev) && value_eqb momentum_ (momentum prev)
    | None => false
    end in
  if same then (None, st1)
  else
    let st2 :=
      mkState (last_analysis_time st1) (Some analysis_result)
        (market_position st1) (market_position_entry_price st1)
        (market_position_targets st1) (market_position_reopens st1)
        (last_signal st1) in
    (classify cfg trend_ momentum_, st2).

(** [_calculate_market_position_targets] *)
Definition _calculate_market_position_targets (cfg : Config)
    (entry_price : float) (side : Side) : Targets :=
  let sl :=
    match stopLossPercent cfg with
    | Some pct =>
        if truthy (stopLossPercent cfg) then
          let sl_percent := fdiv (of_decimal pct) (float_of_Z 100) in
          match side with
          | BUY => Some (fmul entry_price (fsub (float_of_Z 1) sl_percent))
          | SELL => Some (fmul entry_price (fadd (float_of_Z 1) sl_percent))
          end
        else None
    | None => None
    end in
  let tp :=
    match takeProfitPercent cfg with
    | Some pct =>
        if truthy (takeProfitPercent cfg) then
          let tp_percent := fdiv (of_decimal pct) (float_of_Z 100) in
          match side with
          | BUY => Some (fmul entry_price (fadd (float_of_Z 1) tp_percent))
          | SELL => Some (fmul entry_price (fsub (float_of_Z 1) tp_percent))
          end
        else None
    | None => None
    end in
  mkTargets entry_price side sl tp.

(** [open_market_position].  A zero price makes the [QUOTE] quantity
    raise [ZeroDivisionError], which the method's [except] turns into
    [False]. *)
Definition open_market_position (cfg : Config) (st : State)
    (ex : Exchange.Exchange) (side : Side) (current_price : Dec.Decimal)
    : bool * State * Exchange.Exchange :=
  let position_size := of_decimal (positionSize cfg) in
  let quantity :=
    if String.eqb (positionSizeType cfg) "QUOTE"
    then py_fdiv position_size (of_decimal current_price)
    else Some position_size in
  match quantity with
  | None => (false, st, ex)
  | Some quantity =>
      let (result, ex') :=
        Exchange.create_order ex (symbol cfg) "MARKET" (Exchange.NFloat quantity)
          (side_name side) None
          (match side with BUY => "LONG" | SELL => "SHORT" end) in
      if result then
        (true,
         mkState (last_analysis_time st) (last_analysis_result st) (Some side)
           (Some (of_decimal current_price))
           (Some (_calculate_market_position_targets cfg
                    (of_decimal current_price) side))
           (market_position_reopens st) (last_signal st),
         ex')
      else (false, st, ex')
  end.

(** [close_market_position] (never called with [reopen_on_tp_sl]). *)
Definition close_market_position (cfg : Config) (st : State)
    (ex : Exchange.Exchange) : bool * State * Exchange.Exchange :=
  match market_position st with
  | None => (true, st, ex)
  | Some _ =>
      let (position_info, ex1) :=
        Exchange.get_position_information ex (symbol cfg) in
      let gone :=
        mkState (last_analysis_time st) (last_analysis_result st) None
          (market_position_entry_price st) None
          (market_position_reopens st) (last_signal st) in
      match position_info with
      | None => (true, gone, ex1)
      | Some info =>
          let position_amt := Exchange.positionAmt info in
          if feqb position_amt (float_of_Z 0) then (true, gone, ex1)
          else
            let quantity := fabs position_amt in
            let long := fltb (float_of_Z 0) position_amt in
            let close_side := if long then "SELL"%string else "BUY"%string in
            let (result, ex2) :=
              Exchange.close_position_market ex1 (symbol cfg)
                (Exchange.NFloat quantity) close_side
                (if long then "LONG" else "SHORT")%string in
            if result then
              (true,
               mkState (last_analysis_time st) (last_analysis_result st) None
                 None None (market_position_reopens st) (last_signal st),
               ex2)
            else (false, st, ex2)
      end
  end.

(** [check_market_position_tp_sl] *)
Definition check_market_position_tp_sl (st : State)
    (current_price : Dec.Decimal) : option Trigger :=
  match market_position st, market_position_targets st with
  | Some _, Some targets =>
      let current_price_float := of_decimal current_price in
      let side := target_side targets in
      let tp_hit :=
        match tp_price targets with
        | Some tp =>
            match side with
            | BUY => fleb tp current_price_float
            | SELL => fleb current_price_float tp
            end
        | None => false
        end in
      let sl_hit :=
        match sl_price targets with
        | Some sl =>
            match side with
            | BUY => fleb current_price_float sl
            | SELL => fleb sl current_price_float
            end
        | None => false
        end in
      if tp_hit then Some TAKE_PROFIT
      else if sl_hit then Some STOP_LOSS
      else None
  | _, _ => None
  end.

(** [_can_reopen_market_position] *)
Definition _can_reopen_market_position (cfg : Config) (st : State) : bool :=
  let max_reopens_str :=
    Py.get (maxMarketPositionReopens cfg) (Py.VStr "unlimited"%string) in
  if Py.is_unlimited max_reopens_str then true
  else
    match Py.int max_reopens_str with
    | Some max_reopens => negb (market_position_reopens st >=? max_reopens)
    | None => true
    end.

(** [process_analysis] at the clock reading [now]. *)
Definition process_analysis (cfg : Config) (st : State)
    (ex : Exchange.Exchange) (an : Analyzer) (now : Z)
    (current_price : Dec.Decimal)
    : bool * State * Exchange.Exchange * Analyzer :=
  if negb (enableMarketPositionLogic cfg) then (false, st, ex, an)
  else if negb (should_run_analysis cfg st now) then (false, st, ex, an)
  else
    match run_volatility_detector_analysis cfg st an now with
    | (None, st1, an1) => (false, st1, ex, an1)
    | (Some analysis_result, st1, an1) =>
        match determine_action cfg st1 analysis_result with
        | (None, st2) => (true, st2, ex, an1)
        | (Some OPEN_LONG, st2) =>
            let '(_, st3, ex3) := close_market_position cfg st2 ex in
            let st4 := set_reopens st3 0 in
            let '(_, st5, ex5) := open_market_position cfg st4 ex3 BUY current_price in
            (true, st5, ex5, an1)
        | (Some OPEN_SHORT, st2) =>
            let '(_, st3, ex3) := close_market_position cfg st2 ex in
            let st4 := set_reopens st3 0 in
            let '(_, st5, ex5) := open_market_position cfg st4 ex3 SELL current_price in
            (true, st5, ex5, an1)
        | (Some CLOSE, st2) =>
            let '(_, st3, ex3) := close_market_position cfg st2 ex in
            (true, set_reopens st3 0, ex3, an1)
        end
    end.

(** [handle_market_position_tp_sl] *)
Definition handle_market_position_tp_sl (cfg : Config) (st : State)
    (ex : Exchange.Exchange) (tp_sl_trigger : Trigger)
    (current_price : Dec.Decimal) : bool * State * Exchange.Exchange :=
  match market_position st with
  | None => (false, st, ex)
  | Some _ =>
      if negb (_can_reopen_market_position cfg st) then
        let '(_, st1, ex1) := close_market_position cfg st ex in
        (false, st1, ex1)
      else if match last_analysis_result st with
              | Some prev => value_eqb (momentum prev) (Some "NEUTRAL"%string)
              | None => false
              end
      then
        let '(_, st1, ex1) := close_market_position cfg st ex in
        (false, st1, ex1)
      else
        let (position_info, ex1) :=
          Exchange.get_position_information ex (symbol cfg) in
        match position_info with
        | None => (false, st, ex1)
        | Some info =>
            let position_amt := Exchange.positionAmt info in
            if feqb position_amt (float_of_Z 0) then (false, st, ex1)
            else
              let reopen_side :=
                if fltb (float_of_Z 0) position_amt then BUY else SELL in
              let '(_, st2, ex2) := close_market_position cfg st ex1 in
              let st3 := set_reopens st2 (market_position_reopens st2 + 1) in
              let '(_, st4, ex4) :=
                open_market_position cfg st3 ex2 reopen_side current_price in
              (true, st4, ex4)
        end
  end.

End WithFloat.
End MarketPositionManager.

(* ================================================================== *)
(** * [src/bot.py] *)

Module Bot.
Section WithFloat.
Context `{FloatOps}.

(** [position_targets] when it is not the empty dictionary. *)
Record Targets : Type := mkTargets {
  target_entry_price : float;
  target_position_side : string;
  sl_price : option float;
  tp_price : option float
}.

(** The attributes of a [Bot].  The risk manager has no state of its
    own; [analyzer] is the subprocess the market-position manager
    starts. *)
Record Bot : Type := mkBot {
  config : Config;
  exchange : Exchange.Exchange;
  grid : Grid.Grid;
  market_position_manager : MarketPositionManager.State;
  analyzer : MarketPositionManager.Analyzer;
  position_reopen_manager : list PositionReopenManager.Entry;
  is_grid_active : bool;
  open_positions : list Exchange.PositionInfo;
  position_counter : Z;
  position_targets : option Targets;
  _last_position_amt : float;
  _last_entry_price : option float;
  _last_position_side : option string
}.

(** How a tick ends when it ends normally: the loop goes on, or the
    manual shutdown has called [sys.exit]. *)
Inductive Tick : Type :=
| Next (b : Bot)
| Exit (b : Bot).

(** [[position_info] if position_info and
    float(position_info.get('positionAmt', 0)) != 0 else []] *)
Definition positions_of (position_info : option Exchange.PositionInfo)
    : list Exchange.PositionInfo :=
  match position_info with
  | Some info =>
      if feqb (Exchange.positionAmt info) (float_of_Z 0) then [] else [info]
  | None => []
  end.

(** ['LONG' if amt > 0 else 'SHORT' if dualSidePosition else 'BOTH'] *)
Definition position_side_of (cfg : Config) (position_amt : float) : string :=
  if fltb (float_of_Z 0) position_amt then "LONG"
  else if dualSidePosition cfg then "SHORT" else "BOTH".

(** [list.sort] on floats, as an insertion sort. *)
Fixpoint insert_sorted (x : float) (l : list float) : list float :=
  match l with
  | [] => [x]
  | y :: l' => if fltb x y then x :: l else y :: insert_sorted x l'
  end.

Definition sort (l : list float) : list float :=
  fold_left (fun acc x => insert_sorted x acc) l [].

(** [_find_next_grid_level] *)
Definition _find_next_grid_level (cfg : Config) (g : Grid.Grid)
    (entry_price : float) : option float :=
  match Grid.grid_levels g with
  | [] => None
  | _ =>
      let grid_levels := sort (map of_decimal (Grid.grid_levels g)) in
      match mode cfg with
      | Long => find (fun level => fltb entry_price level) grid_levels
      | Short => find (fun level => fltb level entry_price) (rev grid_levels)
      | Neutral => None
      end
  end.

(** [calculate_tp_sl_targets] *)
Definition calculate_tp_sl_targets (cfg : Config) (g : Grid.Grid)
    (entry_price : float) (position_side : string) : Targets :=
  let entry_price_float := entry_price in
  let sl :=
    match stopLossPercent cfg with
    | Some pct =>
        if truthy (stopLossPercent cfg) then
          let sl_percent := fdiv (of_decimal pct) (float_of_Z 100) in
          match mode cfg with
          | Long => Some (fmul entry_price_float (fsub (float_of_Z 1) sl_percent))
          | Short => Some (fmul entry_price_float (fadd (float_of_Z 1) sl_percent))
          | Neutral => None
          end
        else None
    | None => None
    end in
  let tp :=
    match tpMode cfg with
    | PERCENTAGE =>
        match takeProfitPercent cfg with
        | Some pct =>
            if truthy (takeProfitPercent cfg) then
              let tp_percent := fdiv (of_decimal pct) (float_of_Z 100) in
              match mode cfg with
              | Long => Some (fmul entry_price_float (fadd (float_of_Z 1) tp_percent))
              | Short => Some (fmul entry_price_float (fsub (float_of_Z 1) tp_percent))
              | Neutral => None
              end
            else None
        | None => None
        end
    | GRID_RANGE =>
        match _find_next_grid_level cfg g entry_price_float with
        | Some tp_price => if feqb tp_price (float_of_Z 0) then None else Some tp_price
        | None => None
        end
    end in
  mkTargets entry_price_float position_side sl tp.

(** [check_tp_sl_targets] *)
Definition check_tp_sl_targets (cfg : Config) (targets : option Targets)
    (current_price : Dec.Decimal) : option MarketPositionManager.Trigger :=
  let current_price_float := of_decimal current_price in
  match targets with
  | None => None
  | Some targets =>
      let tp_hit :=
        match tp_price targets with
        | Some tp =>
            match mode cfg with
            | Long => fleb tp current_price_float
            | Short => fleb current_price_float tp
            | Neutral => false
            end
        | None => false
        end in
      let sl_hit :=
        match sl_price targets with
        | Some sl =>
            match mode cfg with
            | Long => fleb current_price_float sl
            | Short => fleb sl current_price_float
            | Neutral => false
            end
        | None => false
        end in
      if tp_hit then Some MarketPositionManager.TAKE_PROFIT
      else if sl_hit then Some MarketPositionManager.STOP_LOSS
      else None
  end.

(** [_calculate_quantity]: the integer [0] of the error branches is the
    decimal zero. *)
Definition _calculate_quantity (cfg : Config) (price : Dec.Decimal)
    : Dec.Decimal :=
  let size := positionSize cfg in
  if String.eqb (positionSizeType cfg) "BASE" then size
  else if String.eqb (positionSizeType cfg) "QUOTE" then
    if Dec.ltb Dec.zero price then Dec.div_nz size price else Dec.zero
  else Dec.zero.

(** The side and position slot [place_grid_orders] gives a level, or
    [None] when the level is skipped. *)
Definition grid_order_side (cfg : Config) (level_price current_price : Dec.Decimal)
    : option (string * string) :=
  if dualSidePosition cfg then
    match mode cfg with
    | Long =>
        if Dec.ltb level_price current_price then Some ("BUY", "LONG")%string else None
    | Short =>
        if Dec.ltb current_price level_price then Some ("SELL", "SHORT")%string else None
    | Neutral =>
        if Dec.ltb level_price current_price then Some ("BUY", "LONG")%string
        else if Dec.ltb current_price level_price then Some ("SELL", "SHORT")%string
        else None
    end
  else
    match mode cfg with
    | Long =>
        if Dec.ltb level_price current_price then Some ("BUY", "BOTH")%string else None
    | Short =>
        if Dec.ltb current_price level_price then Some ("SELL", "BOTH")%string else None
    | Neutral =>
        if Dec.ltb level_price current_price then Some ("BUY", "BOTH")%string
        else if Dec.ltb current_price level_price then Some ("SELL", "BOTH")%string
        else None
    end.

(** [place_grid_orders]: the loop over [self.grid.grid_levels].
    [round(quantity, 5)] raises when the quantity has more than five
    digits before the point. *)
Fixpoint place_grid_orders (cfg : Config) (levels : list Dec.Decimal)
    (current_price : Dec.Decimal) (ex : Exchange.Exchange)
    : Outcome Exchange.Exchange :=
  match levels with
  | [] => Returns ex
  | level_price :: levels' =>
      match grid_order_side cfg level_price current_price with
      | None => place_grid_orders cfg levels' current_price ex
      | Some (side, position_side) =>
          let quantity := _calculate_quantity cfg level_price in
          if Dec.leb quantity Dec.zero
          then place_grid_orders cfg levels' current_price ex
          else
            match Dec.round_to 5 quantity with
            | None => Raises
            | Some rounded =>
                let (_, ex') :=
                  Exchange.create_order ex (symbol cfg) "LIMIT"
                    (Exchange.NDec rounded) side
                    (Some (Exchange.NDec level_price)) position_side in
                place_grid_orders cfg levels' current_price ex'
            end
      end
  end.

(** The block both grid resets of [run] share: cancel the orders,
    close the positions if any is known, clear the queue and the
    counters. *)
Definition reset_grid (b : Bot) : Bot :=
  let cfg := config b in
  let ex1 := Exchange.cancel_all_open_orders (exchange b) (symbol cfg) in
  let ex2 :=
    match open_positions b with
    | [] => ex1
    | _ => Exchange.close_all_positions ex1 (symbol cfg)
    end in
  mkBot cfg ex2 (grid b) (market_position_manager b) (analyzer b)
    (PositionReopenManager.clear_reopen_queue (position_reopen_manager b))
    false (open_positions b) 0 None (float_of_Z 0) None None.

Definition set_exchange (b : Bot) (ex : Exchange.Exchange) : Bot :=
  mkBot (config b) ex (grid b) (market_position_manager b) (analyzer b)
    (position_reopen_manager b) (is_grid_active b) (open_positions b)
    (position_counter b) (position_targets b) (_last_position_amt b)
    (_last_entry_price b) (_last_position_side b).

(** The manual shutdown at the top of [run]: cancel the orders, close
    an open position, and leave with [sys.exit(0)]. *)
Definition shutdown (b : Bot) : Bot :=
  let cfg := config b in
  let ex1 := Exchange.cancel_all_open_orders (exchange b) (symbol cfg) in
  let (position_info, ex2) := Exchange.get_position_information ex1 (symbol cfg) in
  let positions := positions_of position_info in
  let ex3 :=
    match positions with
    | [] => ex2
    | _ => Exchange.close_all_positions ex2 (symbol cfg)
    end in
  mkBot cfg ex3 (grid b) (market_position_manager b) (analyzer b)
    (position_reopen_manager b) (is_grid_active b) positions
    (position_counter b) (position_targets b) (_last_position_amt b)
    (_last_entry_price b) (_last_position_side b).

(** "Check market position TP/SL (if market position exists)". *)
Definition market_tp_sl (b : Bot) (current_price : Dec.Decimal) : Bot :=
  let mpm := market_position_manager b in
  match MarketPositionManager.market_position mpm with
  | None => b
  | Some _ =>
      match MarketPositionManager.check_market_position_tp_sl mpm current_price with
      | None => b
      | Some tp_sl_trigger =>
          let '(_, mpm', ex') :=
            MarketPositionManager.handle_market_position_tp_sl (config b) mpm
              (exchange b) tp_sl_trigger current_price in
          mkBot (config b) ex' (grid b) mpm' (analyzer b)
            (position_reopen_manager b) (is_grid_active b) (open_positions b)
            (position_counter b) (position_targets b) (_last_position_amt b)
            (_last_entry_price b) (_last_position_side b)
      end
  end.

(** "Process position reopen queue". *)
Definition drain (b : Bot) : Bot :=
  let '(queue', ex', _) :=
    PositionReopenManager.process_reopen_queue (config b)
      (position_reopen_manager b) (exchange b) in
  mkBot (config b) ex' (grid b) (market_position_manager b) (analyzer b)
    queue' (is_grid_active b) (open_positions b) (position_counter b)
    (position_targets b) (_last_position_amt b) (_last_entry_price b)
    (_last_position_side b).

(** The first half of the [if self.is_grid_active:] block: read the
    position and detect a new position or a closure.
    [Decimal(str(None))] raises if a closure is seen with no entry price
    on record. *)
Definition track_position (b : Bot) : Outcome Bot :=
  let cfg := config b in
  let (position_info, ex1) :=
    Exchange.get_position_information (exchange b) (symbol cfg) in
  let positions := positions_of position_info in
  match positions with
  | info :: _ =>
      let amt := Exchange.positionAmt info in
      if feqb (_last_position_amt b) (float_of_Z 0) then
        let entry_price := Exchange.entryPrice info in
        let position_side := position_side_of cfg amt in
        Returns
          (mkBot cfg ex1 (grid b) (market_position_manager b) (analyzer b)
             (position_reopen_manager b) (is_grid_active b) positions
             (position_counter b + 1)
             (Some (calculate_tp_sl_targets cfg (grid b) entry_price position_side))
             amt (Some entry_price) (Some position_side))
      else
        Returns
          (mkBot cfg ex1 (grid b) (market_position_manager b) (analyzer b)
             (position_reopen_manager b) (is_grid_active b) positions
             (position_counter b) (position_targets b) amt
             (_last_entry_price b) (_last_position_side b))
  | [] =>
      let closed queue :=
        mkBot cfg ex1 (grid b) (market_position_manager b) (analyzer b)
          queue (is_grid_active b) positions (position_counter b) None
          (float_of_Z 0) None None in
      if negb (feqb (_last_position_amt b) (float_of_Z 0))
         && enablePositionReopen cfg
      then
        let '(reopen_side, position_idx) :=
          if fltb (float_of_Z 0) (_last_position_amt b)
          then ("SELL", "1")%string else ("BUY", "0")%string in
        match _last_entry_price b with
        | None => Raises
        | Some last_entry =>
            Returns
              (closed
                 (PositionReopenManager.add_position_to_reopen
                    (position_reopen_manager b) (to_decimal last_entry)
                    reopen_side (fabs (_last_position_amt b)) position_idx))
        end
      else Returns (closed (position_reopen_manager b))
  end.

(** The second half: the per-position TP/SL targets, then the exit
    conditions of the risk manager. *)
Definition check_exits (b : Bot) (current_price : Dec.Decimal) : Bot :=
  let cfg := config b in
  let entry_price :=
    match open_positions b with
    | info :: _ => Some (Exchange.entryPrice info)
    | [] => None
    end in
  let b1 :=
    match check_tp_sl_targets cfg (position_targets b) current_price with
    | None => b
    | Some _ =>
        let ex1 :=
          match open_positions b with
          | info :: _ =>
              let position_amt := Exchange.positionAmt info in
              let long := fltb (float_of_Z 0) position_amt in
              snd (Exchange.close_position_market (exchange b) (symbol cfg)
                     (Exchange.NFloat (fabs position_amt))
                     (if long then "SELL" else "BUY")%string
                     (position_side_of cfg position_amt))
          | [] => exchange b
          end in
        mkBot cfg ex1 (grid b) (market_position_manager b) (analyzer b)
          (position_reopen_manager b) (is_grid_active b) (open_positions b)
          (position_counter b) None (_last_position_amt b)
          (_last_entry_price b) (_last_position_side b)
    end in
  match RiskManager.check_exit_conditions cfg (grid b1) current_price
          (position_counter b1) (option_map to_decimal entry_price) with
  | Some _ => reset_grid b1
  | None => b1
  end.

(** [momentum != 'NEUTRAL'] on the last stored analysis, when there is
    one. *)
Definition momentum_not_neutral (b : Bot) : bool :=
  match MarketPositionManager.last_analysis_result (market_position_manager b) with
  | Some prev =>
      negb (MarketPositionManager.value_eqb
              (MarketPositionManager.momentum prev) (Some "NEUTRAL"%string))
  | None => false
  end.

(** The [if not self.is_grid_active:] block. *)
Definition activate_grid (fuel : nat) (b : Bot) (current_price : Dec.Decimal)
    : Outcome Bot :=
  if is_grid_active b then Returns b
  else
    let should_activate_grid :=
      negb (gridBotNeutralOnly (config b) && momentum_not_neutral b) in
    if should_activate_grid then
      match Grid.generate fuel (grid b) current_price with
      | Raises => Raises
      | Diverges => Diverges
      | Returns g =>
          match place_grid_orders (config b) (Grid.grid_levels g)
                  current_price (exchange b) with
          | Raises => Raises
          | Diverges => Diverges
          | Returns ex' =>
              Returns
                (mkBot (config b) ex' g (market_position_manager b) (analyzer b)
                   (position_reopen_manager b) true (open_positions b)
                   (position_counter b) (position_targets b)
                   (_last_position_amt b) (_last_entry_price b)
                   (_last_position_side b))
          end
      end
    else Returns b.

(** "Check if grid should be deactivated based on neutral-only setting". *)
Definition neutral_only_deactivate (b : Bot) : Bot :=
  if is_grid_active b && gridBotNeutralOnly (config b) && momentum_not_neutral b
  then reset_grid b
  else b.

(** "Process market position analysis". *)
Definition analysis (b : Bot) (now : Z) (current_price : Dec.Decimal) : Bot :=
  let '(_, mpm', ex', an') :=
    MarketPositionManager.process_analysis (config b)
      (market_position_manager b) (exchange b) (analyzer b) now current_price in
  mkBot (config b) ex' (grid b) mpm' an' (position_reopen_manager b)
    (is_grid_active b) (open_positions b) (position_counter b)
    (position_targets b) (_last_position_amt b) (_last_entry_price b)
    (_last_position_side b).

Definition bind {A B : Type} (o : Outcome A) (k : A -> Outcome B) : Outcome B :=
  match o with
  | Returns a => k a
  | Raises => Raises
  | Diverges => Diverges
  end.

(** [Bot.run]: one tick.  [close_now] tells whether the file
    [.close_now] exists, [now] is the clock; [fuel] bounds the loop
    of [Grid.generate]. *)
Definition run (fuel : nat) (b : Bot) (close_now : bool) (now : Z)
    : Outcome Tick :=
  if close_now then Returns (Exit (shutdown b))
  else
    let (price_str, ex1) :=
      Exchange.get_market_price (exchange b) (symbol (config b)) in
    let b0 := set_exchange b ex1 in
    match price_str with
    | None => Returns (Next b0)
    | Some current_price =>
        if Dec.coef current_price =? 0 then Returns (Next b0)
        else
          let b1 := market_tp_sl b0 current_price in
          let b2 := drain b1 in
          bind (if is_grid_active b2
                then bind (track_position b2)
                       (fun b3 => Returns (check_exits b3 current_price))
                else Returns b2)
            (fun b4 =>
               bind (activate_grid fuel b4 current_price)
                 (fun b5 =>
                    let b6 := neutral_only_deactivate b5 in
                    Returns (Next (analysis b6 now current_price))))
    end.


End WithFloat.
End Bot.

(* ================================================================== *)
(** * [Volatility_Detector_Binance/src/bot/analyze_ticker.py]

    The analyzer the market-position manager starts as a subprocess.
    [extract_trend_and_momentum] reads three indicators of the analysis,
    floats computed by [indicators.py], and only compares them; a
    comparison of floats is exact, so a float is the rational it
    denotes, or NaN.  The infinities are not modelled.  Of the
    dictionary it returns, printed as JSON and read back by
    [run_volatility_detector_analysis], the manager reads ['trend'] and
    ['momentum']. *)

Module AnalyzeTicker.

Inductive Number : Type :=
| Finite (q : Q)
| NaN.

(** [results['indicators']]: a key is missing when the indicator could
    not be computed. *)
Record Indicators : Type := mkIndicators {
  sma_9 : option Number;
  sma_26 : option Number;
  stoch_k_14 : option Number
}.

(** Truth value of [indicators.get(key, None)]: [None] and zero are
    false, NaN is true. *)
Definition truth (x : option Number) : bool :=
  match x with
  | Some (Finite q) => negb (Qeq_bool q 0)
  | Some NaN => true
  | None => false
  end.

(** [x > y] and [x < y]: false as soon as one side is NaN. *)
Definition gtb (x y : Number) : bool :=
  match x, y with
  | Finite a, Finite b => negb (Qle_bool a b)
  | _, _ => false
  end.

Definition ltb (x y : Number) : bool := gtb y x.

(** [extract_trend_and_momentum]; [results] is [None] when the analysis
    failed. *)
Definition extract_trend_and_momentum (results : option Indicators)
    : option MarketPositionManager.Analysis :=
  match results with
  | None => None
  | Some indicators =>
      let trend :=
        match sma_9 indicators, sma_26 indicators with
        | Some s9, Some s26 =>
            if truth (sma_9 indicators) && truth (sma_26 indicators)
            then if gtb s9 s26 then Some "UPTREND"%string
                 else Some "DOWNTREND"%string
            else None
        | _, _ => None
        end in
      let momentum :=
        match stoch_k_14 indicators with
        | Some stoch_k =>
            if ltb stoch_k (Finite 20) then Some "OVERSOLD"%string
            else if gtb stoch_k (Finite 80) then Some "OVERBOUGHT"%string
            else Some "NEUTRAL"%string
        | None => None
        end in
      Some (MarketPositionManager.mkAnalysis trend momentum)
  end.

End AnalyzeTicker.

(* ================================================================== *)
(** * A floating-point stand-in for worked examples

    Decimals kept in normal form (no trailing zero in the coefficient),
    computed with the context's own operations.  It is one
    implementation of [FloatOps] among others; the theorems below hold
    for all of them. *)

Module DecimalFloat.

Definition normalize (d : Dec.Decimal) : Dec.Decimal :=
  if Dec.coef d =? 0 then Dec.mkDec 0 0
  else
    let n := Dec.ndigits (Z.abs (Dec.coef d)) in
    let '(q, e) := Dec.strip_zeros (Z.to_nat n) (Dec.expo d + n) (Dec.coef d) (Dec.expo d) in
    Dec.mkDec q e.

Definition structural_eqb (x y : Dec.Decimal) : bool :=
  (Dec.coef x =? Dec.coef y) && (Dec.expo x =? Dec.expo y).

Lemma structural_eqb_eq (x y : Dec.Decimal) :
  structural_eqb x y = true <-> x = y.
Proof.
  unfold structural_eqb. destruct x as [cx ex], y as [cy ey]; simpl.
  rewrite andb_true_iff, !Z.eqb_eq. split.
  - intros [-> ->]. reflexivity.
  - intros E. injection E as -> ->. split; reflexivity.
Qed.

#[export] Instance ops : FloatOps := {|
  float := Dec.Decimal;
  of_decimal := fun d => normalize (Dec.fix_ d);
  to_decimal := fun x => x;
  fadd := fun x y => normalize (Dec.add x y);
  fsub := fun x y => normalize (Dec.sub x y);
  fmul := fun x y => normalize (Dec.mul x y);
  fdiv := fun x y => normalize (Dec.div_nz x y);
  fabs := fun x => Dec.mkDec (Z.abs (Dec.coef x)) (Dec.expo x);
  fleb := Dec.leb;
  fltb := Dec.ltb;
  feqb := structural_eqb;
  feqb_eq := structural_eqb_eq
|}.

End DecimalFloat.

(* ================================================================== *)
(** * Worked configurations *)

Module Examples.

(** [Decimal(str(x))] for a float [x] with one decimal, [n / 10]. *)
Definition tenths (n : Z) : Dec.Decimal := Dec.mkDec n (-1).

(** A long-mode configuration with the defaults of [load_config] and
    the grid of the scenario: range [900, 1100], four divisions. *)
Definition base : Config := {|
  mode := Long;
  symbol := "BTCUSDT";
  leverage := 20;
  startPrice := tenths 9000;
  endPrice := tenths 11000;
  gridSize := tenths 40;
  positionSizeType := "QUOTE";
  positionSize := tenths 100;
  enableRangeExitRule := true;
  rangeExitThresholdPercent := tenths 1000;
  tpMode := PERCENTAGE;
  takeProfitPercent := None;
  stopLossPercent := None;
  dualSidePosition := false;
  enableMarketPositionLogic := true;
  analysisIntervalMinutes := 10;
  volatilityDetectorMaxRetries := 3;
  enablePositionReopen := true;
  maxConsecutiveGridPositions := Some (Py.VStr "3");
  gridBotNeutralOnly := false;
  maxMarketPositionReopens := Some (Py.VStr "unlimited");
  neutralMomentumAction := Some "stop"%string
|}.

Definition with_range (cfg : Config) (start_ end_ divisions : Dec.Decimal) : Config :=
  {| mode := mode cfg; symbol := symbol cfg; leverage := leverage cfg;
     startPrice := start_; endPrice := end_; gridSize := divisions;
     positionSizeType := positionSizeType cfg; positionSize := positionSize cfg;
     enableRangeExitRule := enableRangeExitRule cfg;
     rangeExitThresholdPercent := rangeExitThresholdPercent cfg;
     tpMode := tpMode cfg; takeProfitPercent := takeProfitPercent cfg;
     stopLossPercent := stopLossPercent cfg;
     dualSidePosition := dualSidePosition cfg;
     enableMarketPositionLogic := enableMarketPositionLogic cfg;
     analysisIntervalMinutes := analysisIntervalMinutes cfg;
     volatilityDetectorMaxRetries := volatilityDetectorMaxRetries cfg;
     enablePositionReopen := enablePositionReopen cfg;
     maxConsecutiveGridPositions := maxConsecutiveGridPositions cfg;
     gridBotNeutralOnly := gridBotNeutralOnly cfg;
     maxMarketPositionReopens := maxMarketPositionReopens cfg;
     neutralMomentumAction := neutralMomentumAction cfg |}.

Definition with_risk (cfg : Config) (m : Mode) (tpm : TpMode)
    (tp sl : option Dec.Decimal) (range_exit : bool) : Config :=
  {| mode := m; symbol := symbol cfg; leverage := leverage cfg;
     startPrice := startPrice cfg; endPrice := endPrice cfg;
     gridSize := gridSize cfg;
     positionSizeType := positionSizeType cfg; positionSize := positionSize cfg;
     enableRangeExitRule := range_exit;
     rangeExitThresholdPercent := rangeExitThresholdPercent cfg;
     tpMode := tpm; takeProfitPercent := tp; stopLossPercent := sl;
     dualSidePosition := dualSidePosition cfg;
     enableMarketPositionLogic := enableMarketPositionLogic cfg;
     analysisIntervalMinutes := analysisIntervalMinutes cfg;
     volatilityDetectorMaxRetries := volatilityDetectorMaxRetries cfg;
     enablePositionReopen := enablePositionReopen cfg;
     maxConsecutiveGridPositions := maxConsecutiveGridPositions cfg;
     gridBotNeutralOnly := gridBotNeutralOnly cfg;
     maxMarketPositionReopens := maxMarketPositionReopens cfg;
     neutralMomentumAction := neutralMomentumAction cfg |}.

Definition with_limits (cfg : Config) (reopen : bool)
    (max_grid max_reopens : option Py.Value) : Config :=
  {| mode := mode cfg; symbol := symbol cfg; leverage := leverage cfg;
     startPrice := startPrice cfg; endPrice := endPrice cfg;
     gridSize := gridSize cfg;
     positionSizeType := positionSizeType cfg; positionSize := positionSize cfg;
     enableRangeExitRule := enableRangeExitRule cfg;
     rangeExitThresholdPercent := rangeExitThresholdPercent cfg;
     tpMode := tpMode cfg; takeProfitPercent := takeProfitPercent cfg;
     stopLossPercent := stopLossPercent cfg;
     dualSidePosition := dualSidePosition cfg;
     enableMarketPositionLogic := enableMarketPositionLogic cfg;
     analysisIntervalMinutes := analysisIntervalMinutes cfg;
     volatilityDetectorMaxRetries := volatilityDetectorMaxRetries cfg;
     enablePositionReopen := reopen;
     maxConsecutiveGridPositions := max_grid;
     gridBotNeutralOnly := gridBotNeutralOnly cfg;
     maxMarketPositionReopens := max_reopens;
     neutralMomentumAction := neutralMomentumAction cfg |}.

(** The grid of the scenario, generated at the center 1000. *)
Definition grid1000 : Grid.Grid :=
  Grid.mkGrid base
    [tenths 9000; tenths 9500; tenths 10000; tenths 10500; tenths 11000]
    (tenths 2000) (tenths 10000).

(** Gateway replies, and a gateway that answers the calls made to it
    with the replies of a list, in order (a failure once it runs out). *)
Definition amount (amt entry : Z) : @Exchange.PositionInfo DecimalFloat.ops :=
  Exchange.mkPositionInfo (H := DecimalFloat.ops) (Dec.of_Z amt) (Dec.of_Z entry).

Definition failure : @Exchange.Reply DecimalFloat.ops :=
  Exchange.mkReply false None None.

Definition success : @Exchange.Reply DecimalFloat.ops :=
  Exchange.mkReply true None None.

Definition holding (amt entry : Z) : @Exchange.Reply DecimalFloat.ops :=
  Exchange.mkReply true (Some (amount amt entry)) None.

Definition quote (p : Dec.Decimal) : @Exchange.Reply DecimalFloat.ops :=
  Exchange.mkReply true None (Some p).

Definition gateway (replies : list (@Exchange.Reply DecimalFloat.ops))
    : @Exchange.Exchange DecimalFloat.ops :=
  Exchange.mkExchange (fun n => nth n replies failure) [].

(** At most two reopens of the market position. *)
Definition two_reopens : Config :=
  with_limits (with_risk base Long PERCENTAGE (Some (tenths 100))
                 (Some (tenths 50)) true)
    true (Some (Py.VStr "3")) (Some (Py.VStr "2")).

(** A negative limit, and a limit that is not a number. *)
Definition negative_limit : Config :=
  with_limits base true (Some (Py.VStr "3")) (Some (Py.VStr "-1")).

Definition unparsable_limits : Config :=
  with_limits base true (Some (Py.VStr "abc")) (Some (Py.VStr "abc")).

(** A manager holding a long position entered at 1000, after [n]
    reopens under the signal [(UPTREND, OVERBOUGHT)]. *)
Definition long_after (cfg : Config) (n : Z)
    : @MarketPositionManager.State DecimalFloat.ops :=
  MarketPositionManager.mkState (H := DecimalFloat.ops)
    (Some 0)
    (Some (MarketPositionManager.mkAnalysis (Some "UPTREND"%string)
             (Some "OVERBOUGHT"%string)))
    (Some BUY)
    (Some (Dec.of_Z 1000))
    (Some (MarketPositionManager._calculate_market_position_targets
             (H := DecimalFloat.ops) cfg (Dec.of_Z 1000) BUY))
    n
    (Some "UPTREND_OVERBOUGHT"%string).

(** A bot with an active grid, one queued reopen and a long market
    position, in front of a gateway. *)
Definition short_entry : @PositionReopenManager.Entry DecimalFloat.ops :=
  PositionReopenManager.mkEntry (H := DecimalFloat.ops)
    (Dec.of_Z 1000) "SELL" (Dec.of_Z 1) "1".

Definition running_bot (ex : @Exchange.Exchange DecimalFloat.ops)
    : @Bot.Bot DecimalFloat.ops :=
  Bot.mkBot (H := DecimalFloat.ops) two_reopens ex grid1000
    (long_after two_reopens 1)
    (MarketPositionManager.mkAnalyzer (fun _ => None) 0)
    [short_entry] true [] 1 None (Dec.of_Z 0) None None.

End Examples.

(** Splits the conjunctions of the goal without unfolding anything. *)
Ltac split_all := repeat match goal with |- _ /\ _ => split end.

(* ================================================================== *)
(** * Decimal arithmetic: when the context does not round *)

Module DecProps.
Import Dec.

Definition pow10 (e : Z) : Q := (10 # 1) ^ e.

(** A number that has a decimal representation of at most [prec]
    significant digits. *)
Definition representable (q : Q) : Prop :=
  exists c e, Z.abs c < 10 ^ prec /\ (q == inject_Z c * pow10 e)%Q.

Lemma dval_pow10 (d : Decimal) : dval d = (inject_Z (coef d) * pow10 (expo d))%Q.
Proof. reflexivity. Qed.

Lemma pow10_pos (e : Z) : (0 < pow10 e)%Q.
Proof. apply Qpower_0_lt. reflexivity. Qed.

Lemma pow10_add (a b : Z) : (pow10 (a + b) == pow10 a * pow10 b)%Q.
Proof. apply Qpower_plus. discriminate. Qed.

Lemma pow10_nonneg (a : Z) : 0 <= a -> (pow10 a == inject_Z (10 ^ a))%Q.
Proof. intros Ha. unfold pow10. rewrite Zpower_Qpower by exact Ha. reflexivity. Qed.

Lemma pow10_split (e e0 : Z) :
  e <= e0 -> (pow10 e0 == pow10 e * inject_Z (10 ^ (e0 - e)))%Q.
Proof.
  intros Hle. rewrite <- pow10_nonneg by lia. rewrite <- pow10_add.
  replace (e + (e0 - e)) with e0 by lia. reflexivity.
Qed.

Lemma Zpow10_pos (a : Z) : 0 <= a -> 0 < 10 ^ a.
Proof. intros. apply Z.pow_pos_nonneg; lia. Qed.

(** Two numbers written with a coefficient and an exponent are equal
    when the coefficients agree at the smaller exponent. *)
Lemma value_eq_iff (c e c0 e0 : Z) :
  e <= e0 ->
  (inject_Z c * pow10 e == inject_Z c0 * pow10 e0)%Q <-> c = c0 * 10 ^ (e0 - e).
Proof.
  intros Hle. pose proof (pow10_pos e) as Pe.
  rewrite (pow10_split e e0 Hle). split.
  - intros E. apply inject_Z_injective. rewrite inject_Z_mult.
    apply (Qmult_inj_r _ _ (pow10 e)); [lra|]. rewrite E. ring.
  - intros ->. rewrite inject_Z_mult. ring.
Qed.

Lemma value_le_same (a b m : Z) :
  (inject_Z a * pow10 m <= inject_Z b * pow10 m)%Q <-> a <= b.
Proof.
  pose proof (pow10_pos m) as Pm. rewrite Zle_Qle. split; intros E.
  - apply (Qmult_le_r _ _ (pow10 m)); assumption.
  - apply Qmult_le_r; assumption.
Qed.

Lemma value_lt_same (a b m : Z) :
  (inject_Z a * pow10 m < inject_Z b * pow10 m)%Q <-> a < b.
Proof.
  pose proof (pow10_pos m) as Pm. rewrite Zlt_Qlt. split; intros E.
  - apply (Qmult_lt_r _ _ (pow10 m)); assumption.
  - apply Qmult_lt_r; assumption.
Qed.

(** Writing a decimal at a smaller exponent keeps its value. *)
Lemma scale_value (m : Z) (d : Decimal) :
  m <= expo d -> (inject_Z (scale m d) * pow10 m == dval d)%Q.
Proof.
  intros Hm. rewrite dval_pow10. unfold scale.
  rewrite (pow10_split m (expo d) Hm), inject_Z_mult. ring.
Qed.

Lemma leb_spec (x y : Decimal) : leb x y = true <-> (dval x <= dval y)%Q.
Proof.
  unfold leb. set (m := Z.min (expo x) (expo y)).
  rewrite <- (scale_value m x), <- (scale_value m y) by (unfold m; lia).
  rewrite value_le_same. apply Z.leb_le.
Qed.

Lemma ltb_spec (x y : Decimal) : ltb x y = true <-> (dval x < dval y)%Q.
Proof.
  unfold ltb. set (m := Z.min (expo x) (expo y)).
  rewrite <- (scale_value m x), <- (scale_value m y) by (unfold m; lia).
  rewrite value_lt_same. apply Z.ltb_lt.
Qed.

Lemma leb_false (x y : Decimal) : leb x y = false <-> (dval y < dval x)%Q.
Proof.
  rewrite <- not_true_iff_false, leb_spec. split; [apply Qnot_le_lt | apply Qlt_not_le].
Qed.

Lemma representable_eq (p q : Q) : (p == q)%Q -> representable p -> representable q.
Proof.
  intros E [c [e [Hc Hv]]]. exists c, e. split; [exact Hc|]. rewrite <- E. exact Hv.
Qed.

#[global] Instance representable_proper : Proper (Qeq ==> iff) representable.
Proof.
  intros p q E. split; apply representable_eq; [exact E | symmetry; exact E].
Qed.

(** ** The number of digits *)

Lemma ndigits_aux_spec (fuel : nat) :
  forall n, 0 < n < 10 * 8 ^ Z.of_nat fuel ->
    1 <= ndigits_aux fuel n
    /\ 10 ^ (ndigits_aux fuel n - 1) <= n < 10 ^ ndigits_aux fuel n.
Proof.
  induction fuel as [|fuel IH]; intros n Hn.
  - simpl in *. lia.
  - cbn [ndigits_aux]. destruct (Z.ltb_spec n 10) as [Hlt | Hge].
    + simpl. lia.
    + assert (Hdiv : 0 < n / 10 < 10 * 8 ^ Z.of_nat fuel).
      { split; [apply Z.div_str_pos; lia|].
        apply Z.div_lt_upper_bound; [lia|].
        rewrite Nat2Z.inj_succ, Z.pow_succ_r in Hn by lia. lia. }
      destruct (IH (n / 10) Hdiv) as [H1 [Hlo Hhi]].
      set (a := ndigits_aux fuel (n / 10)) in *.
      replace (1 + a - 1) with (Z.succ (a - 1)) by lia.
      replace (1 + a) with (Z.succ a) by lia.
      rewrite !Z.pow_succ_r by lia.
      pose proof (Z.div_mod n 10 ltac:(lia)) as Hdm.
      pose proof (Z.mod_pos_bound n 10 ltac:(lia)) as Hmod.
      lia.
Qed.

Lemma ndigits_spec (n : Z) :
  0 < n -> 1 <= ndigits n /\ 10 ^ (ndigits n - 1) <= n < 10 ^ ndigits n.
Proof.
  intros Hn. unfold ndigits. apply ndigits_aux_spec. split; [exact Hn|].
  rewrite Z2Nat.id by apply Z.log2_nonneg.
  pose proof (Z.log2_spec n Hn) as [_ Hhi].
  rewrite Z.pow_succ_r in Hhi by apply Z.log2_nonneg.
  assert (2 ^ Z.log2 n <= 8 ^ Z.log2 n).
  { apply Z.pow_le_mono_l. lia. }
  lia.
Qed.

(** ** [_fix] leaves a representable number alone *)

Lemma sgn_mul_abs (c : Z) : Z.sgn c * Z.abs c = c.
Proof. destruct c; simpl; lia. Qed.

(** A coefficient of more than [prec] digits that denotes a
    representable number ends in enough zeros. *)
Lemma long_coefficient (c e : Z) :
  representable (inject_Z c * pow10 e) ->
  let n := ndigits (Z.abs c) in
  prec < n ->
  exists q, Z.abs c = q * 10 ^ (n - prec) /\ 0 < q < 10 ^ prec.
Proof.
  intros [c0 [e0 [Hc0 Hv]]] n Hn.
  pose proof (eq_refl : prec = 10) as Hprec.
  assert (Ha : 0 < Z.abs c).
  { destruct (Z.eq_dec c 0) as [-> | Hnz]; [|lia].
    exfalso. revert Hn. unfold n. vm_compute. discriminate. }
  destruct (ndigits_spec (Z.abs c) Ha) as [_ [Hlo Hhi]]. fold n in Hlo, Hhi.
  assert (Hbig : 10 ^ prec <= Z.abs c).
  { eapply Z.le_trans; [|exact Hlo]. apply Z.pow_le_mono_r; lia. }
  destruct (Z.le_gt_cases e0 e) as [Hle | Hgt].
  { exfalso. symmetry in Hv. apply (value_eq_iff c0 e0 c e Hle) in Hv.
    pose proof (Zpow10_pos (e - e0) ltac:(lia)) as Hp.
    assert (Z.abs c0 = Z.abs c * 10 ^ (e - e0)).
    { rewrite Hv, Z.abs_mul, (Z.abs_eq (10 ^ (e - e0))) by lia. reflexivity. }
    nia. }
  apply (value_eq_iff c e c0 e0 ltac:(lia)) in Hv.
  set (j := e0 - e) in *. set (k := n - prec).
  assert (Habs : Z.abs c = Z.abs c0 * 10 ^ j).
  { pose proof (Zpow10_pos j ltac:(lia)).
    rewrite Hv, Z.abs_mul, (Z.abs_eq (10 ^ j)) by lia. reflexivity. }
  assert (Hkj : k <= j).
  { destruct (Z.le_gt_cases k j) as [Hle | Hlt]; [exact Hle|]. exfalso.
    pose proof (Zpow10_pos j ltac:(lia)) as Hj.
    assert (10 ^ (prec + j) <= 10 ^ (n - 1)).
    { apply Z.pow_le_mono_r; unfold k in *; lia. }
    rewrite Z.pow_add_r in H by lia. nia. }
  exists (Z.abs c0 * 10 ^ (j - k)).
  assert (Hsplit : 10 ^ j = 10 ^ (j - k) * 10 ^ k).
  { rewrite <- Z.pow_add_r by (unfold k; lia). f_equal. lia. }
  pose proof (Zpow10_pos k ltac:(unfold k; lia)) as Hk.
  pose proof (Zpow10_pos (j - k) ltac:(lia)) as Hjk.
  split; [rewrite Habs, Hsplit; ring|].
  assert (Hn10 : 10 ^ n = 10 ^ prec * 10 ^ k).
  { rewrite <- Z.pow_add_r by (unfold k; lia). f_equal. unfold k. lia. }
  split.
  - assert (0 < Z.abs c0) by nia. nia.
  - rewrite Habs, Hsplit, Hn10 in Hhi. nia.
Qed.

Lemma fix_exact (d : Decimal) :
  representable (dval d) -> (dval (fix_ d) == dval d)%Q.
Proof.
  intros Hrep. unfold fix_.
  destruct (Z.leb_spec (ndigits (Z.abs (coef d))) prec) as [Hle | Hgt];
    [reflexivity|].
  rewrite dval_pow10 in Hrep.
  destruct (long_coefficient (coef d) (expo d) Hrep Hgt) as [q [Hq [Hq0 Hq1]]].
  set (k := ndigits (Z.abs (coef d)) - prec) in *.
  pose proof (Zpow10_pos k ltac:(unfold k; lia)) as Hk.
  rewrite Hq, Z.mod_mul, Z.div_mul by lia.
  replace (10 ^ k <? 2 * 0) with false by (symmetry; apply Z.ltb_ge; lia).
  replace (2 * 0 =? 10 ^ k) with false by (symmetry; apply Z.eqb_neq; lia).
  cbn [orb andb].
  replace (10 ^ prec <=? q) with false by (symmetry; apply Z.leb_gt; lia).
  rewrite !dval_pow10. cbn [coef expo].
  symmetry. apply value_eq_iff; [lia|].
  replace (expo d + k - expo d) with k by lia.
  rewrite <- Z.mul_assoc, <- Hq. symmetry. apply sgn_mul_abs.
Qed.

(** ** Exact operations *)

Lemma neg_value (x : Decimal) : (dval (neg x) == - dval x)%Q.
Proof. rewrite !dval_pow10. cbn [neg coef expo]. rewrite inject_Z_opp. ring. Qed.

Lemma add_exact (x y : Decimal) :
  representable (dval x + dval y) -> (dval (add x y) == dval x + dval y)%Q.
Proof.
  intros Hrep. unfold add. set (m := Z.min (expo x) (expo y)).
  assert (E : (dval (mkDec (scale m x + scale m y) m) == dval x + dval y)%Q).
  { rewrite dval_pow10. cbn [coef expo]. rewrite inject_Z_plus.
    rewrite <- (scale_value m x), <- (scale_value m y) by (unfold m; lia). ring. }
  rewrite fix_exact; [exact E|]. eapply representable_eq; [symmetry; exact E | exact Hrep].
Qed.

Lemma sub_exact (x y : Decimal) :
  representable (dval x - dval y) -> (dval (sub x y) == dval x - dval y)%Q.
Proof.
  intros Hrep. unfold sub. rewrite add_exact; rewrite neg_value; [reflexivity|].
  exact Hrep.
Qed.

Lemma mul_exact (x y : Decimal) :
  representable (dval x * dval y) -> (dval (mul x y) == dval x * dval y)%Q.
Proof.
  intros Hrep. unfold mul.
  assert (E : (dval (mkDec (coef x * coef y) (expo x + expo y)) == dval x * dval y)%Q).
  { rewrite !dval_pow10. cbn [coef expo]. rewrite inject_Z_mult, pow10_add. ring. }
  rewrite fix_exact; [exact E|]. eapply representable_eq; [symmetry; exact E | exact Hrep].
Qed.


Lemma pow10_opp (a : Z) : (pow10 (- a) * pow10 a == 1)%Q.
Proof. rewrite <- pow10_add. replace (- a + a) with 0 by lia. reflexivity. Qed.

Lemma pow10_sub (a b : Z) : (pow10 (a - b) * pow10 b == pow10 a)%Q.
Proof. rewrite <- pow10_add. replace (a - b + b) with a by lia. reflexivity. Qed.

Lemma strip_zeros_value (fuel : nat) (ideal : Z) :
  forall q e,
    let '(q', e') := strip_zeros fuel ideal q e in
    (inject_Z q' * pow10 e' == inject_Z q * pow10 e)%Q.
Proof.
  induction fuel as [|fuel IH]; intros q e; cbn [strip_zeros]; [reflexivity|].
  destruct ((e <? ideal) && (q mod 10 =? 0)) eqn:Hc; [|reflexivity].
  apply andb_true_iff in Hc. destruct Hc as [_ Hmod]. apply Z.eqb_eq in Hmod.
  specialize (IH (q / 10) (e + 1)).
  destruct (strip_zeros fuel ideal (q / 10) (e + 1)) as [q' e'].
  rewrite IH. symmetry. apply value_eq_iff; [lia|].
  replace (e + 1 - e) with 1 by lia.
  pose proof (Z.div_mod q 10 ltac:(lia)). lia.
Qed.

(** The quotient [__truediv__] computes carries more than [prec]
    digits: the dividend is scaled above [10 ^ prec] times the
    divisor. *)
Lemma div_scaling (a b : Z) :
  0 < a -> 0 < b ->
  let shift := ndigits b - ndigits a + prec + 1 in
  let num := if 0 <=? shift then a * 10 ^ shift else a in
  let den := if 0 <=? shift then b else b * 10 ^ (- shift) in
  0 < den /\ 10 ^ prec * den < num
  /\ (inject_Z num / inject_Z den == inject_Z a / inject_Z b * pow10 shift)%Q.
Proof.
  intros Ha Hb shift num den.
  pose proof (eq_refl : prec = 10) as Hprec.
  destruct (ndigits_spec a Ha) as [Hla [Halo Hahi]].
  destruct (ndigits_spec b Hb) as [Hlb [Hblo Hbhi]].
  assert (Qa : ~ (inject_Z a == 0)%Q).
  { intros E. apply (inject_Z_injective a 0) in E. lia. }
  assert (Qb : ~ (inject_Z b == 0)%Q).
  { intros E. apply (inject_Z_injective b 0) in E. lia. }
  unfold num, den. destruct (Z.leb_spec 0 shift) as [Hs | Hs].
  - pose proof (Zpow10_pos shift Hs) as Hp.
    split; [exact Hb|]. split.
    + assert (E : 10 ^ (prec + ndigits b) = 10 ^ (ndigits a - 1) * 10 ^ shift).
      { rewrite <- Z.pow_add_r by lia. f_equal. unfold shift. lia. }
      rewrite Z.pow_add_r in E by lia.
      pose proof (Zpow10_pos prec ltac:(lia)). nia.
    + rewrite inject_Z_mult, <- pow10_nonneg by exact Hs. field. exact Qb.
  - pose proof (Zpow10_pos (- shift) ltac:(lia)) as Hp.
    split; [nia|]. split.
    + assert (E : 10 ^ (ndigits a - 1) = 10 ^ prec * 10 ^ ndigits b * 10 ^ (- shift)).
      { rewrite <- !Z.pow_add_r by lia. f_equal. unfold shift. lia. }
      pose proof (Zpow10_pos prec ltac:(lia)). nia.
    + rewrite inject_Z_mult, <- pow10_nonneg by lia.
      pose proof (pow10_opp shift) as Ho. pose proof (pow10_pos (- shift)) as P1.
      setoid_replace (pow10 shift) with (/ pow10 (- shift))%Q.
      * field. split_all; first [exact Qb | lra].
      * apply (Qmult_inj_l _ _ (pow10 (- shift))); [lra|].
        rewrite Ho. field. lra.
Qed.

Lemma div_nz_exact (x y : Decimal) :
  coef y <> 0 ->
  representable (dval x / dval y) ->
  (dval (div_nz x y) == dval x / dval y)%Q.
Proof.
  intros Hy Hrep. unfold div_nz.
  pose proof (eq_refl : prec = 10) as Hprec.
  assert (Qy : ~ (inject_Z (coef y) == 0)%Q).
  { intros E. apply (inject_Z_injective (coef y) 0) in E. contradiction. }
  pose proof (pow10_pos (expo x)) as Px. pose proof (pow10_pos (expo y)) as Py.
  destruct (Z.eqb_spec (coef x) 0) as [Hx0 | Hx].
  { assert (E : (dval x / dval y == 0)%Q).
    { rewrite !dval_pow10, Hx0. field. split_all; first [exact Qy | lra]. }
    rewrite E. reflexivity. }
  set (a := Z.abs (coef x)). set (b := Z.abs (coef y)).
  set (s := Z.sgn (coef x) * Z.sgn (coef y)).
  assert (Ha : 0 < a) by (unfold a; lia). assert (Hb : 0 < b) by (unfold b; lia).
  pose proof (div_scaling a b Ha Hb) as S. cbv zeta in S.
  set (shift := ndigits b - ndigits a + prec + 1) in *.
  set (num := if 0 <=? shift then a * 10 ^ shift else a) in *.
  set (den := if 0 <=? shift then b else b * 10 ^ (- shift)) in *.
  set (e := expo x - expo y - shift).
  destruct S as [Hden [Hbig Hratio]].
  assert (Qb : ~ (inject_Z b == 0)%Q).
  { intros E. apply (inject_Z_injective b 0) in E. lia. }
  assert (Qden : ~ (inject_Z den == 0)%Q).
  { intros E. apply (inject_Z_injective den 0) in E. lia. }
  assert (Hs2 : s * s = 1) by (unfold s; destruct (coef x), (coef y); simpl; lia).
  (* the exact quotient, written with [num] and [den] *)
  assert (V : (dval x / dval y
               == inject_Z s * (inject_Z num / inject_Z den) * pow10 e)%Q).
  { assert (Hpow : (pow10 (expo x) == pow10 e * pow10 shift * pow10 (expo y))%Q).
    { rewrite <- !pow10_add. replace (e + shift + expo y) with (expo x)
        by (unfold e; lia). reflexivity. }
    assert (Hcx : (inject_Z (coef x) == inject_Z (Z.sgn (coef x)) * inject_Z a)%Q).
    { rewrite <- inject_Z_mult. unfold a. rewrite sgn_mul_abs. reflexivity. }
    unfold s. rewrite inject_Z_mult, Hratio, !dval_pow10, Hpow, Hcx.
    assert (Hcy : (Z.sgn (coef y) = 1 /\ coef y = b)
                  \/ (Z.sgn (coef y) = -1 /\ coef y = - b)) by (unfold b; lia).
    destruct Hcy as [[-> ->] | [-> ->]].
    - field. split_all; first [exact Qb | lra].
    - rewrite inject_Z_opp. field. split_all; first [exact Qb | lra]. }
  destruct Hrep as [c0 [e0 [Hc0 Hv]]].
  rewrite V in Hv.
  assert (W : (inject_Z (s * num) * pow10 e == inject_Z (c0 * den) * pow10 e0)%Q).
  { rewrite !inject_Z_mult.
    apply (Qmult_inj_r _ _ (/ inject_Z den)); [intros E; apply Qden;
      rewrite <- (Qinv_involutive (inject_Z den)), E; reflexivity|].
    transitivity (inject_Z s * (inject_Z num / inject_Z den) * pow10 e)%Q;
      [field; exact Qden|].
    rewrite Hv. field. exact Qden. }
  assert (Hsabs : Z.abs s = 1) by (unfold s; destruct (coef x), (coef y); simpl; lia).
  destruct (Z.le_gt_cases e0 e) as [Hle | Hgt].
  { exfalso. symmetry in W. apply (value_eq_iff _ e0 _ e Hle) in W.
    pose proof (Zpow10_pos (e - e0) ltac:(lia)) as Hp.
    assert (Z.abs c0 * den = num * 10 ^ (e - e0)).
    { apply (f_equal Z.abs) in W.
      rewrite !Z.abs_mul, Hsabs, (Z.abs_eq den), (Z.abs_eq num),
        (Z.abs_eq (10 ^ (e - e0))) in W by nia. lia. }
    nia. }
  apply (value_eq_iff _ e _ e0 ltac:(lia)) in W.
  set (j := e0 - e) in *. pose proof (Zpow10_pos j ltac:(unfold j; lia)) as Hj.
  assert (Hnum : num = (Z.abs c0 * 10 ^ j) * den).
  { apply (f_equal Z.abs) in W.
    rewrite !Z.abs_mul, Hsabs, (Z.abs_eq den), (Z.abs_eq num), (Z.abs_eq (10 ^ j))
      in W by nia. lia. }
  rewrite Hnum, Z.mod_mul, Z.div_mul by lia. cbn [Z.eqb].
  pose proof (strip_zeros_value (Z.to_nat shift) (expo x - expo y)
                (Z.abs c0 * 10 ^ j) e) as St.
  destruct (strip_zeros (Z.to_nat shift) (expo x - expo y) (Z.abs c0 * 10 ^ j) e)
    as [q' e'].
  assert (E : (dval (mkDec (s * q') e') == dval x / dval y)%Q).
  { rewrite V, dval_pow10. cbn [coef expo]. rewrite inject_Z_mult, <- Qmult_assoc, St.
    rewrite Hnum, (inject_Z_mult _ den). field. exact Qden. }
  rewrite fix_exact; [exact E|]. rewrite E. exists c0, e0. split; [exact Hc0|].
  rewrite <- Hv. exact V.
Qed.

(** Division by one of the source's literals. *)
Lemma div_literal_exact (x : Decimal) (n : Z) :
  n <> 0 ->
  representable (dval x / inject_Z n) ->
  (dval (div_nz x (of_Z n)) == dval x / inject_Z n)%Q.
Proof.
  intros Hn Hrep.
  assert (E : (dval (of_Z n) == inject_Z n)%Q).
  { rewrite dval_pow10. cbn [of_Z coef expo]. change (pow10 0) with 1%Q. ring. }
  rewrite div_nz_exact.
  - rewrite E. reflexivity.
  - exact Hn.
  - rewrite E. exact Hrep.
Qed.

End DecProps.

(* ================================================================== *)
(** * Properties of the grid generator ([grid.py]) *)

Module GridProps.
Import Dec DecProps Grid.

(** The level number [k] of a grid of center [C], width [W] and
    interval [step]. *)
Definition level (C W step : Q) (k : nat) : Q :=
  (C - W / 2 + inject_Z (Z.of_nat k) * step)%Q.

(** The levels [C - W/2 + k * (W/D)] for [k = 0 .. floor(W / (W/D))]. *)
Definition specified_levels (cfg : Config) (center : Decimal) : list Q :=
  let W := (dval (endPrice cfg) - dval (startPrice cfg))%Q in
  let step := (W / dval (gridSize cfg))%Q in
  map (level (dval center) W step) (seq 0 (S (Z.to_nat (Qfloor (W / step))))).

Definition denotes (d : Decimal) (q : Q) : Prop := (dval d == q)%Q.

Definition below (a b : Decimal) : Prop := (dval a < dval b)%Q.

(** [generate] returns, and the grid it leaves holds the specified
    levels, strictly increasing. *)
Definition generates_specified (fuel : nat) (g : Grid) (center : Decimal) : Prop :=
  exists g',
    generate fuel g center = Returns g'
    /\ config g' = config g
    /\ Forall2 denotes (grid_levels g') (specified_levels (config g) center)
    /\ StronglySorted below (grid_levels g').

Lemma generate_loop_app (fuel : nat) (interval new_end : Decimal) :
  forall cur acc,
    generate_loop fuel interval new_end cur acc
    = option_map (app acc) (generate_loop fuel interval new_end cur []).
Proof.
  induction fuel as [|fuel IH]; intros cur acc; cbn [generate_loop]; [reflexivity|].
  destruct (leb cur new_end); [|simpl; rewrite app_nil_r; reflexivity].
  rewrite IH, (IH _ ([] ++ [cur])).
  destruct (generate_loop fuel interval new_end (add cur interval) []) as [lv|];
    simpl; [|reflexivity].
  rewrite <- app_assoc. reflexivity.
Qed.

Section Loop.
Variables (interval new_end : Decimal) (C W step : Q) (n : nat).
Hypothesis Hinterval : (dval interval == step)%Q.
Hypothesis Hend : (dval new_end == C + W / 2)%Q.
Hypothesis Hpos : (0 < step)%Q.
Hypothesis Hfloor : (inject_Z (Z.of_nat n) * step <= W)%Q.
Hypothesis Hnext : (W < inject_Z (Z.of_nat (S n)) * step)%Q.
Hypothesis Hexact : forall k, (k <= S n)%nat -> representable (level C W step k).

Lemma level_succ (k : nat) : (level C W step (S k) == level C W step k + step)%Q.
Proof.
  unfold level. rewrite Nat2Z.inj_succ. unfold Z.succ. rewrite inject_Z_plus. ring.
Qed.

Lemma level_lt (k : nat) : (level C W step k < level C W step (S k))%Q.
Proof. rewrite level_succ. pose proof Hpos. lra. Qed.

Lemma level_within (k : nat) : (k <= n)%nat -> (level C W step k <= C + W / 2)%Q.
Proof.
  intros Hk. unfold level.
  assert (inject_Z (Z.of_nat k) <= inject_Z (Z.of_nat n))%Q
    by (rewrite <- Zle_Qle; lia).
  assert (inject_Z (Z.of_nat k) * step <= inject_Z (Z.of_nat n) * step)%Q
    by (apply Qmult_le_compat_r; [assumption | lra]).
  pose proof Hfloor.
  set (a := (inject_Z (Z.of_nat k) * step)%Q) in *.
  set (b := (inject_Z (Z.of_nat n) * step)%Q) in *.
  assert (Hhalf : (W / 2 + W / 2 == W)%Q) by field.
  clearbody a b. lra.
Qed.

Lemma level_beyond : (C + W / 2 < level C W step (S n))%Q.
Proof.
  unfold level. pose proof Hnext.
  set (b := (inject_Z (Z.of_nat (S n)) * step)%Q) in *.
  assert (Hhalf : (W / 2 + W / 2 == W)%Q) by field.
  clearbody b. lra.
Qed.

(** The loop, entered with [cur] at level [k] and [m] levels to go
    before the first one above the upper boundary. *)
Lemma generate_loop_spec (m : nat) :
  forall k cur fuel,
    (k + m = S n)%nat ->
    (dval cur == level C W step k)%Q ->
    (m < fuel)%nat ->
    exists lv,
      generate_loop fuel interval new_end cur [] = Some lv
      /\ Forall2 denotes lv (map (level C W step) (seq k m)).
Proof.
  induction m as [|m IH]; intros k cur fuel Hk Hcur Hfuel.
  - destruct fuel as [|fuel]; [lia|]. cbn [generate_loop].
    replace (leb cur new_end) with false.
    + exists []. split; [reflexivity | constructor].
    + symmetry. apply leb_false. rewrite Hcur, Hend.
      replace k with (S n) by lia. apply level_beyond.
  - destruct fuel as [|fuel]; [lia|]. cbn [generate_loop].
    replace (leb cur new_end) with true.
    + assert (Hnext_cur : (dval (add cur interval) == level C W step (S k))%Q).
      { rewrite add_exact; rewrite Hcur, Hinterval, <- level_succ; [reflexivity|].
        apply Hexact. lia. }
      destruct (IH (S k) (add cur interval) fuel ltac:(lia) Hnext_cur ltac:(lia))
        as [lv [Hlv HF]].
      rewrite generate_loop_app, Hlv. exists (cur :: lv). split; [reflexivity|].
      cbn [seq map]. constructor; [exact Hcur | exact HF].
    + symmetry. apply leb_spec. rewrite Hcur, Hend. apply level_within. lia.
Qed.

Lemma levels_increasing (m : nat) :
  forall k lv,
    Forall2 denotes lv (map (level C W step) (seq k m)) ->
    StronglySorted below lv /\ Forall (fun d => (level C W step k <= dval d)%Q) lv.
Proof.
  induction m as [|m IH]; intros k lv HF; cbn [seq map] in HF.
  - inversion HF. subst. split; constructor.
  - inversion HF as [|d q lv' qs Hd HF' E1 E2]. subst.
    destruct (IH (S k) lv' HF') as [Hsorted Hall].
    pose proof (level_lt k) as Hlt. unfold denotes in Hd.
    split.
    + constructor; [exact Hsorted|].
      eapply Forall_impl; [|exact Hall]. intros d' Hd'. cbv beta in Hd'.
      unfold below. lra.
    + constructor; [lra|].
      eapply Forall_impl; [|exact Hall]. intros d' Hd'. cbv beta in Hd'. lra.
Qed.

End Loop.

(** What [generate] does when nothing is rounded. *)
Lemma generate_exact (g : Grid) (center : Decimal) (fuel : nat) :
  let cfg := config g in
  let C := dval center in
  let W := (dval (endPrice cfg) - dval (startPrice cfg))%Q in
  let step := (W / dval (gridSize cfg))%Q in
  let n := Z.to_nat (Qfloor (W / step)) in
  (0 < W)%Q ->
  (0 < dval (gridSize cfg))%Q ->
  representable W ->
  representable step ->
  representable (W / 2) ->
  representable (C + W / 2) ->
  (forall k, (k <= S n)%nat -> representable (level C W step k)) ->
  (n + 2 <= fuel)%nat ->
  exists g',
    generate fuel g center = Returns g'
    /\ config g' = cfg
    /\ (dval (grid_center_price g') == C)%Q
    /\ (dval (grid_width g') == W)%Q
    /\ Forall2 denotes (grid_levels g') (specified_levels cfg center)
    /\ StronglySorted below (grid_levels g')
    /\ List.length (grid_levels g') = S n.
Proof.
  intros cfg C W step n HW HD RW Rstep Rhalf Rend Rlevels Hfuel.
  assert (Hstep : (0 < step)%Q).
  { unfold step. apply Qlt_shift_div_l; [exact HD | lra]. }
  assert (Hx : (0 < W / step)%Q) by (apply Qlt_shift_div_l; [exact Hstep | lra]).
  pose proof (Qfloor_le (W / step)) as Hlo. pose proof (Qlt_floor (W / step)) as Hhi.
  assert (Hn0 : 0 <= Qfloor (W / step)).
  { assert (H1 : (0 < inject_Z (Qfloor (W / step) + 1))%Q) by lra.
    change 0%Q with (inject_Z 0) in H1. rewrite <- Zlt_Qlt in H1. lia. }
  assert (Hn : Z.of_nat n = Qfloor (W / step)) by (unfold n; lia).
  assert (Hdiv : (W / step * step == W)%Q) by (field; lra).
  assert (Hfloor : (inject_Z (Z.of_nat n) * step <= W)%Q).
  { rewrite Hn. apply Qle_trans with (W / step * step)%Q;
      [apply Qmult_le_compat_r; [exact Hlo | lra] | rewrite Hdiv; apply Qle_refl]. }
  assert (Hnext : (W < inject_Z (Z.of_nat (S n)) * step)%Q).
  { rewrite Nat2Z.inj_succ, Hn. unfold Z.succ.
    apply Qle_lt_trans with (W / step * step)%Q;
      [rewrite Hdiv; apply Qle_refl | apply Qmult_lt_r; [exact Hstep | exact Hhi]]. }
  (* the numbers [generate] computes before the loop *)
  assert (Ewidth : (dval (sub (endPrice cfg) (startPrice cfg)) == W)%Q).
  { apply sub_exact. exact RW. }
  assert (Hcoef : coef (gridSize cfg) <> 0).
  { intros E. rewrite dval_pow10, E, Qmult_0_l in HD. exact (Qlt_irrefl 0 HD). }
  assert (Einterval : (dval (div_nz (sub (endPrice cfg) (startPrice cfg))
                               (gridSize cfg)) == step)%Q).
  { rewrite div_nz_exact.
    - rewrite Ewidth. reflexivity.
    - exact Hcoef.
    - rewrite Ewidth. exact Rstep. }
  assert (Ehalf : (dval (div_nz (sub (endPrice cfg) (startPrice cfg)) two)
                   == W / 2)%Q).
  { rewrite (div_literal_exact _ 2).
    - rewrite Ewidth. reflexivity.
    - discriminate.
    - rewrite Ewidth. exact Rhalf. }
  assert (L0 : (level C W step 0 == C - W / 2)%Q) by (unfold level; simpl; ring).
  assert (Estart : (dval (sub center (div_nz (sub (endPrice cfg) (startPrice cfg)) two))
                    == level C W step 0)%Q).
  { rewrite sub_exact; rewrite Ehalf; [rewrite L0; reflexivity|].
    apply (representable_eq (level C W step 0)); [exact L0 | apply Rlevels; lia]. }
  assert (Eend : (dval (add center (div_nz (sub (endPrice cfg) (startPrice cfg)) two))
                  == C + W / 2)%Q).
  { rewrite add_exact; rewrite Ehalf; [reflexivity | exact Rend]. }
  destruct (generate_loop_spec _ _ C W step n Einterval Eend Hstep Hfloor Hnext Rlevels
              (S n) 0%nat _ fuel eq_refl Estart ltac:(lia)) as [lv [Hloop HF]].
  unfold generate. fold cfg. unfold div.
  destruct (Z.eqb_spec (coef (gridSize cfg)) 0) as [E | _]; [contradiction|].
  rewrite Hloop.
  eexists. split; [reflexivity|]. cbn [config grid_levels grid_width grid_center_price].
  split_all; try reflexivity.
  - exact Ewidth.
  - exact HF.
  - exact (proj1 (levels_increasing _ _ _ Hstep _ _ _ HF)).
  - apply Forall2_length in HF. rewrite HF, length_map, length_seq. reflexivity.
Qed.

(** C1, amended.  For a range with [start < end] and a positive number
    of divisions, and whenever the width [W], the interval [W/D], the
    half width, the upper boundary and the levels
    [C - W/2 + k * (W/D)] up to the first one above the upper boundary
    have at most ten significant digits (so that the decimal context
    rounds nothing), [generate] returns, with the levels
    [C - W/2 + k * (W/D)] for [k = 0 .. floor(W / (W/D))] in place of
    the prior ones, strictly increasing, [floor(W / (W/D)) + 1] of them.
    For center 1000, range [900, 1100] and 4 divisions, whatever the
    prior levels, they are [900, 950, 1000, 1050, 1100]. *)
Theorem generate_levels :
  (forall g center fuel,
     let cfg := config g in
     let C := dval center in
     let W := (dval (endPrice cfg) - dval (startPrice cfg))%Q in
     let step := (W / dval (gridSize cfg))%Q in
     let n := Z.to_nat (Qfloor (W / step)) in
     (dval (startPrice cfg) < dval (endPrice cfg))%Q ->
     (0 < dval (gridSize cfg))%Q ->
     representable W ->
     representable step ->
     representable (W / 2) ->
     representable (C + W / 2) ->
     (forall k, (k <= S n)%nat -> representable (level C W step k)) ->
     (n + 2 <= fuel)%nat ->
     generates_specified fuel g center
     /\ forall g', generate fuel g center = Returns g' ->
                   List.length (grid_levels g') = S n)
  /\ (forall prior width center fuel,
        (6 <= fuel)%nat ->
        generate fuel (mkGrid Examples.base prior width center)
          (Examples.tenths 10000)
        = Returns Examples.grid1000).
Proof.
  split.
  - intros g center fuel cfg C W step n Hrange HD RW Rstep Rhalf Rend Rlevels Hfuel.
    assert (HW : (0 < W)%Q) by (unfold W; lra).
    destruct (generate_exact g center fuel HW HD RW Rstep Rhalf Rend Rlevels Hfuel)
      as [g' [Hgen [Hcfg [_ [_ [HF [Hsorted Hlen]]]]]]].
    split.
    + exists g'. split_all; assumption.
    + intros g'' Hgen'. rewrite Hgen in Hgen'. injection Hgen' as <-. exact Hlen.
  - intros prior width center fuel Hfuel.
    do 6 (destruct fuel as [|fuel]; [lia|]). reflexivity.
Qed.

(** The general statement at the scenario: center 1000, range
    [900, 1100], 4 divisions; every number involved has at most four
    digits. *)
Lemma generate_levels_witness :
  generates_specified 6 (Grid.init Examples.base) (Examples.tenths 10000)
  /\ forall g', generate 6 (Grid.init Examples.base) (Examples.tenths 10000)
                = Returns g' ->
                List.length (grid_levels g') = 5%nat.
Proof.
  apply (proj1 generate_levels (Grid.init Examples.base) (Examples.tenths 10000) 6%nat).
  - reflexivity.
  - reflexivity.
  - exists 200, 0. split; reflexivity.
  - exists 50, 0. split; reflexivity.
  - exists 100, 0. split; reflexivity.
  - exists 1100, 0. split; reflexivity.
  - intros k Hk. exists (900 + 50 * Z.of_nat k), 0. split.
    + change (Z.to_nat _) with 4%nat in Hk. unfold prec. lia.
    + unfold level. rewrite inject_Z_plus, inject_Z_mult.
      change (pow10 0) with 1%Q.
      setoid_replace (dval (Examples.tenths 10000)) with 1000%Q by reflexivity.
      setoid_replace (dval (endPrice (config (init Examples.base)))
                      - dval (startPrice (config (init Examples.base))))%Q
        with 200%Q by reflexivity.
      setoid_replace (dval (gridSize (config (init Examples.base)))) with 4%Q
        by reflexivity.
      change (inject_Z 900) with 900%Q. change (inject_Z 50) with 50%Q.
      field.
  - reflexivity.
Defined.

(** C1 as stated fails outside these conditions.  With the range
    reversed ([start = 1100], [end = 900]) the loop is never entered and
    the grid is empty, where five levels are specified.  With range
    [900, 1000] and 6 divisions the interval is rounded to 16.66666667
    and every sum is rounded again: six levels come out,
    950, 966.6666667, 983.3333334, 1000.000000, 1016.666667 and
    1033.333334, where seven are specified; nor is the third of them
    [950 + 2 * 16.66666667].  With zero divisions the division
    raises. *)
Lemma generate_off_specification :
  ~ (exists fuel,
       generates_specified fuel
         (Grid.init (Examples.with_range Examples.base (Examples.tenths 11000)
                       (Examples.tenths 9000) (Examples.tenths 40)))
         (Examples.tenths 10000))
  /\ ~ (exists fuel,
          generates_specified fuel
            (Grid.init (Examples.with_range Examples.base (Examples.tenths 9000)
                          (Examples.tenths 10000) (Examples.tenths 60)))
            (Examples.tenths 10000))
  /\ (option_map (fun l => nth 2 l zero)
        (match generate 7
                 (Grid.init (Examples.with_range Examples.base (Examples.tenths 9000)
                               (Examples.tenths 10000) (Examples.tenths 60)))
                 (Examples.tenths 10000) with
         | Returns g' => Some (grid_levels g')
         | _ => None
         end) = Some (mkDec 9833333334 (-7))
      /\ ~ (dval (mkDec 9833333334 (-7))
            == 950 + 2 * dval (mkDec 1666666667 (-8)))%Q)
  /\ (forall fuel,
        generate fuel
          (Grid.init (Examples.with_range Examples.base (Examples.tenths 9000)
                        (Examples.tenths 11000) (Examples.tenths 0)))
          (Examples.tenths 10000) = Raises).
Proof.
  split_all.
  - intros [fuel [g' [Hgen [_ [HF _]]]]].
    destruct fuel as [|fuel]; [vm_compute in Hgen; discriminate Hgen|].
    vm_compute in Hgen. injection Hgen as <-.
    apply Forall2_length in HF. vm_compute in HF. discriminate HF.
  - intros [fuel [g' [Hgen [_ [HF _]]]]].
    do 7 (destruct fuel as [|fuel]; [vm_compute in Hgen; discriminate Hgen|]).
    vm_compute in Hgen. injection Hgen as <-.
    apply Forall2_length in HF. vm_compute in HF. discriminate HF.
  - reflexivity.
  - vm_compute. discriminate.
  - intros fuel. reflexivity.
Qed.

End GridProps.

(* ================================================================== *)
(** * Properties of the exit evaluator ([risk.py]) *)

Module RiskProps.
Import RiskManager.

Lemma max_consecutive_first (cfg : Config) (grid : Grid.Grid)
    (price : Dec.Decimal) (counter : Z) (entry : option Dec.Decimal) :
  _check_max_consecutive_positions cfg counter = true ->
  check_exit_conditions cfg grid price counter entry = Some max_consecutive_reason.
Proof.
  intros Hmax. unfold check_exit_conditions. rewrite Hmax. reflexivity.
Qed.

Lemma max_consecutive_only_if (cfg : Config) (grid : Grid.Grid)
    (price : Dec.Decimal) (counter : Z) (entry : option Dec.Decimal) :
  check_exit_conditions cfg grid price counter entry = Some max_consecutive_reason ->
  _check_max_consecutive_positions cfg counter = true.
Proof.
  unfold check_exit_conditions.
  destruct (_check_max_consecutive_positions cfg counter); [reflexivity|].
  repeat match goal with
         | |- context [if ?c then _ else _] => destruct c
         end; discriminate.
Qed.

(** C3.  The four exit conditions are tried in order and the first that
    holds decides: whenever the configured limit is a finite integer, the
    position counter has reached it and the stop loss has tripped as
    well, the reason returned is the one of the limit, not the stop
    loss. *)
Theorem exit_priority_max_over_stop_loss (cfg : Config) (grid : Grid.Grid)
    (price : Dec.Decimal) (counter limit : Z) (sl entry : Dec.Decimal) :
  let v := Py.get (maxConsecutiveGridPositions cfg) (Py.VStr "3") in
  Py.is_unlimited v = false ->
  Py.int v = Some limit ->
  limit <= counter ->
  stopLossPercent cfg = Some sl ->
  truthy (Some sl) = true ->
  truthy (Some entry) = true ->
  _check_stop_loss cfg sl price entry = true ->
  check_exit_conditions cfg grid price counter (Some entry)
    = Some max_consecutive_reason
  /\ check_exit_conditions cfg grid price counter (Some entry)
    <> Some stop_loss_reason.
Proof.
  intros v Hfinite Hint Hreached _ _ _ _.
  assert (E : check_exit_conditions cfg grid price counter (Some entry)
              = Some max_consecutive_reason).
  { apply max_consecutive_first. unfold _check_max_consecutive_positions.
    fold v. rewrite Hfinite, Hint. apply Z.geb_le. exact Hreached. }
  split; [exact E|]. rewrite E. discriminate.
Qed.

Lemma exit_priority_max_over_stop_loss_witness :
  let cfg := Examples.with_risk Examples.base Long PERCENTAGE None
               (Some (Examples.tenths 50)) true in
  check_exit_conditions cfg Examples.grid1000 (Examples.tenths 9000) 3
    (Some (Examples.tenths 10000))
    = Some max_consecutive_reason
  /\ check_exit_conditions cfg Examples.grid1000 (Examples.tenths 9000) 3
    (Some (Examples.tenths 10000))
    <> Some stop_loss_reason.
Proof.
  intros cfg.
  apply (exit_priority_max_over_stop_loss cfg Examples.grid1000
           (Examples.tenths 9000) 3 3 (Examples.tenths 50) (Examples.tenths 10000));
    reflexivity.
Defined.

(** With the limit out of the way, the stop loss of that example does
    decide the reason. *)
Example stop_loss_second :
  check_exit_conditions
    (Examples.with_risk Examples.base Long PERCENTAGE None
       (Some (Examples.tenths 50)) true)
    Examples.grid1000 (Examples.tenths 9000) 2 (Some (Examples.tenths 10000))
  = Some stop_loss_reason.
Proof. reflexivity. Qed.

(** C2.  In [GRID_RANGE] mode with a take-profit percentage set, the
    evaluator still returns the take-profit reason: [tpMode] is not read
    by [check_exit_conditions].  Long mode, take profit 10 %, entry 1000,
    price 1100, no stop loss, no limit, no range exit. *)
Theorem take_profit_fires_in_grid_range_mode :
  let cfg := Examples.with_limits
               (Examples.with_risk Examples.base Long GRID_RANGE
                  (Some (Examples.tenths 100)) None false)
               true (Some (Py.VStr "unlimited")) (Some (Py.VStr "unlimited")) in
  tpMode cfg = GRID_RANGE
  /\ check_exit_conditions cfg Examples.grid1000 (Examples.tenths 11000) 0
       (Some (Examples.tenths 10000)) = Some take_profit_reason.
Proof. split; reflexivity. Qed.

(** The stop-loss and take-profit prices the checks compare with, for
    a percentage [p] and an entry price. *)
Lemma threshold_exact (sign : bool) (p entry : Dec.Decimal) :
  let f := (Dec.dval p / 100)%Q in
  let factor := (if sign then 1 + f else 1 - f)%Q in
  DecProps.representable f ->
  DecProps.representable factor ->
  DecProps.representable (Dec.dval entry * factor) ->
  (Dec.dval
     (Dec.mul entry
        ((if sign then Dec.add else Dec.sub) Dec.one (Dec.div_nz p Dec.hundred)))
   == Dec.dval entry * factor)%Q.
Proof.
  intros f factor Hf Hfactor Hprod.
  assert (E1 : (Dec.dval (Dec.div_nz p Dec.hundred) == f)%Q).
  { apply (DecProps.div_literal_exact p 100); [discriminate | exact Hf]. }
  assert (E0 : (Dec.dval Dec.one == 1)%Q) by reflexivity.
  assert (E2 : (Dec.dval ((if sign then Dec.add else Dec.sub) Dec.one
                            (Dec.div_nz p Dec.hundred)) == factor)%Q).
  { unfold factor. destruct sign.
    - rewrite DecProps.add_exact; rewrite E0, E1; [reflexivity | exact Hfactor].
    - rewrite DecProps.sub_exact; rewrite E0, E1; [reflexivity | exact Hfactor]. }
  rewrite DecProps.mul_exact; rewrite E2; [reflexivity | exact Hprod].
Qed.

(** C4, amended.  The stop-loss price is computed in the ten-digit
    decimal context.  Whenever the percentage as a fraction, one minus
    (long) or plus (short) that fraction, and the product with the entry
    price have at most ten significant digits, nothing is rounded and
    the check trips in long mode exactly when
    [price <= entry * (1 - sl%)] and in short mode exactly when
    [price >= entry * (1 + sl%)]; in neutral mode it never trips.  For
    long mode, stop loss 5 % and entry 1000 it trips exactly for the
    prices [<= 950], and the take profit of 10 % exactly for the prices
    [>= 1100]. *)
Theorem stop_loss_trips_at_threshold :
  (forall cfg sl price entry,
     let f := (Dec.dval sl / 100)%Q in
     DecProps.representable f ->
     (mode cfg = Long ->
      DecProps.representable (1 - f) ->
      DecProps.representable (Dec.dval entry * (1 - f)) ->
      (_check_stop_loss cfg sl price entry = true
       <-> (Dec.dval price <= Dec.dval entry * (1 - f))%Q))
     /\ (mode cfg = Short ->
         DecProps.representable (1 + f) ->
         DecProps.representable (Dec.dval entry * (1 + f)) ->
         (_check_stop_loss cfg sl price entry = true
          <-> (Dec.dval entry * (1 + f) <= Dec.dval price)%Q))
     /\ (mode cfg = Neutral -> _check_stop_loss cfg sl price entry = false))
  /\ (forall price,
        _check_stop_loss Examples.base (Examples.tenths 50) price
          (Examples.tenths 10000) = true
        <-> (Dec.dval price <= 950)%Q)
  /\ (forall price,
        _check_take_profit Examples.base (Examples.tenths 100) price
          (Examples.tenths 10000) = true
        <-> (1100 <= Dec.dval price)%Q).
Proof.
  split_all.
  - intros cfg sl price entry f Hf. split_all.
    + intros Hmode H1 H2. unfold _check_stop_loss. rewrite Hmode.
      rewrite DecProps.leb_spec.
      rewrite (threshold_exact false sl entry Hf H1 H2). reflexivity.
    + intros Hmode H1 H2. unfold _check_stop_loss. rewrite Hmode.
      rewrite DecProps.leb_spec.
      rewrite (threshold_exact true sl entry Hf H1 H2). reflexivity.
    + intros Hmode. unfold _check_stop_loss. rewrite Hmode. reflexivity.
  - intros price. unfold _check_stop_loss. cbn [mode Examples.base].
    rewrite DecProps.leb_spec.
    match goal with
    | |- (_ <= Dec.dval ?t)%Q <-> _ =>
        let v := eval vm_compute in t in
        change t with v; setoid_replace (Dec.dval v) with 950%Q by reflexivity
    end.
    reflexivity.
  - intros price. unfold _check_take_profit. cbn [mode Examples.base].
    rewrite DecProps.leb_spec.
    match goal with
    | |- (Dec.dval ?t <= _)%Q <-> _ =>
        let v := eval vm_compute in t in
        change t with v; setoid_replace (Dec.dval v) with 1100%Q by reflexivity
    end.
    reflexivity.
Qed.

(** The general statement at the scenario's numbers and the price 950. *)
Lemma stop_loss_trips_at_threshold_witness :
  _check_stop_loss Examples.base (Examples.tenths 50) (Examples.tenths 9500)
    (Examples.tenths 10000) = true
  <-> (Dec.dval (Examples.tenths 9500)
       <= Dec.dval (Examples.tenths 10000)
          * (1 - Dec.dval (Examples.tenths 50) / 100))%Q.
Proof.
  apply (proj1 stop_loss_trips_at_threshold Examples.base (Examples.tenths 50)
           (Examples.tenths 9500) (Examples.tenths 10000)).
  - exists 5, (-2). split; [reflexivity | reflexivity].
  - reflexivity.
  - exists 95, (-2). split; [reflexivity | reflexivity].
  - exists 950, 0. split; [reflexivity | reflexivity].
Defined.

(** C4 as stated fails where the context rounds: long mode, stop loss
    5 %, entry 1234.56789.  The product 1172.8394955 has eleven digits
    and is rounded (half to even) to 1172.839496, so the price
    1172.839496 trips the stop loss although it is above
    [entry * (1 - sl%)]. *)
Lemma stop_loss_rounded_threshold :
  let entry := Dec.mkDec 123456789 (-5) in
  let price := Dec.mkDec 1172839496 (-6) in
  _check_stop_loss Examples.base (Examples.tenths 50) price entry = true
  /\ ~ (Dec.dval price <= Dec.dval entry * (1 - Dec.dval (Examples.tenths 50) / 100))%Q.
Proof.
  cbv zeta. split; [reflexivity|]. vm_compute. intros H. apply H. reflexivity.
Qed.

End RiskProps.

(* ================================================================== *)
(** * Properties of the reopen queue *)

Module ReopenProps.
Import PositionReopenManager.

Section WithFloat.
Context `{FloatOps}.

(** The entries of [l] whose placement fails, when the first of them is
    answered by the reply number [k] of the gateway's script. *)
Fixpoint failed_entries (script : nat -> Exchange.Reply) (k : nat)
    (l : list Entry) : list Entry :=
  match l with
  | [] => []
  | e :: l' =>
      if Exchange.ok (script k) then failed_entries script (S k) l'
      else e :: failed_entries script (S k) l'
  end.

Lemma Entry_eqb_eq (a b : Entry) : Entry_eqb a b = true <-> a = b.
Proof.
  unfold Entry_eqb. destruct a as [g1 s1 q1 i1], b as [g2 s2 q2 i2]; simpl.
  rewrite !andb_true_iff, !feqb_eq, !String.eqb_eq. split.
  - intros [[[-> ->] ->] ->]. reflexivity.
  - intros E. injection E as -> -> -> ->. auto.
Qed.

Lemma Entry_eqb_refl (a : Entry) : Entry_eqb a a = true.
Proof. apply Entry_eqb_eq. reflexivity. Qed.

Lemma remove_first_perm (x : Entry) (l : list Entry) :
  In x l -> Permutation l (x :: remove_first x l).
Proof.
  induction l as [|y l IH]; intros Hin; [destruct Hin|].
  simpl. destruct (Entry_eqb y x) eqn:E.
  - apply Entry_eqb_eq in E. subst y. apply Permutation_refl.
  - destruct Hin as [-> | Hin]; [rewrite Entry_eqb_refl in E; discriminate|].
    eapply perm_trans; [apply perm_skip, IH, Hin | apply perm_swap].
Qed.

Lemma remove_first_middle (x : Entry) (l1 l2 : list Entry) :
  ~ In x l1 -> remove_first x (l1 ++ x :: l2) = l1 ++ l2.
Proof.
  induction l1 as [|y l1 IH]; intros Hnotin; simpl.
  - rewrite Entry_eqb_refl. reflexivity.
  - destruct (Entry_eqb y x) eqn:E.
    + apply Entry_eqb_eq in E. subst y. exfalso. apply Hnotin. left. reflexivity.
    + f_equal. apply IH. intros Hin. apply Hnotin. right. exact Hin.
Qed.

Lemma failed_entries_length (script : nat -> Exchange.Reply) (l : list Entry) :
  forall k, (List.length (failed_entries script k l) <= List.length l)%nat.
Proof.
  induction l as [|e l IH]; intros k; simpl; [lia|].
  destruct (Exchange.ok (script k)); simpl; specialize (IH (S k)); lia.
Qed.

(** The loop of [process_reopen_queue], started with [pending] left to
    read and with a live queue that holds, in some order, the entries
    [kept] that failed so far and [pending]. *)
Lemma reopen_loop_spec (cfg : Config) (pending : list Entry) :
  forall queue ex count kept,
    Permutation queue (kept ++ pending) ->
    let failed :=
      failed_entries (Exchange.script ex) (List.length (Exchange.calls ex)) pending in
    let '(queue', ex', count') := reopen_loop cfg pending queue ex count in
    Exchange.script ex' = Exchange.script ex
    /\ Exchange.calls ex' = Exchange.calls ex ++ map (order_of cfg) pending
    /\ Permutation queue' (kept ++ failed)
    /\ (queue = kept ++ pending -> NoDup (kept ++ pending) -> queue' = kept ++ failed)
    /\ count' = count + Z.of_nat (List.length pending) - Z.of_nat (List.length failed).
Proof.
  induction pending as [|x pending IH]; intros queue ex count kept Hperm; simpl.
  - rewrite !app_nil_r in *. split_all; auto. lia.
  - unfold Exchange.create_order, Exchange.call.
    set (ex1 := Exchange.mkExchange (Exchange.script ex)
                  (Exchange.calls ex ++ [order_of cfg x])).
    assert (Hlen : List.length (Exchange.calls ex1) = S (List.length (Exchange.calls ex))).
    { unfold ex1. simpl. rewrite length_app. simpl. lia. }
    fold (order_of cfg x). fold ex1.
    destruct (Exchange.ok (Exchange.script ex (List.length (Exchange.calls ex)))) eqn:Hok.
    + assert (Hin : In x queue).
      { eapply Permutation_in; [apply Permutation_sym, Hperm|].
        apply in_or_app. right. left. reflexivity. }
      assert (Hperm' : Permutation (remove_first x queue) (kept ++ pending)).
      { apply (Permutation_cons_inv (a := x)).
        eapply perm_trans; [apply Permutation_sym, remove_first_perm, Hin|].
        eapply perm_trans; [exact Hperm|].
        apply Permutation_sym, Permutation_middle. }
      specialize (IH (remove_first x queue) ex1 (count + 1) kept Hperm').
      destruct (reopen_loop cfg pending (remove_first x queue) ex1 (count + 1))
        as [[queue' ex'] count'].
      rewrite Hlen in IH. simpl in IH.
      destruct IH as [Hs [Hc [Hp [Hex Hn]]]].
      split_all; auto.
      * rewrite Hc. unfold ex1. simpl. rewrite <- app_assoc. reflexivity.
      * intros Hq Hnd. apply Hex.
        -- rewrite Hq. apply remove_first_middle.
           apply NoDup_remove_2 in Hnd. intros Hk. apply Hnd.
           apply in_or_app. left. exact Hk.
        -- apply NoDup_remove_1 in Hnd. exact Hnd.
      * pose proof (failed_entries_length (Exchange.script ex)
                      pending (S (List.length (Exchange.calls ex)))).
        lia.
    + assert (Hperm' : Permutation queue ((kept ++ [x]) ++ pending)).
      { rewrite <- app_assoc. exact Hperm. }
      specialize (IH queue ex1 count (kept ++ [x]) Hperm').
      destruct (reopen_loop cfg pending queue ex1 count) as [[queue' ex'] count'].
      rewrite Hlen in IH. simpl in IH. rewrite <- !app_assoc in IH. simpl in IH.
      destruct IH as [Hs [Hc [Hp [Hex Hn]]]].
      split_all; auto.
      simpl List.length. lia.
Qed.

(** [process_reopen_queue] with reopening enabled. *)
Lemma drain_spec (cfg : Config) (queue : list Entry) (ex : Exchange.Exchange) :
  enablePositionReopen cfg = true ->
  let failed :=
    failed_entries (Exchange.script ex) (List.length (Exchange.calls ex)) queue in
  let '(queue', ex', reopened) := process_reopen_queue cfg queue ex in
  Exchange.script ex' = Exchange.script ex
  /\ Exchange.calls ex' = Exchange.calls ex ++ map (order_of cfg) queue
  /\ Permutation queue' failed
  /\ (NoDup queue -> queue' = failed)
  /\ (reopened = true <-> (List.length failed < List.length queue)%nat).
Proof.
  intros Hen. unfold process_reopen_queue. rewrite Hen. simpl negb. cbv iota.
  destruct queue as [|e queue].
  - simpl. rewrite app_nil_r. split_all; auto. split; [discriminate | lia].
  - pose proof (reopen_loop_spec cfg (e :: queue) (e :: queue) ex 0 []
                  (Permutation_refl _)) as L.
    destruct (reopen_loop cfg (e :: queue) (e :: queue) ex 0)
      as [[queue' ex'] count'].
    cbv zeta in L. destruct L as [Hs [Hc [Hp [Hex Hn]]]].
    split_all; auto.
    pose proof (failed_entries_length (Exchange.script ex) (e :: queue)
                    (List.length (Exchange.calls ex))).
    rewrite Hn. rewrite Z.ltb_lt. lia.
Qed.

(** C5, amended.  With position reopening enabled, a drain places one
    limit order for every entry of the queue, in queue order, each
    answered by the next reply of the gateway; it removes one entry equal
    to each entry that was placed, so that what stays in the queue are
    the entries that failed (in queue order when no two entries are
    equal), to be tried again by the next drain; it returns [True] when
    something was placed.  A drain of the empty queue changes nothing.
    A single entry whose placement fails and then succeeds leaves a
    queue of size 1 after the first drain and of size 0 after the
    second. *)
Theorem drain_retries_until_placed (cfg : Config) (queue : list Entry)
    (ex : Exchange.Exchange) :
  enablePositionReopen cfg = true ->
  (let failed :=
     failed_entries (Exchange.script ex) (List.length (Exchange.calls ex)) queue in
   let '(queue', ex', reopened) := process_reopen_queue cfg queue ex in
   Exchange.script ex' = Exchange.script ex
   /\ Exchange.calls ex' = Exchange.calls ex ++ map (order_of cfg) queue
   /\ Permutation queue' failed
   /\ (NoDup queue -> queue' = failed)
   /\ (reopened = true <-> (List.length failed < List.length queue)%nat))
  /\ process_reopen_queue cfg [] ex = ([], ex, false)
  /\ (forall e,
        let k := List.length (Exchange.calls ex) in
        Exchange.ok (Exchange.script ex k) = false ->
        Exchange.ok (Exchange.script ex (S k)) = true ->
        let '(queue1, ex1, _) := process_reopen_queue cfg [e] ex in
        let '(queue2, _, _) := process_reopen_queue cfg queue1 ex1 in
        get_queue_size queue1 = 1 /\ get_queue_size queue2 = 0).
Proof.
  intros Hen. split_all.
  - apply drain_spec. exact Hen.
  - unfold process_reopen_queue. rewrite Hen. reflexivity.
  - intros e k Hfail Hok.
    pose proof (drain_spec cfg [e] ex Hen) as D1.
    destruct (process_reopen_queue cfg [e] ex) as [[queue1 ex1] r1].
    cbv zeta in D1. simpl failed_entries in D1. fold k in D1. rewrite Hfail in D1.
    destruct D1 as [Hs1 [Hc1 [_ [Hq1 _]]]].
    assert (E1 : queue1 = [e]).
    { apply Hq1. constructor; [intros []| constructor]. }
    subst queue1.
    pose proof (drain_spec cfg [e] ex1 Hen) as D2.
    destruct (process_reopen_queue cfg [e] ex1) as [[queue2 ex2] r2].
    cbv zeta in D2. simpl failed_entries in D2.
    rewrite Hs1, Hc1, length_app in D2. simpl List.length in D2.
    replace (List.length (Exchange.calls ex) + 1)%nat with (S k) in D2
      by (unfold k; lia).
    rewrite Hok in D2. destruct D2 as [_ [_ [_ [Hq2 _]]]].
    assert (E2 : queue2 = []).
    { apply Hq2. constructor; [intros []| constructor]. }
    subst queue2. split; reflexivity.
Qed.

End WithFloat.

(** The scenario: one entry [{level: 1000, side: SELL, qty: 1, slot:
    SHORT}] and a gateway whose [create_order] fails, then succeeds. *)
Lemma drain_retries_until_placed_witness :
  let ex := Examples.gateway [Examples.failure; Examples.success] in
  let '(queue1, ex1, _) :=
    process_reopen_queue Examples.base [Examples.short_entry] ex in
  let '(queue2, _, _) := process_reopen_queue Examples.base queue1 ex1 in
  get_queue_size queue1 = 1 /\ get_queue_size queue2 = 0.
Proof.
  exact (proj2 (proj2 (drain_retries_until_placed (H := DecimalFloat.ops)
                         Examples.base [Examples.short_entry]
                         (Examples.gateway [Examples.failure; Examples.success])
                         eq_refl))
           Examples.short_entry eq_refl eq_refl).
Defined.

(** C5 as stated fails when position reopening is disabled: the drain
    returns at once, no order is attempted for the queued entry (the
    gateway would have accepted it), and the entry stays. *)
Lemma drain_disabled_attempts_nothing :
  let cfg := Examples.with_limits Examples.base false
               (Some (Py.VStr "3")) (Some (Py.VStr "unlimited")) in
  let ex := Examples.gateway [Examples.success] in
  let r := process_reopen_queue cfg [Examples.short_entry] ex in
  Exchange.calls (snd (fst r)) = []
  /\ fst (fst r) = [Examples.short_entry]
  /\ Exchange.calls (snd (fst r))
     <> Exchange.calls ex ++ map (order_of cfg) [Examples.short_entry]
  /\ ~ Permutation (fst (fst r))
         (failed_entries (Exchange.script ex) (List.length (Exchange.calls ex))
            [Examples.short_entry]).
Proof.
  cbv zeta. split_all.
  - reflexivity.
  - reflexivity.
  - discriminate.
  - intros P. apply Permutation_sym, Permutation_nil in P. discriminate P.
Qed.

End ReopenProps.

(* ================================================================== *)
(** * Properties of the signal-driven position manager *)

Module MarketProps.
Import MarketPositionManager.

Section WithFloat.
Context `{FloatOps}.

(** The configured reopen limit when it is a finite integer. *)
Definition finite_max_reopens (cfg : Config) : option Z :=
  let v := Py.get (maxMarketPositionReopens cfg) (Py.VStr "unlimited") in
  if Py.is_unlimited v then None else Py.int v.

(** The momentum of the last stored analysis. *)
Definition last_momentum (st : State) : option string :=
  match last_analysis_result st with
  | Some prev => momentum prev
  | None => None
  end.

Definition is_create_order (r : Exchange.Request) : bool :=
  match r with
  | Exchange.CreateOrder _ _ _ _ _ _ => true
  | _ => false
  end.

(** [ex'] is [ex] after some more calls, none of which places an
    order. *)
Definition no_order_placed (ex ex' : Exchange.Exchange) : Prop :=
  Exchange.script ex' = Exchange.script ex
  /\ exists l, Exchange.calls ex' = Exchange.calls ex ++ l
               /\ forallb (fun r => negb (is_create_order r)) l = true.

Lemma no_order_placed_refl (ex : Exchange.Exchange) : no_order_placed ex ex.
Proof.
  split; [reflexivity|]. exists []. rewrite app_nil_r. split; reflexivity.
Qed.

Lemma no_order_placed_trans (a b c : Exchange.Exchange) :
  no_order_placed a b -> no_order_placed b c -> no_order_placed a c.
Proof.
  intros [Sab [l1 [E1 F1]]] [Sbc [l2 [E2 F2]]]. split; [congruence|].
  exists (l1 ++ l2). rewrite E2, E1, app_assoc. split; [reflexivity|].
  rewrite forallb_app, F1, F2. reflexivity.
Qed.

Lemma no_order_placed_call (ex : Exchange.Exchange) (r : Exchange.Request) :
  is_create_order r = false -> no_order_placed ex (snd (Exchange.call ex r)).
Proof.
  intros Hr. split; [reflexivity|]. exists [r]. simpl. rewrite Hr. split; reflexivity.
Qed.

Lemma value_eqb_refl (a : option string) : value_eqb a a = true.
Proof. destruct a; simpl; [apply String.eqb_refl | reflexivity]. Qed.

Lemma value_eqb_eq (a b : option string) : value_eqb a b = true <-> a = b.
Proof.
  destruct a, b; simpl; try (split; [discriminate | congruence]).
  - rewrite String.eqb_eq. split; congruence.
  - split; reflexivity.
Qed.

(** What [close_market_position] leaves alone, and what it does. *)
Lemma close_market_position_frame (cfg : Config) (st : State)
    (ex : Exchange.Exchange) :
  let '(closed, st', ex') := close_market_position cfg st ex in
  market_position_reopens st' = market_position_reopens st
  /\ last_analysis_result st' = last_analysis_result st
  /\ last_signal st' = last_signal st
  /\ last_analysis_time st' = last_analysis_time st
  /\ no_order_placed ex ex'
  /\ (closed = true -> market_position st' = None)
  /\ (closed = false -> st' = st).
Proof.
  unfold close_market_position.
  destruct (market_position st) eqn:Hpos.
  2:{ simpl. split_all; auto using no_order_placed_refl. }
  unfold Exchange.get_position_information.
  destruct (Exchange.call ex _) as [rep ex1] eqn:Hcall1.
  assert (N1 : no_order_placed ex ex1).
  { replace ex1 with (snd (Exchange.call ex (Exchange.GetPositionInformation (symbol cfg))))
      by (rewrite Hcall1; reflexivity).
    apply no_order_placed_call. reflexivity. }
  destruct (Exchange.position rep) as [info|].
  2:{ simpl. split_all; auto. discriminate. }
  destruct (feqb _ _).
  { simpl. split_all; auto. discriminate. }
  unfold Exchange.close_position_market.
  destruct (Exchange.call ex1 _) as [rep2 ex2] eqn:Hcall2.
  assert (N2 : no_order_placed ex1 ex2).
  { match type of Hcall2 with Exchange.call _ ?r = _ =>
      replace ex2 with (snd (Exchange.call ex1 r)) by (rewrite Hcall2; reflexivity)
    end.
    apply no_order_placed_call. reflexivity. }
  destruct (Exchange.ok rep2); simpl; split_all;
    eauto using no_order_placed_trans; discriminate.
Qed.

(** What [open_market_position] leaves alone. *)
Lemma open_market_position_frame (cfg : Config) (st : State)
    (ex : Exchange.Exchange) (side : Side) (price : Dec.Decimal) :
  let '(_, st', _) := open_market_position cfg st ex side price in
  market_position_reopens st' = market_position_reopens st
  /\ last_analysis_result st' = last_analysis_result st
  /\ last_signal st' = last_signal st.
Proof.
  unfold open_market_position.
  destruct (if String.eqb _ _ then _ else _); [|auto].
  unfold Exchange.create_order. destruct (Exchange.call ex _) as [rep ex'].
  destruct (Exchange.ok rep); simpl; auto.
Qed.

Lemma run_analysis_frame (cfg : Config) (st : State) (an : Analyzer) (now : Z) :
  let '(_, st', _) := run_volatility_detector_analysis cfg st an now in
  market_position_reopens st' = market_position_reopens st
  /\ last_analysis_result st' = last_analysis_result st
  /\ last_signal st' = last_signal st
  /\ market_position st' = market_position st.
Proof.
  unfold run_volatility_detector_analysis.
  destruct (attempt_loop _ an) as [[a|] an']; simpl; auto.
Qed.

(** After [determine_action] the stored analysis carries the signal
    just seen. *)
Lemma determine_action_stores (cfg : Config) (st : State) (a : Analysis) :
  exists prev,
    last_analysis_result (snd (determine_action cfg st a)) = Some prev
    /\ trend prev = trend a /\ momentum prev = momentum a.
Proof.
  unfold determine_action. simpl.
  destruct (last_analysis_result st) as [prev|] eqn:Hprev.
  - destruct (value_eqb (trend a) (trend prev) && value_eqb (momentum a) (momentum prev))
      eqn:Hsame; simpl.
    + apply andb_true_iff in Hsame. destruct Hsame as [Ht Hm].
      apply value_eqb_eq in Ht. apply value_eqb_eq in Hm.
      exists prev. auto.
    + exists a. auto.
  - simpl. exists a. auto.
Qed.

Lemma determine_action_same (cfg : Config) (st : State) (a prev : Analysis) :
  last_analysis_result st = Some prev ->
  trend a = trend prev ->
  momentum a = momentum prev ->
  fst (determine_action cfg st a) = None
  /\ market_position (snd (determine_action cfg st a)) = market_position st.
Proof.
  intros Hprev Ht Hm. unfold determine_action. simpl.
  rewrite Hprev, Ht, Hm, !value_eqb_refl. simpl. auto.
Qed.

(** C6.  Debounce: when two consecutive successful analyses carry the
    same trend and the same momentum, [determine_action] returns no
    action for the second, whatever the manager did in between that left
    the stored analysis alone; [process_analysis] then makes no gateway
    call and leaves the market position as it is, so the same signal
    twice in a row opens or closes at most one position. *)
Theorem debounce_identical_signals (cfg : Config) (st st' : State)
    (a1 a2 : Analysis) :
  trend a2 = trend a1 ->
  momentum a2 = momentum a1 ->
  last_analysis_result st' = last_analysis_result (snd (determine_action cfg st a1)) ->
  fst (determine_action cfg st' a2) = None
  /\ forall ex an now price,
       fst (fst (run_volatility_detector_analysis cfg st' an now)) = Some a2 ->
       let '(_, st'', ex'', _) := process_analysis cfg st' ex an now price in
       ex'' = ex /\ market_position st'' = market_position st'.
Proof.
  intros Ht Hm Hlast.
  destruct (determine_action_stores cfg st a1) as [prev [Hprev [Hpt Hpm]]].
  rewrite Hprev in Hlast.
  split.
  - apply (determine_action_same cfg st' a2 prev); congruence.
  - intros ex an now price Hrun. unfold process_analysis.
    destruct (negb (enableMarketPositionLogic cfg)); [auto|].
    destruct (negb (should_run_analysis cfg st' now)); [auto|].
    pose proof (run_analysis_frame cfg st' an now) as F.
    destruct (run_volatility_detector_analysis cfg st' an now) as [[r st1] an1].
    simpl in Hrun. subst r. destruct F as [_ [Fres [_ Fpos]]].
    destruct (determine_action_same cfg st1 a2 prev) as [Hnone Hkeep];
      try congruence.
    destruct (determine_action cfg st1 a2) as [act st2]. simpl in Hnone, Hkeep.
    subst act. split; congruence.
Qed.

End WithFloat.

(** The scenario of C6: [(UPTREND, OVERBOUGHT)] twice in a row, from a
    fresh manager.  The first analysis opens a long position, the second
    yields no action. *)
Definition uptrend_overbought : @Analysis :=
  mkAnalysis (Some "UPTREND"%string) (Some "OVERBOUGHT"%string).

Lemma debounce_identical_signals_witness :
  fst (determine_action Examples.base (@init DecimalFloat.ops) uptrend_overbought)
    = Some OPEN_LONG
  /\ fst (determine_action Examples.base
            (snd (determine_action Examples.base (@init DecimalFloat.ops)
                    uptrend_overbought))
            uptrend_overbought) = None.
Proof.
  split; [reflexivity|].
  apply (debounce_identical_signals (H := DecimalFloat.ops) Examples.base init
           (snd (determine_action Examples.base init uptrend_overbought))
           uptrend_overbought uptrend_overbought); reflexivity.
Defined.

Section WithFloat.
Context `{FloatOps}.

Lemma can_reopen_finite (cfg : Config) (st : State) (N : Z) :
  finite_max_reopens cfg = Some N ->
  _can_reopen_market_position cfg st = negb (market_position_reopens st >=? N).
Proof.
  unfold finite_max_reopens, _can_reopen_market_position.
  destruct (Py.is_unlimited _); [discriminate|]. intros ->. reflexivity.
Qed.

(** The three ways [handle_market_position_tp_sl] ends: it only closes
    (or does nothing), or it closes, counts one reopen and opens. *)
Lemma handle_cases (cfg : Config) (st : State) (ex : Exchange.Exchange)
    (trigger : Trigger) (price : Dec.Decimal) :
  let '(reopened, st', ex') := handle_market_position_tp_sl cfg st ex trigger price in
  (reopened = false
   /\ market_position_reopens st' = market_position_reopens st
   /\ no_order_placed ex ex')
  \/ (reopened = true
      /\ _can_reopen_market_position cfg st = true
      /\ last_momentum st <> Some "NEUTRAL"%string
      /\ market_position_reopens st' = market_position_reopens st + 1).
Proof.
  unfold handle_market_position_tp_sl.
  destruct (market_position st) eqn:Hpos.
  2:{ left. auto using no_order_placed_refl. }
  destruct (_can_reopen_market_position cfg st) eqn:Hcan; cbn [negb].
  2:{ pose proof (close_market_position_frame cfg st ex) as F.
      destruct (close_market_position cfg st ex) as [[c st1] ex1].
      left. tauto. }
  destruct (match last_analysis_result st with
            | Some prev => value_eqb (momentum prev) (Some "NEUTRAL"%string)
            | None => false
            end) eqn:Hneutral.
  { pose proof (close_market_position_frame cfg st ex) as F.
    destruct (close_market_position cfg st ex) as [[c st1] ex1].
    left. tauto. }
  unfold Exchange.get_position_information.
  destruct (Exchange.call ex _) as [rep ex1] eqn:Hcall.
  assert (N1 : no_order_placed ex ex1).
  { replace ex1 with (snd (Exchange.call ex (Exchange.GetPositionInformation (symbol cfg))))
      by (rewrite Hcall; reflexivity).
    apply no_order_placed_call. reflexivity. }
  destruct (Exchange.position rep) as [info|]; [|left; auto].
  destruct (feqb _ _); [left; auto|].
  pose proof (close_market_position_frame cfg st ex1) as F.
  destruct (close_market_position cfg st ex1) as [[c st2] ex2].
  destruct F as [Fre _].
  match goal with
  | |- context [open_market_position ?c ?s ?e ?sd ?p] =>
      pose proof (open_market_position_frame c s e sd p) as G;
      destruct (open_market_position c s e sd p) as [[o st4] ex4]
  end.
  destruct G as [Gre _]. simpl in Gre.
  right. split_all; auto.
  - unfold last_momentum. destruct (last_analysis_result st) as [prev|]; [|discriminate].
    intros E. rewrite E in Hneutral. discriminate.
  - lia.
Qed.

(** The counter after [determine_action]: reset by a changed signal,
    kept otherwise. *)
Lemma determine_action_reopens (cfg : Config) (st : State) (a : Analysis) :
  market_position_reopens (snd (determine_action cfg st a))
  = if nonempty (last_signal st)
       && negb (value_eqb (last_signal st)
                  (Some (fmt (trend a) ++ "_" ++ fmt (momentum a))%string))
    then 0 else market_position_reopens st.
Proof.
  unfold determine_action. cbv zeta.
  match goal with |- context [if ?c then (None, _) else _] => destruct c end;
    reflexivity.
Qed.

(** The amount of the position the gateway reports, when it reports one
    that is not zero. *)
Definition reported_amount (answer : Exchange.Reply) : option float :=
  match Exchange.position answer with
  | Some info =>
      if feqb (Exchange.positionAmt info) (float_of_Z 0) then None
      else Some (Exchange.positionAmt info)
  | None => None
  end.

(** The request [close_market_position] sends for a position of the
    amount [amt]: sell what a long position holds, buy back a short. *)
Definition close_request (cfg : Config) (amt : float) : Exchange.Request :=
  let long := fltb (float_of_Z 0) amt in
  Exchange.ClosePositionMarket (symbol cfg) (Exchange.NFloat (fabs amt))
    (if long then "SELL" else "BUY")%string
    (if long then "LONG" else "SHORT")%string.

(** What [handle_market_position_tp_sl] does to a held position once
    the budget is spent: one query, at most one request to close, and
    the record struck as the gateway answers. *)
Lemma handle_budget_spent (cfg : Config) (st : State) (ex : Exchange.Exchange)
    (trigger : Trigger) (price : Dec.Decimal) (N : Z) (side : Side) :
  finite_max_reopens cfg = Some N ->
  N <= market_position_reopens st ->
  market_position st = Some side ->
  let '(reopened, st', ex') :=
    handle_market_position_tp_sl cfg st ex trigger price in
  let n := List.length (Exchange.calls ex) in
  let query := Exchange.GetPositionInformation (symbol cfg) in
  reopened = false
  /\ Exchange.script ex' = Exchange.script ex
  /\ match reported_amount (Exchange.script ex n) with
     | None =>
         Exchange.calls ex' = Exchange.calls ex ++ [query]
         /\ st' = mkState (last_analysis_time st) (last_analysis_result st)
                    None (market_position_entry_price st) None
                    (market_position_reopens st) (last_signal st)
     | Some amt =>
         Exchange.calls ex' = Exchange.calls ex ++ [query; close_request cfg amt]
         /\ (Exchange.ok (Exchange.script ex (S n)) = true ->
             st' = mkState (last_analysis_time st) (last_analysis_result st)
                     None None None
                     (market_position_reopens st) (last_signal st))
         /\ (Exchange.ok (Exchange.script ex (S n)) = false -> st' = st)
     end.
Proof.
  intros Hfin Hreached Hpos.
  unfold handle_market_position_tp_sl. rewrite Hpos.
  rewrite (can_reopen_finite cfg st N Hfin).
  replace (market_position_reopens st >=? N) with true
    by (symmetry; apply Z.geb_le; exact Hreached).
  cbn [negb].
  unfold close_market_position. rewrite Hpos.
  unfold Exchange.get_position_information, Exchange.call, reported_amount.
  cbn [Exchange.script Exchange.calls].
  destruct (Exchange.position
              (Exchange.script ex (List.length (Exchange.calls ex))))
    as [info|]; [|split_all; reflexivity].
  destruct (feqb (Exchange.positionAmt info) (float_of_Z 0));
    [split_all; reflexivity|].
  unfold Exchange.close_position_market, Exchange.call, close_request.
  cbn [Exchange.script Exchange.calls].
  rewrite length_app. cbn [List.length].
  replace (List.length (Exchange.calls ex) + 1)%nat
    with (S (List.length (Exchange.calls ex))) by lia.
  destruct (Exchange.ok
              (Exchange.script ex (S (List.length (Exchange.calls ex)))));
    cbn [Exchange.script Exchange.calls]; rewrite <- app_assoc;
    split_all; try reflexivity; try discriminate; intros _; reflexivity.
Qed.

(** C7.  The reopen budget.  When the configured limit is a finite
    integer [N] and the counter has reached it, a TP/SL trigger does
    what [close_market_position] does and nothing more: no order is
    placed, the counter keeps its value, and the position is gone as
    soon as the close goes through.  For a position on record that
    means: the gateway is asked for the position; if it reports none
    (or an amount of zero) the position is struck from the record
    without a further call; otherwise exactly one request to close the
    reported amount follows (a sell for a long position, a buy for a
    short one), and the manager drops the position, its entry price and
    its targets when the gateway accepts the request, and stays as it
    was when the gateway refuses.  In every case [False] is returned,
    the gateway receives nothing else and the counter keeps its value.
    In every state, a reopen ([True] returned) happens only with the
    budget not exhausted and a last momentum other than [NEUTRAL], and
    it adds exactly one to the counter; without a reopen no order is
    placed and the counter keeps its value. *)
Theorem reopen_budget (cfg : Config) (st : State) (ex : Exchange.Exchange)
    (trigger : Trigger) (price : Dec.Decimal) :
  (forall N,
     finite_max_reopens cfg = Some N ->
     N <= market_position_reopens st ->
     let '(closed, st1, ex1) := close_market_position cfg st ex in
     handle_market_position_tp_sl cfg st ex trigger price = (false, st1, ex1)
     /\ market_position_reopens st1 = market_position_reopens st
     /\ no_order_placed ex ex1
     /\ (closed = true -> market_position st1 = None))
  /\ (forall N side,
        finite_max_reopens cfg = Some N ->
        N <= market_position_reopens st ->
        market_position st = Some side ->
        let '(reopened, st', ex') :=
          handle_market_position_tp_sl cfg st ex trigger price in
        let n := List.length (Exchange.calls ex) in
        let query := Exchange.GetPositionInformation (symbol cfg) in
        reopened = false
        /\ Exchange.script ex' = Exchange.script ex
        /\ match reported_amount (Exchange.script ex n) with
           | None =>
               Exchange.calls ex' = Exchange.calls ex ++ [query]
               /\ st' = mkState (last_analysis_time st) (last_analysis_result st)
                          None (market_position_entry_price st) None
                          (market_position_reopens st) (last_signal st)
           | Some amt =>
               Exchange.calls ex'
               = Exchange.calls ex ++ [query; close_request cfg amt]
               /\ (Exchange.ok (Exchange.script ex (S n)) = true ->
                   st' = mkState (last_analysis_time st) (last_analysis_result st)
                           None None None
                           (market_position_reopens st) (last_signal st))
               /\ (Exchange.ok (Exchange.script ex (S n)) = false -> st' = st)
           end)
  /\ (let '(reopened, st', ex') :=
        handle_market_position_tp_sl cfg st ex trigger price in
      (reopened = true ->
         _can_reopen_market_position cfg st = true
         /\ last_momentum st <> Some "NEUTRAL"%string
         /\ market_position_reopens st' = market_position_reopens st + 1)
      /\ (reopened = false ->
            market_position_reopens st' = market_position_reopens st
            /\ no_order_placed ex ex')).
Proof.
  split; [|split].
  - intros N Hfin Hreached.
    pose proof (close_market_position_frame cfg st ex) as F.
    unfold handle_market_position_tp_sl.
    rewrite (can_reopen_finite cfg st N Hfin).
    replace (market_position_reopens st >=? N) with true
      by (symmetry; apply Z.geb_le; exact Hreached).
    simpl.
    destruct (market_position st) eqn:Hpos.
    + destruct (close_market_position cfg st ex) as [[c st1] ex1].
      split_all; tauto.
    + unfold close_market_position in *. rewrite Hpos in *.
      split_all; tauto.
  - intros N side Hfin Hreached Hpos.
    exact (handle_budget_spent cfg st ex trigger price N side Hfin Hreached Hpos).
  - pose proof (handle_cases cfg st ex trigger price) as C.
    destruct (handle_market_position_tp_sl cfg st ex trigger price) as [[r st'] ex'].
    destruct C as [[-> C] | [-> C]]; split; intros E; try discriminate; tauto.
Qed.

(** The counter stays within the budget: never above [max(N, 0)]. *)
Definition within_budget (N : Z) (st : State) : Prop :=
  market_position_reopens st <= Z.max 0 N.

(** C9, amended.  With a finite configured limit [N], the reopen counter
    never exceeds [max(N, 0)], hence never [N] when [N] is not negative:
    this holds of a new manager and every method of the manager keeps
    it.  The counter grows only in [handle_market_position_tp_sl], by
    one and only from a value below [N]; a changed signal resets it to 0
    in [determine_action], and [process_analysis] leaves it at 0 after
    every action it carries out (open long, open short, close). *)
Theorem reopen_counter_bounded (cfg : Config) (N : Z) :
  finite_max_reopens cfg = Some N ->
  within_budget N init
  /\ (forall st, within_budget N st ->
        (forall a, within_budget N (snd (determine_action cfg st a)))
        /\ (forall an now,
              within_budget N (snd (fst (run_volatility_detector_analysis cfg st an now))))
        /\ (forall ex side price,
              within_budget N (snd (fst (open_market_position cfg st ex side price))))
        /\ (forall ex, within_budget N (snd (fst (close_market_position cfg st ex))))
        /\ (forall ex an now price,
              within_budget N (snd (fst (fst (process_analysis cfg st ex an now price)))))
        /\ (forall ex trigger price,
              within_budget N
                (snd (fst (handle_market_position_tp_sl cfg st ex trigger price)))))
  /\ (forall st ex trigger price,
        let st' := snd (fst (handle_market_position_tp_sl cfg st ex trigger price)) in
        market_position_reopens st' = market_position_reopens st
        \/ (market_position_reopens st' = market_position_reopens st + 1
            /\ market_position_reopens st < N))
  /\ (forall st a s,
        last_signal st = Some s -> s <> EmptyString ->
        s <> (fmt (trend a) ++ "_" ++ fmt (momentum a))%string ->
        market_position_reopens (snd (determine_action cfg st a)) = 0)
  /\ (forall st ex an now price a,
        enableMarketPositionLogic cfg = true ->
        should_run_analysis cfg st now = true ->
        fst (fst (run_volatility_detector_analysis cfg st an now)) = Some a ->
        fst (determine_action cfg
               (snd (fst (run_volatility_detector_analysis cfg st an now))) a)
          <> None ->
        market_position_reopens
          (snd (fst (fst (process_analysis cfg st ex an now price)))) = 0).
Proof.
  intros Hfin.
  assert (Hdet : forall st a, within_budget N st ->
                   within_budget N (snd (determine_action cfg st a))).
  { intros st a Hst. unfold within_budget in *.
    rewrite determine_action_reopens. destruct (_ && _); lia. }
  assert (Hrun : forall st an now,
                   market_position_reopens
                     (snd (fst (run_volatility_detector_analysis cfg st an now)))
                   = market_position_reopens st).
  { intros st an now. pose proof (run_analysis_frame cfg st an now) as F.
    destruct (run_volatility_detector_analysis cfg st an now) as [[r st1] an1].
    simpl. tauto. }
  assert (Hopen : forall st ex side price,
                    market_position_reopens
                      (snd (fst (open_market_position cfg st ex side price)))
                    = market_position_reopens st).
  { intros st ex side price.
    pose proof (open_market_position_frame cfg st ex side price) as F.
    destruct (open_market_position cfg st ex side price) as [[o st1] ex1].
    simpl. tauto. }
  assert (Hclose : forall st ex,
                     market_position_reopens (snd (fst (close_market_position cfg st ex)))
                     = market_position_reopens st).
  { intros st ex. pose proof (close_market_position_frame cfg st ex) as F.
    destruct (close_market_position cfg st ex) as [[c st1] ex1]. simpl. tauto. }
  assert (Hhandle : forall st ex trigger price,
            let st' := snd (fst (handle_market_position_tp_sl cfg st ex trigger price)) in
            market_position_reopens st' = market_position_reopens st
            \/ (market_position_reopens st' = market_position_reopens st + 1
                /\ market_position_reopens st < N)).
  { intros st ex trigger price.
    pose proof (handle_cases cfg st ex trigger price) as C.
    destruct (handle_market_position_tp_sl cfg st ex trigger price) as [[r st'] ex'].
    simpl. destruct C as [[_ [C _]] | [_ [Hcan [_ C]]]]; [left; exact C|].
    right. split; [exact C|].
    rewrite (can_reopen_finite cfg st N Hfin) in Hcan.
    apply negb_true_iff in Hcan.
    destruct (Z.geb_spec (market_position_reopens st) N); [discriminate|lia]. }
  assert (Hproc : forall st ex an now price,
            market_position_reopens
              (snd (fst (fst (process_analysis cfg st ex an now price))))
            = market_position_reopens st
            \/ market_position_reopens
                 (snd (fst (fst (process_analysis cfg st ex an now price)))) = 0
            \/ exists a,
                 snd (fst (fst (process_analysis cfg st ex an now price)))
                 = snd (determine_action cfg
                          (snd (fst (run_volatility_detector_analysis cfg st an now))) a)).
  { intros st ex an now price. unfold process_analysis.
    destruct (negb (enableMarketPositionLogic cfg)); [left; reflexivity|].
    destruct (negb (should_run_analysis cfg st now)); [left; reflexivity|].
    pose proof (Hrun st an now) as R.
    destruct (run_volatility_detector_analysis cfg st an now) as [[[a|] st1] an1];
      simpl in R |- *; [|left; exact R].
    destruct (determine_action cfg st1 a) as [[[ | | ]|] st2] eqn:Hd; simpl.
    - right. left.
      destruct (close_market_position cfg st2 ex) as [[c st3] ex3].
      pose proof (Hopen (set_reopens st3 0) ex3 BUY price) as O.
      destruct (open_market_position cfg (set_reopens st3 0) ex3 BUY price)
        as [[o st5] ex5]. simpl in O |- *. exact O.
    - right. left.
      destruct (close_market_position cfg st2 ex) as [[c st3] ex3].
      pose proof (Hopen (set_reopens st3 0) ex3 SELL price) as O.
      destruct (open_market_position cfg (set_reopens st3 0) ex3 SELL price)
        as [[o st5] ex5]. simpl in O |- *. exact O.
    - right. left.
      destruct (close_market_position cfg st2 ex) as [[c st3] ex3]. reflexivity.
    - right. right. exists a. rewrite Hd. reflexivity. }
  split_all.
  - unfold within_budget. simpl. lia.
  - intros st Hst. split_all.
    + intros a. apply Hdet. exact Hst.
    + intros an now. unfold within_budget in *. rewrite Hrun. exact Hst.
    + intros ex side price. unfold within_budget in *. rewrite Hopen. exact Hst.
    + intros ex. unfold within_budget in *. rewrite Hclose. exact Hst.
    + intros ex an now price.
      destruct (Hproc st ex an now price) as [E | [E | [a E]]].
      * unfold within_budget in *. rewrite E. exact Hst.
      * unfold within_budget in *. rewrite E. lia.
      * rewrite E. apply Hdet. unfold within_budget in *. rewrite Hrun. exact Hst.
    + intros ex trigger price. unfold within_budget in *.
      destruct (Hhandle st ex trigger price) as [E | [E Hlt]]; rewrite E; lia.
  - exact Hhandle.
  - intros st a s Hs Hne Hchg. rewrite determine_action_reopens, Hs.
    unfold nonempty, value_eqb.
    assert (E1 : (s =? EmptyString)%string = false)
      by (apply String.eqb_neq; exact Hne).
    assert (E2 : (s =? fmt (trend a) ++ "_" ++ fmt (momentum a))%string = false)
      by (apply String.eqb_neq; exact Hchg).
    rewrite E1, E2. reflexivity.
  - intros st ex an now price a Hen Hdue Hres Hact. unfold process_analysis.
    rewrite Hen, Hdue. simpl.
    destruct (run_volatility_detector_analysis cfg st an now) as [[r st1] an1].
    simpl in Hres, Hact. subst r.
    destruct (determine_action cfg st1 a) as [[[ | | ]|] st2]; simpl in *.
    + destruct (close_market_position cfg st2 ex) as [[c st3] ex3].
      pose proof (Hopen (set_reopens st3 0) ex3 BUY price) as O.
      destruct (open_market_position cfg (set_reopens st3 0) ex3 BUY price)
        as [[o st5] ex5]. simpl in O |- *. exact O.
    + destruct (close_market_position cfg st2 ex) as [[c st3] ex3].
      pose proof (Hopen (set_reopens st3 0) ex3 SELL price) as O.
      destruct (open_market_position cfg (set_reopens st3 0) ex3 SELL price)
        as [[o st5] ex5]. simpl in O |- *. exact O.
    + destruct (close_market_position cfg st2 ex) as [[c st3] ex3]. reflexivity.
    + congruence.
Qed.

End WithFloat.

(** The budget at work: limit 2, a long position entered at 1000 with a
    take profit at 1100, the price at 1100, two reopens done.  The
    trigger only closes: the gateway reports a position of 1, is asked
    to sell it, and accepts. *)
Lemma reopen_budget_witness :
  let cfg := Examples.two_reopens in
  let st := Examples.long_after Examples.two_reopens 2 in
  let ex := Examples.gateway [Examples.holding 1 1000; Examples.success] in
  (let '(closed, st1, ex1) := close_market_position cfg st ex in
   handle_market_position_tp_sl cfg st ex TAKE_PROFIT (Dec.of_Z 1100)
     = (false, st1, ex1)
   /\ market_position_reopens st1 = market_position_reopens st
   /\ no_order_placed ex ex1
   /\ (closed = true -> market_position st1 = None))
  /\ (let '(reopened, st', ex') :=
        handle_market_position_tp_sl cfg st ex TAKE_PROFIT (Dec.of_Z 1100) in
      reopened = false
      /\ Exchange.calls ex'
         = [Exchange.GetPositionInformation "BTCUSDT";
            Exchange.ClosePositionMarket (H := DecimalFloat.ops) "BTCUSDT"
              (Exchange.NFloat (H := DecimalFloat.ops) (Dec.of_Z 1))
              "SELL" "LONG"]
      /\ market_position st' = None
      /\ market_position_entry_price st' = None
      /\ market_position_targets st' = None
      /\ market_position_reopens st' = 2).
Proof.
  cbv zeta.
  pose proof (reopen_budget (H := DecimalFloat.ops) Examples.two_reopens
                (Examples.long_after Examples.two_reopens 2)
                (Examples.gateway [Examples.holding 1 1000; Examples.success])
                TAKE_PROFIT (Dec.of_Z 1100)) as [A [B _]].
  split; [exact (A 2 eq_refl (Z.le_refl 2))|].
  specialize (B 2 BUY eq_refl (Z.le_refl 2) eq_refl).
  revert B.
  destruct (handle_market_position_tp_sl Examples.two_reopens
              (Examples.long_after Examples.two_reopens 2)
              (Examples.gateway [Examples.holding 1 1000; Examples.success])
              TAKE_PROFIT (Dec.of_Z 1100)) as [[reopened st'] ex'].
  cbv zeta.
  change (reported_amount
            (Exchange.script
               (Examples.gateway [Examples.holding 1 1000; Examples.success])
               (List.length
                  (Exchange.calls
                     (Examples.gateway
                        [Examples.holding 1 1000; Examples.success])))))
    with (Some (Dec.of_Z 1) : option (@float DecimalFloat.ops)).
  intros [B1 [_ [B3 [B4 _]]]].
  rewrite (B4 eq_refl). split_all; try reflexivity; [exact B1 | exact B3].
Defined.

(** The values of that run: nothing reopened, the position gone, the
    counter still 2, two gateway calls (the position query and the
    close).  With one reopen done, the same trigger closes and opens
    again, which makes two. *)
Example budget_exhausted_run :
  let r := handle_market_position_tp_sl Examples.two_reopens
             (Examples.long_after Examples.two_reopens 2)
             (Examples.gateway [Examples.holding 1 1000; Examples.success])
             TAKE_PROFIT (Dec.of_Z 1100) in
  fst (fst r) = false
  /\ market_position (snd (fst r)) = None
  /\ market_position_reopens (snd (fst r)) = 2
  /\ List.length (Exchange.calls (snd r)) = 2%nat.
Proof. vm_compute. split_all; reflexivity. Qed.

Example budget_left_run :
  let r := handle_market_position_tp_sl Examples.two_reopens
             (Examples.long_after Examples.two_reopens 1)
             (Examples.gateway
                [Examples.holding 1 1000; Examples.holding 1 1000;
                 Examples.success; Examples.success])
             TAKE_PROFIT (Dec.of_Z 1100) in
  fst (fst r) = true
  /\ market_position (snd (fst r)) = Some BUY
  /\ market_position_reopens (snd (fst r)) = 2
  /\ List.length (Exchange.calls (snd r)) = 4%nat.
Proof. vm_compute. split_all; reflexivity. Qed.

(** C9 as stated fails for a negative limit: with
    [MAX_MARKET_POSITION_REOPENS=-1] the counter of a new manager, 0,
    already exceeds the limit. *)
Lemma reopen_counter_exceeds_negative_limit :
  finite_max_reopens Examples.negative_limit = Some (-1)
  /\ ~ market_position_reopens (@init DecimalFloat.ops) <= -1.
Proof. split; [reflexivity | cbn; lia]. Qed.

Lemma reopen_counter_bounded_witness :
  within_budget (H := DecimalFloat.ops) 2 init
  /\ within_budget 2
       (snd (fst (handle_market_position_tp_sl Examples.two_reopens
                    (Examples.long_after Examples.two_reopens 1)
                    (Examples.gateway
                       [Examples.holding 1 1000; Examples.holding 1 1000;
                        Examples.success; Examples.success])
                    TAKE_PROFIT (Dec.of_Z 1100)))).
Proof.
  destruct (reopen_counter_bounded (H := DecimalFloat.ops) Examples.two_reopens 2
              eq_refl) as [Hinit [Hkeep _]].
  split; [exact Hinit|].
  apply (Hkeep (Examples.long_after Examples.two_reopens 1)).
  vm_compute. discriminate.
Defined.

End MarketProps.

(* ================================================================== *)
(** * Limits that are not numbers *)

Module LimitProps.

(** What [int] takes for an integer: white space on both sides, a sign,
    single underscores between digits, and beyond ASCII the no-break
    space (here as the byte 160 and as its UTF-8 encoding) and the
    decimal digits of other scripts (here the Arabic-Indic digits three
    and four, and a full-width three). *)
Lemma int_beyond_ascii :
  Py.int (Py.VStr " +1_000 ") = Some 1000
  /\ Py.int (Py.VStr "-07") = Some (-7)
  /\ Py.int (Py.VStr (String (ascii_of_nat 160) "3")) = Some 3
  /\ Py.int (Py.VStr (string_of_list_ascii (map ascii_of_nat [194; 160; 51]%nat)))
     = Some 3
  /\ Py.int (Py.VStr (string_of_list_ascii
                        (map ascii_of_nat [217; 163; 217; 164]%nat)))
     = Some 34
  /\ Py.int (Py.VStr (string_of_list_ascii (map ascii_of_nat [239; 188; 147]%nat)))
     = Some 3
  /\ Py.int (Py.VStr "1__0") = None
  /\ Py.int (Py.VStr "+ 3") = None
  /\ Py.int (Py.VStr "3.0") = None
  /\ Py.int (Py.VStr "") = None.
Proof. vm_compute. repeat split. Qed.

Section WithFloat.
Context `{FloatOps}.

(** C10.  A limit that [int] rejects is treated as no limit at all, and
    nothing fails: with such a [maxConsecutiveGridPositions] the exit
    evaluator never gives the reason of the limit, and with such a
    [maxMarketPositionReopens] reopening is allowed.  (The text
    ["unlimited"], in any letter case, is one of the values [int]
    rejects.  [int] is Python's: it accepts the decimal digits and skips
    the white space of every script, see [Py.int_of_string].) *)
Theorem unparsable_limit_is_absent (v : Py.Value) :
  Py.int v = None ->
  (forall cfg grid price counter entry,
     maxConsecutiveGridPositions cfg = Some v ->
     RiskManager.check_exit_conditions cfg grid price counter entry
       <> Some RiskManager.max_consecutive_reason)
  /\ (forall cfg st,
        maxMarketPositionReopens cfg = Some v ->
        MarketPositionManager._can_reopen_market_position cfg st = true).
Proof.
  intros Hint. split.
  - intros cfg grid price counter entry Hcfg Hreason.
    apply RiskProps.max_consecutive_only_if in Hreason.
    unfold RiskManager._check_max_consecutive_positions in Hreason.
    rewrite Hcfg in Hreason. simpl in Hreason. rewrite Hint in Hreason.
    destruct (Py.is_unlimited v); discriminate.
  - intros cfg st Hcfg.
    unfold MarketPositionManager._can_reopen_market_position.
    rewrite Hcfg. simpl. rewrite Hint.
    destruct (Py.is_unlimited v); reflexivity.
Qed.

End WithFloat.

Lemma unparsable_limit_is_absent_witness :
  RiskManager.check_exit_conditions Examples.unparsable_limits Examples.grid1000
    (Examples.tenths 10000) 7 None
    <> Some RiskManager.max_consecutive_reason
  /\ MarketPositionManager._can_reopen_market_position Examples.unparsable_limits
       (Examples.long_after Examples.unparsable_limits 7) = true.
Proof.
  destruct (unparsable_limit_is_absent (H := DecimalFloat.ops) (Py.VStr "abc")
              eq_refl) as [A B].
  split; [apply A | apply B]; reflexivity.
Defined.

End LimitProps.

(* ================================================================== *)
(** * Properties of the orchestrator *)

Module BotProps.
Import Bot.

Section WithFloat.
Context `{FloatOps}.

(** C8.  A tick that gets no market price from the gateway ends there:
    the bot after the tick is the bot before it, except that the gateway
    has one more call on record, the price query.  Grid, grid-active
    flag, position counter, position targets, last-seen position amount,
    entry price and side, open positions, reopen queue, the manager of
    the market position and the analyzer are what they were. *)
Theorem run_skips_tick_without_price (fuel : nat) (b : Bot) (now : Z) :
  fst (Exchange.get_market_price (exchange b) (symbol (config b))) = None ->
  exists b',
    run fuel b false now = Returns (Next b')
    /\ config b' = config b
    /\ grid b' = grid b
    /\ is_grid_active b' = is_grid_active b
    /\ position_counter b' = position_counter b
    /\ position_targets b' = position_targets b
    /\ _last_position_amt b' = _last_position_amt b
    /\ _last_entry_price b' = _last_entry_price b
    /\ _last_position_side b' = _last_position_side b
    /\ open_positions b' = open_positions b
    /\ position_reopen_manager b' = position_reopen_manager b
    /\ market_position_manager b' = market_position_manager b
    /\ analyzer b' = analyzer b
    /\ Exchange.script (exchange b') = Exchange.script (exchange b)
    /\ Exchange.calls (exchange b')
       = Exchange.calls (exchange b)
         ++ [Exchange.GetMarketPrice (symbol (config b))].
Proof.
  intros Hprice. unfold run.
  destruct (Exchange.get_market_price (exchange b) (symbol (config b)))
    as [price_str ex1] eqn:Hcall.
  simpl in Hprice. subst price_str.
  exists (set_exchange b ex1). split; [reflexivity|].
  unfold Exchange.get_market_price, Exchange.call in Hcall.
  injection Hcall as _ <-. simpl. split_all; reflexivity.
Qed.

End WithFloat.

(** The bot a tick leaves, when the tick returns. *)
Definition next_bot {F : FloatOps} (o : Outcome Tick) : option Bot :=
  match o with
  | Returns (Next b) => Some b
  | _ => None
  end.

Lemma run_skips_tick_without_price_witness :
  exists b',
    run 10 (Examples.running_bot (Examples.gateway [Examples.failure])) false 600
      = Returns (Next b')
    /\ config b' = Examples.two_reopens
    /\ grid b' = Examples.grid1000
    /\ is_grid_active b' = true
    /\ position_counter b' = 1
    /\ position_targets b' = None
    /\ _last_position_amt b' = Dec.of_Z 0
    /\ _last_entry_price b' = None
    /\ _last_position_side b' = None
    /\ open_positions b' = []
    /\ position_reopen_manager b' = [Examples.short_entry]
    /\ market_position_manager b' = Examples.long_after Examples.two_reopens 1
    /\ analyzer b'
       = MarketPositionManager.mkAnalyzer (fun _ => None) 0
    /\ Exchange.script (exchange b')
       = Exchange.script (Examples.gateway [Examples.failure])
    /\ Exchange.calls (exchange b') = [Exchange.GetMarketPrice "BTCUSDT"].
Proof.
  exact (run_skips_tick_without_price (H := DecimalFloat.ops) 10
           (Examples.running_bot (Examples.gateway [Examples.failure])) 600
           eq_refl).
Defined.

(** A tick that does get a price, 1000, with no grid yet: the bot (long
    mode, one-way, 10 USDT a level) generates the grid of the scenario,
    places a buy order at each of the two levels below the price, marks
    the grid active, and the analyzer fails three times. *)
Example tick_activates_grid :
  let b := Bot.mkBot (H := DecimalFloat.ops) Examples.base
             (Examples.gateway
                [Examples.quote (Examples.tenths 10000); Examples.success;
                 Examples.success])
             (Grid.init Examples.base) MarketPositionManager.init
             (MarketPositionManager.mkAnalyzer (fun _ => None) 0)
             [] false [] 0 None (Dec.of_Z 0) None None in
  let after := next_bot (run 10 b false 600) in
  option_map is_grid_active after = Some true
  /\ option_map (fun b' => Grid.grid_levels (grid b')) after
     = Some (Grid.grid_levels Examples.grid1000)
  /\ option_map (fun b' => map MarketProps.is_create_order
                             (Exchange.calls (exchange b'))) after
     = Some [false; true; true]
  /\ option_map (fun b' => MarketPositionManager.run_count (analyzer b')) after
     = Some 3%nat.
Proof. vm_compute. split_all; reflexivity. Qed.

End BotProps.

(* ================================================================== *)
(** * The decimal context: what rounding gives *)

Module DecFacts.
Import Dec DecProps.

Lemma fix_zero (e : Z) : fix_ (mkDec 0 e) = mkDec 0 e.
Proof. reflexivity. Qed.

Lemma short_coefficient (c : Z) : ndigits (Z.abs c) <= prec -> Z.abs c < 10 ^ prec.
Proof.
  intros Hn. destruct (Z.eq_dec (Z.abs c) 0) as [E | E].
  - rewrite E. reflexivity.
  - destruct (ndigits_spec (Z.abs c)) as [_ [_ Hhi]]; [lia|].
    apply Z.lt_le_trans with (10 ^ ndigits (Z.abs c)); [exact Hhi|].
    apply Z.pow_le_mono_r; lia.
Qed.

Lemma abs_sgn_mul (c x : Z) : 0 <= x -> Z.abs (Z.sgn c * x) <= x.
Proof. intros Hx. destruct c; simpl Z.sgn; lia. Qed.

(** Whatever it is given, [_fix] returns a coefficient of at most
    [prec] digits. *)
Lemma fix_representable (d : Decimal) : representable (dval (fix_ d)).
Proof.
  unfold fix_.
  set (a := Z.abs (coef d)). set (n := ndigits a).
  destruct (Z.leb_spec n prec) as [Hn | Hn].
  - exists (coef d), (expo d). split; [apply short_coefficient; exact Hn|].
    rewrite dval_pow10. reflexivity.
  - assert (Ha : 0 < a).
    { destruct (Z.eq_dec a 0) as [E | E]; [|unfold a in *; lia].
      exfalso. unfold n in Hn. rewrite E in Hn. vm_compute in Hn. discriminate Hn. }
    destruct (ndigits_spec a Ha) as [_ [_ Hhi]]. fold n in Hhi.
    set (k := n - prec).
    assert (Hk : 0 < 10 ^ k) by (apply Zpow10_pos; unfold k; lia).
    assert (Hq : a / 10 ^ k < 10 ^ prec).
    { apply Z.div_lt_upper_bound; [exact Hk|].
      rewrite <- Z.pow_add_r by (unfold k; unfold prec in *; lia).
      replace (k + prec) with n by (unfold k; lia). exact Hhi. }
    assert (Hq0 : 0 <= a / 10 ^ k) by (apply Z.div_pos; lia).
    set (q' := if (10 ^ k <? 2 * (a mod 10 ^ k))
                  || ((2 * (a mod 10 ^ k) =? 10 ^ k) && Z.odd (a / 10 ^ k))
               then a / 10 ^ k + 1 else a / 10 ^ k).
    assert (Hq' : 0 <= q' <= 10 ^ prec) by (unfold q'; destruct (_ || _); lia).
    destruct (Z.leb_spec (10 ^ prec) q') as [Hcarry | Hcarry].
    + exists (Z.sgn (coef d) * (q' / 10)), (expo d + k + 1). split.
      * apply Z.le_lt_trans with (q' / 10); [apply abs_sgn_mul, Z.div_pos; lia|].
        apply Z.div_lt_upper_bound; [lia|]. unfold prec in *. lia.
      * rewrite dval_pow10. reflexivity.
    + exists (Z.sgn (coef d) * q'), (expo d + k). split.
      * apply Z.le_lt_trans with q'; [apply abs_sgn_mul; lia | exact Hcarry].
      * rewrite dval_pow10. reflexivity.
Qed.

Lemma add_representable (x y : Decimal) : representable (dval (add x y)).
Proof. unfold add. apply fix_representable. Qed.

Lemma sub_representable (x y : Decimal) : representable (dval (sub x y)).
Proof. unfold sub. apply add_representable. Qed.

Lemma zero_value (d : Decimal) : coef d = 0 -> (dval d == 0)%Q.
Proof. intros E. rewrite dval_pow10, E. apply Qmult_0_l. Qed.

Lemma scale_neg (e : Z) (d : Decimal) : scale e (neg d) = - scale e d.
Proof. unfold scale, neg. cbn [coef expo]. lia. Qed.

(** Two decimals of the same value have the difference zero, at the
    smaller of the two exponents. *)
Lemma sub_same_value (x y : Decimal) :
  (dval x == dval y)%Q -> sub x y = mkDec 0 (Z.min (expo x) (expo y)).
Proof.
  intros E. unfold sub, add. cbn [expo neg].
  set (e := Z.min (expo x) (expo y)).
  rewrite scale_neg.
  assert (Hs : scale e x = scale e y).
  { pose proof (scale_value e x ltac:(unfold e; lia)) as Hx.
    pose proof (scale_value e y ltac:(unfold e; lia)) as Hy.
    assert (H1 : (inject_Z (scale e x) * pow10 e <= inject_Z (scale e y) * pow10 e)%Q)
      by (rewrite Hx, Hy, E; apply Qle_refl).
    assert (H2 : (inject_Z (scale e y) * pow10 e <= inject_Z (scale e x) * pow10 e)%Q)
      by (rewrite Hx, Hy, E; apply Qle_refl).
    apply value_le_same in H1, H2. lia. }
  rewrite Hs. replace (scale e y + - scale e y) with 0 by lia.
  apply fix_zero.
Qed.

End DecFacts.

(* ================================================================== *)
(** * [Grid.generate]: zero divisions, zero width, reversed range *)

Module GridFacts.
Import Dec DecProps DecFacts Grid.

(** X1.  [generate] raises exactly when [gridSize] is zero (the
    division of the width by the number of divisions), whatever the
    range and the center. *)
Theorem generate_raises_iff_no_divisions (fuel : nat) (g : Grid) (center : Decimal) :
  generate fuel g center = Raises <-> coef (gridSize (config g)) = 0.
Proof.
  unfold generate, div.
  destruct (Z.eqb_spec (coef (gridSize (config g))) 0) as [E | E].
  - split; [intros _; exact E | reflexivity].
  - destruct (generate_loop _ _ _ _ _); split;
      solve [discriminate | intros E'; contradiction].
Qed.

(** With an interval of zero the loop never leaves a price that is
    within the upper boundary. *)
Lemma generate_loop_stuck (interval new_end : Decimal) :
  coef interval = 0 ->
  forall fuel cur acc,
    representable (dval cur) ->
    (dval cur <= dval new_end)%Q ->
    generate_loop fuel interval new_end cur acc = None.
Proof.
  intros Hi. induction fuel as [|fuel IH]; intros cur acc Hr Hle; [reflexivity|].
  cbn [generate_loop].
  rewrite (proj2 (leb_spec cur new_end) Hle).
  assert (E : (dval (add cur interval) == dval cur)%Q).
  { rewrite add_exact; rewrite (zero_value interval Hi), Qplus_0_r;
      [reflexivity | exact Hr]. }
  apply IH.
  - rewrite E. exact Hr.
  - rewrite E. exact Hle.
Qed.

(** X2.  When [startPrice] and [endPrice] denote the same number (and
    [gridSize] is not zero) the interval is zero and the loop of
    [generate] never ends: no amount of fuel lets it return. *)
Theorem generate_diverges_on_zero_width (g : Grid) (center : Decimal) :
  (dval (endPrice (config g)) == dval (startPrice (config g)))%Q ->
  coef (gridSize (config g)) <> 0 ->
  forall fuel, generate fuel g center = Diverges.
Proof.
  intros Hw Hd fuel. unfold generate.
  rewrite (sub_same_value _ _ Hw). unfold div.
  destruct (Z.eqb_spec (coef (gridSize (config g))) 0) as [E | _]; [contradiction|].
  rewrite generate_loop_stuck; [reflexivity | reflexivity | |].
  - apply sub_representable.
  - apply Qle_refl.
Qed.

Lemma generate_diverges_on_zero_width_witness :
  generate 1000
    (Grid.init (Examples.with_range Examples.base (Examples.tenths 10000)
                  (Examples.tenths 10000) (Examples.tenths 40)))
    (Examples.tenths 10000) = Diverges.
Proof.
  apply (generate_diverges_on_zero_width
           (Grid.init (Examples.with_range Examples.base (Examples.tenths 10000)
                         (Examples.tenths 10000) (Examples.tenths 40)))
           (Examples.tenths 10000)).
  - reflexivity.
  - discriminate.
Defined.

(** What the loop returns, read without any assumption on rounding. *)
Lemma generate_loop_bounds (interval new_end : Decimal) :
  forall fuel cur lv,
    generate_loop fuel interval new_end cur [] = Some lv ->
    Forall (fun l => (dval l <= dval new_end)%Q) lv
    /\ (lv = [] <-> (dval new_end < dval cur)%Q)
    /\ ((dval cur <= dval new_end)%Q -> hd_error lv = Some cur)
    /\ (List.length lv < fuel)%nat.
Proof.
  induction fuel as [|fuel IH]; intros cur lv Hloop; [discriminate Hloop|].
  cbn [generate_loop] in Hloop.
  destruct (leb cur new_end) eqn:Hle.
  - rewrite GridProps.generate_loop_app in Hloop. cbn [app] in Hloop.
    destruct (generate_loop fuel interval new_end (add cur interval) [])
      as [rest|] eqn:Hrest; [|discriminate Hloop].
    cbn [option_map] in Hloop. injection Hloop as <-.
    apply leb_spec in Hle.
    destruct (IH _ _ Hrest) as [HF [_ [_ Hlen]]].
    split_all.
    + constructor; [exact Hle | exact HF].
    + split; [discriminate | intros Hlt; exfalso; lra].
    + intros _. reflexivity.
    + cbn [List.length]. lia.
  - injection Hloop as <-. apply leb_false in Hle.
    split_all.
    + constructor.
    + split; [intros _; exact Hle | reflexivity].
    + intros Hc. exfalso. lra.
    + cbn [List.length]. lia.
Qed.

(** X3.  Whatever the context rounds: when [generate] returns, the grid
    keeps the configuration, holds the width [end - start] and the
    center as computed, every level is at most the upper boundary
    [center + width/2] as computed, the first level is the lower
    boundary [center - width/2] as computed, and the grid is empty
    exactly when the lower boundary is above the upper one. *)
Theorem generate_levels_within_boundaries (fuel : nat) (g g' : Grid)
    (center : Decimal) :
  generate fuel g center = Returns g' ->
  let width := sub (endPrice (config g)) (startPrice (config g)) in
  let lower := sub center (div_nz width two) in
  let upper := add center (div_nz width two) in
  config g' = config g
  /\ grid_width g' = width
  /\ grid_center_price g' = center
  /\ Forall (fun l => (dval l <= dval upper)%Q) (grid_levels g')
  /\ (grid_levels g' = [] <-> (dval upper < dval lower)%Q)
  /\ ((dval lower <= dval upper)%Q -> hd_error (grid_levels g') = Some lower)
  /\ (List.length (grid_levels g') < fuel)%nat.
Proof.
  unfold generate. intros Hgen.
  destruct (div _ _) as [interval|]; [|discriminate Hgen].
  destruct (generate_loop _ _ _ _ _) as [lv|] eqn:Hloop; [|discriminate Hgen].
  injection Hgen as <-. cbn [config grid_levels grid_width grid_center_price].
  destruct (generate_loop_bounds _ _ _ _ _ Hloop) as [H1 [H2 [H3 H4]]].
  split_all; try reflexivity; assumption.
Qed.

Lemma generate_levels_within_boundaries_witness :
  let g' := Examples.grid1000 in
  let width := sub (Examples.tenths 11000) (Examples.tenths 9000) in
  let lower := sub (Examples.tenths 10000) (div_nz width two) in
  let upper := add (Examples.tenths 10000) (div_nz width two) in
  config g' = Examples.base
  /\ grid_width g' = width
  /\ grid_center_price g' = Examples.tenths 10000
  /\ Forall (fun l => (dval l <= dval upper)%Q) (grid_levels g')
  /\ (grid_levels g' = [] <-> (dval upper < dval lower)%Q)
  /\ ((dval lower <= dval upper)%Q -> hd_error (grid_levels g') = Some lower)
  /\ (List.length (grid_levels g') < 6)%nat.
Proof.
  exact (generate_levels_within_boundaries 6 (Grid.init Examples.base)
           Examples.grid1000 (Examples.tenths 10000) eq_refl).
Defined.

(** With [endPrice] below [startPrice] the lower boundary is above the
    upper one and the loop is not entered. *)
Lemma generate_reversed (fuel : nat) (g : Grid) (center : Decimal) :
  let cfg := config g in
  let C := dval center in
  let W := (dval (endPrice cfg) - dval (startPrice cfg))%Q in
  (W < 0)%Q ->
  coef (gridSize cfg) <> 0 ->
  representable W ->
  representable (W / 2) ->
  representable (C - W / 2) ->
  representable (C + W / 2) ->
  generate (S fuel) g center
  = Returns (mkGrid cfg [] (sub (endPrice cfg) (startPrice cfg)) center).
Proof.
  intros cfg C W HW HD RW Rhalf Rlo Rhi.
  assert (Ewidth : (dval (sub (endPrice cfg) (startPrice cfg)) == W)%Q)
    by (apply sub_exact; exact RW).
  assert (Ehalf : (dval (div_nz (sub (endPrice cfg) (startPrice cfg)) two)
                   == W / 2)%Q).
  { rewrite (div_literal_exact _ 2).
    - rewrite Ewidth. reflexivity.
    - discriminate.
    - rewrite Ewidth. exact Rhalf. }
  assert (Elo : (dval (sub center (div_nz (sub (endPrice cfg) (startPrice cfg)) two))
                 == C - W / 2)%Q).
  { rewrite sub_exact; rewrite Ehalf; [reflexivity | exact Rlo]. }
  assert (Ehi : (dval (add center (div_nz (sub (endPrice cfg) (startPrice cfg)) two))
                 == C + W / 2)%Q).
  { rewrite add_exact; rewrite Ehalf; [reflexivity | exact Rhi]. }
  unfold generate. fold cfg. unfold div.
  destruct (Z.eqb_spec (coef (gridSize cfg)) 0) as [E | _]; [contradiction|].
  cbn [generate_loop].
  assert (Hlt : leb (sub center (div_nz (sub (endPrice cfg) (startPrice cfg)) two))
                    (add center (div_nz (sub (endPrice cfg) (startPrice cfg)) two))
                = false).
  { apply leb_false. rewrite Elo, Ehi.
    assert (Hhalf : (W / 2 + W / 2 == W)%Q) by field.
    set (h := (W / 2)%Q) in *. clearbody h. lra. }
  rewrite Hlt. reflexivity.
Qed.

End GridFacts.

(* ================================================================== *)
(** * The risk manager: the range exit, the take profit, and when the
      percentage exits cannot fire *)

Module RiskFacts.
Import RiskManager.

(** X4.  The range-exit rule, where the context rounds nothing: with
    [W] the width and [C] the center the grid holds and [t] the
    threshold as a fraction, the rule trips exactly for the prices at
    or above [C + W/2 + W*t] and at or below [C - W/2 - W*t]. *)
Theorem range_exit_trips_outside_expanded_range (cfg : Config) (grid : Grid.Grid)
    (price : Dec.Decimal) :
  let C := Dec.dval (Grid.grid_center_price grid) in
  let W := Dec.dval (Grid.grid_width grid) in
  let t := (Dec.dval (rangeExitThresholdPercent cfg) / 100)%Q in
  DecProps.representable (W / 2) ->
  DecProps.representable (C - W / 2) ->
  DecProps.representable (C + W / 2) ->
  DecProps.representable t ->
  DecProps.representable (W * t) ->
  DecProps.representable (C + W / 2 + W * t) ->
  DecProps.representable (C - W / 2 - W * t) ->
  _check_range_exit_rule cfg grid price = true
  <-> (C + W / 2 + W * t <= Dec.dval price)%Q
      \/ (Dec.dval price <= C - W / 2 - W * t)%Q.
Proof.
  intros C W t Rhalf Rlo Rhi Rt Ramt Rup Rdown.
  assert (Ehalf : (Dec.dval (Dec.div_nz (Grid.grid_width grid) Dec.two) == W / 2)%Q).
  { apply (DecProps.div_literal_exact _ 2); [discriminate | exact Rhalf]. }
  assert (Elo : (Dec.dval (Dec.sub (Grid.grid_center_price grid)
                             (Dec.div_nz (Grid.grid_width grid) Dec.two))
                 == C - W / 2)%Q).
  { rewrite DecProps.sub_exact; rewrite Ehalf; [reflexivity | exact Rlo]. }
  assert (Ehi : (Dec.dval (Dec.add (Grid.grid_center_price grid)
                             (Dec.div_nz (Grid.grid_width grid) Dec.two))
                 == C + W / 2)%Q).
  { rewrite DecProps.add_exact; rewrite Ehalf; [reflexivity | exact Rhi]. }
  assert (Et : (Dec.dval (Dec.div_nz (rangeExitThresholdPercent cfg) Dec.hundred)
                == t)%Q).
  { apply (DecProps.div_literal_exact _ 100); [discriminate | exact Rt]. }
  assert (Eamt : (Dec.dval (Dec.mul (Grid.grid_width grid)
                              (Dec.div_nz (rangeExitThresholdPercent cfg) Dec.hundred))
                  == W * t)%Q).
  { rewrite DecProps.mul_exact; rewrite Et; [reflexivity | exact Ramt]. }
  unfold _check_range_exit_rule.
  rewrite orb_true_iff, !DecProps.leb_spec.
  rewrite DecProps.add_exact by (rewrite Ehi, Eamt; exact Rup).
  rewrite DecProps.sub_exact by (rewrite Elo, Eamt; exact Rdown).
  rewrite Ehi, Elo, Eamt. reflexivity.
Qed.

(** The grid of the scenario with the threshold 100 %: the rule trips
    at 1300 and above, and at 700 and below. *)
Lemma range_exit_trips_outside_expanded_range_witness :
  let C := Dec.dval (Grid.grid_center_price Examples.grid1000) in
  let W := Dec.dval (Grid.grid_width Examples.grid1000) in
  let t := (Dec.dval (rangeExitThresholdPercent Examples.base) / 100)%Q in
  _check_range_exit_rule Examples.base Examples.grid1000 (Examples.tenths 13000) = true
  <-> (C + W / 2 + W * t <= Dec.dval (Examples.tenths 13000))%Q
      \/ (Dec.dval (Examples.tenths 13000) <= C - W / 2 - W * t)%Q.
Proof.
  apply (range_exit_trips_outside_expanded_range Examples.base Examples.grid1000
           (Examples.tenths 13000)).
  - exists 100, 0. split; reflexivity.
  - exists 900, 0. split; reflexivity.
  - exists 1100, 0. split; reflexivity.
  - exists 1, 0. split; reflexivity.
  - exists 200, 0. split; reflexivity.
  - exists 1300, 0. split; reflexivity.
  - exists 700, 0. split; reflexivity.
Defined.

(** X5.  The take-profit check of the risk manager, where the context
    rounds nothing: in long mode it trips exactly for the prices at or
    above [entry * (1 + tp%)], in short mode exactly for the prices at
    or below [entry * (1 - tp%)], and never in neutral mode. *)
Theorem take_profit_trips_at_threshold (cfg : Config)
    (tp price entry : Dec.Decimal) :
  let f := (Dec.dval tp / 100)%Q in
  DecProps.representable f ->
  (mode cfg = Long ->
   DecProps.representable (1 + f) ->
   DecProps.representable (Dec.dval entry * (1 + f)) ->
   (_check_take_profit cfg tp price entry = true
    <-> (Dec.dval entry * (1 + f) <= Dec.dval price)%Q))
  /\ (mode cfg = Short ->
      DecProps.representable (1 - f) ->
      DecProps.representable (Dec.dval entry * (1 - f)) ->
      (_check_take_profit cfg tp price entry = true
       <-> (Dec.dval price <= Dec.dval entry * (1 - f))%Q))
  /\ (mode cfg = Neutral -> _check_take_profit cfg tp price entry = false).
Proof.
  intros f Hf. split_all.
  - intros Hmode H1 H2. unfold _check_take_profit. rewrite Hmode.
    rewrite DecProps.leb_spec.
    rewrite (RiskProps.threshold_exact true tp entry Hf H1 H2). reflexivity.
  - intros Hmode H1 H2. unfold _check_take_profit. rewrite Hmode.
    rewrite DecProps.leb_spec.
    rewrite (RiskProps.threshold_exact false tp entry Hf H1 H2). reflexivity.
  - intros Hmode. unfold _check_take_profit. rewrite Hmode. reflexivity.
Qed.

(** Short mode, take profit 10 %, entry 1000 and the price 900. *)
Lemma take_profit_trips_at_threshold_witness :
  let cfg := Examples.with_risk Examples.base Short PERCENTAGE
               (Some (Examples.tenths 100)) None true in
  _check_take_profit cfg (Examples.tenths 100) (Examples.tenths 9000)
    (Examples.tenths 10000) = true
  <-> (Dec.dval (Examples.tenths 9000)
       <= Dec.dval (Examples.tenths 10000)
          * (1 - Dec.dval (Examples.tenths 100) / 100))%Q.
Proof.
  apply (take_profit_trips_at_threshold
           (Examples.with_risk Examples.base Short PERCENTAGE
              (Some (Examples.tenths 100)) None true)
           (Examples.tenths 100) (Examples.tenths 9000) (Examples.tenths 10000)).
  - exists 1, (-1). split; reflexivity.
  - reflexivity.
  - exists 9, (-1). split; reflexivity.
  - exists 900, 0. split; reflexivity.
Defined.

Lemma guarded_without_entry (pct entry : option Dec.Decimal)
    (check : Dec.Decimal -> Dec.Decimal -> bool) :
  truthy entry = false -> guarded pct entry check = false.
Proof.
  intros He. unfold guarded. destruct pct, entry; try reflexivity.
  rewrite He, andb_false_r. reflexivity.
Qed.

(** X6.  In neutral mode, and whenever no entry price is known ([None],
    or zero), [check_exit_conditions] answers neither the stop loss nor
    the take profit, whatever the percentages and the price. *)
Theorem percentage_exits_need_side_and_entry (cfg : Config) (grid : Grid.Grid)
    (price : Dec.Decimal) (counter : Z) (entry : option Dec.Decimal) :
  mode cfg = Neutral \/ truthy entry = false ->
  check_exit_conditions cfg grid price counter entry <> Some stop_loss_reason
  /\ check_exit_conditions cfg grid price counter entry <> Some take_profit_reason.
Proof.
  intros Hcase.
  assert (Hsl : guarded (stopLossPercent cfg) entry
                  (fun sl e => _check_stop_loss cfg sl price e) = false).
  { destruct Hcase as [Hm | He]; [|apply guarded_without_entry; exact He].
    unfold guarded, _check_stop_loss. rewrite Hm.
    destruct (stopLossPercent cfg), entry; try reflexivity. apply andb_false_r. }
  assert (Htp : guarded (takeProfitPercent cfg) entry
                  (fun tp e => _check_take_profit cfg tp price e) = false).
  { destruct Hcase as [Hm | He]; [|apply guarded_without_entry; exact He].
    unfold guarded, _check_take_profit. rewrite Hm.
    destruct (takeProfitPercent cfg), entry; try reflexivity. apply andb_false_r. }
  unfold check_exit_conditions. rewrite Hsl, Htp.
  destruct (_check_max_consecutive_positions cfg counter);
    [split; discriminate|].
  destruct (enableRangeExitRule cfg && _check_range_exit_rule cfg grid price);
    split; discriminate.
Qed.

(** Neutral mode with both percentages set, the price far below the
    entry: the answer is the range exit. *)
Lemma percentage_exits_need_side_and_entry_witness :
  let cfg := Examples.with_risk Examples.base Neutral PERCENTAGE
               (Some (Examples.tenths 100)) (Some (Examples.tenths 50)) true in
  check_exit_conditions cfg Examples.grid1000 (Examples.tenths 5000) 0
    (Some (Examples.tenths 10000)) <> Some stop_loss_reason
  /\ check_exit_conditions cfg Examples.grid1000 (Examples.tenths 5000) 0
       (Some (Examples.tenths 10000)) <> Some take_profit_reason.
Proof.
  apply (percentage_exits_need_side_and_entry
           (Examples.with_risk Examples.base Neutral PERCENTAGE
              (Some (Examples.tenths 100)) (Some (Examples.tenths 50)) true)
           Examples.grid1000 (Examples.tenths 5000) 0 (Some (Examples.tenths 10000))).
  left. reflexivity.
Defined.

End RiskFacts.

(* ================================================================== *)
(** * The reopen queue: what a drain can and cannot do to it *)

Module ReopenFacts.
Import PositionReopenManager ReopenProps.

Section WithFloat.
Context `{FloatOps}.

Lemma failed_entries_none (script : nat -> Exchange.Reply) (l : list Entry) :
  forall k,
    (forall i, (i < List.length l)%nat -> Exchange.ok (script (k + i)%nat) = true) ->
    failed_entries script k l = [].
Proof.
  induction l as [|e l IH]; intros k Hok; [reflexivity|].
  cbn [failed_entries].
  pose proof (Hok 0%nat ltac:(cbn; lia)) as H0. rewrite Nat.add_0_r in H0.
  rewrite H0. apply IH. intros i Hi.
  replace (S k + i)%nat with (k + S i)%nat by lia. apply Hok. cbn. lia.
Qed.

Lemma failed_entries_incl (script : nat -> Exchange.Reply) (l : list Entry) :
  forall k, incl (failed_entries script k l) l.
Proof.
  induction l as [|e l IH]; intros k x Hx; [exact Hx|].
  cbn [failed_entries] in Hx. destruct (Exchange.ok (script k)).
  - right. exact (IH _ _ Hx).
  - destruct Hx as [-> | Hx]; [left; reflexivity | right; exact (IH _ _ Hx)].
Qed.

(** The loop only removes from the live queue when it counts a
    placement. *)
Lemma reopen_loop_untouched (cfg : Config) (pending : list Entry) :
  forall queue ex count,
    let '(queue', _, count') := reopen_loop cfg pending queue ex count in
    count <= count' /\ (count' = count -> queue' = queue).
Proof.
  induction pending as [|x pending IH]; intros queue ex count; cbn [reopen_loop].
  - split; [lia | reflexivity].
  - unfold Exchange.create_order, Exchange.call.
    destruct (Exchange.ok _).
    + match goal with
      | |- context [reopen_loop cfg pending ?q ?e ?c] =>
          specialize (IH q e c); destruct (reopen_loop cfg pending q e c) as [[q' e'] c']
      end.
      split; [lia|]. intros E. exfalso. lia.
    + match goal with
      | |- context [reopen_loop cfg pending ?q ?e ?c] =>
          specialize (IH q e c); destruct (reopen_loop cfg pending q e c) as [[q' e'] c']
      end.
      exact IH.
Qed.

(** X7.  With reopening enabled and every placement accepted, one drain
    empties the queue, whatever it holds (equal entries included); it
    returns [True] exactly when there was something to place, and the
    drain that follows makes no gateway call. *)
Theorem drain_all_placed_empties_queue (cfg : Config) (queue : list Entry)
    (ex : Exchange.Exchange) :
  enablePositionReopen cfg = true ->
  (forall i, (i < List.length queue)%nat ->
     Exchange.ok (Exchange.script ex (List.length (Exchange.calls ex) + i)%nat) = true) ->
  let '(queue', ex', reopened) := process_reopen_queue cfg queue ex in
  queue' = []
  /\ (reopened = true <-> queue <> [])
  /\ Exchange.calls ex' = Exchange.calls ex ++ map (order_of cfg) queue
  /\ process_reopen_queue cfg queue' ex' = ([], ex', false).
Proof.
  intros Hen Hok.
  pose proof (drain_spec cfg queue ex Hen) as D.
  destruct (process_reopen_queue cfg queue ex) as [[queue' ex'] reopened].
  cbv zeta in D. rewrite (failed_entries_none _ _ _ Hok) in D.
  destruct D as [_ [Hc [Hp [_ Hr]]]].
  apply Permutation_sym, Permutation_nil in Hp. subst queue'.
  split_all.
  - reflexivity.
  - rewrite Hr. destruct queue; cbn [List.length]; split; intros Hq;
      solve [lia | discriminate | contradiction].
  - exact Hc.
  - unfold process_reopen_queue. rewrite Hen. reflexivity.
Qed.

(** X8.  Whatever the configuration and the gateway answer, a drain
    never adds to the queue: what remains are entries it held, it is
    shorter whenever the drain returns [True], and it is the very same
    queue whenever the drain returns [False].  The gateway only receives
    the limit orders of the queue, all of them or (reopening disabled)
    none. *)
Theorem drain_only_removes (cfg : Config) (queue : list Entry)
    (ex : Exchange.Exchange) :
  let '(queue', ex', reopened) := process_reopen_queue cfg queue ex in
  incl queue' queue
  /\ (List.length queue' <= List.length queue)%nat
  /\ (reopened = true -> (List.length queue' < List.length queue)%nat)
  /\ (reopened = false -> queue' = queue)
  /\ Exchange.script ex' = Exchange.script ex
  /\ Exchange.calls ex'
     = Exchange.calls ex
       ++ (if enablePositionReopen cfg then map (order_of cfg) queue else []).
Proof.
  destruct (enablePositionReopen cfg) eqn:Hen.
  - pose proof (drain_spec cfg queue ex Hen) as D.
    pose proof (failed_entries_incl (Exchange.script ex) queue
                  (List.length (Exchange.calls ex))) as Hincl.
    pose proof (failed_entries_length (Exchange.script ex) queue
                  (List.length (Exchange.calls ex))) as Hlen.
    assert (Hsame : snd (process_reopen_queue cfg queue ex) = false ->
                    fst (fst (process_reopen_queue cfg queue ex)) = queue).
    { unfold process_reopen_queue. rewrite Hen. cbn [negb].
      destruct queue as [|e queue]; [reflexivity|].
      pose proof (reopen_loop_untouched cfg (e :: queue) (e :: queue) ex 0) as U.
      destruct (reopen_loop cfg (e :: queue) (e :: queue) ex 0) as [[q' e'] c'].
      cbn [fst snd]. intros Hr. apply Z.ltb_ge in Hr. apply U. lia. }
    destruct (process_reopen_queue cfg queue ex) as [[queue' ex'] reopened].
    cbv zeta in D. destruct D as [Hs [Hc [Hp [_ Hr]]]]. cbn [fst snd] in Hsame.
    split_all.
    + intros x Hx. apply Hincl. exact (Permutation_in _ Hp Hx).
    + rewrite (Permutation_length Hp). exact Hlen.
    + intros E. rewrite (Permutation_length Hp). apply Hr. exact E.
    + exact Hsame.
    + exact Hs.
    + exact Hc.
  - unfold process_reopen_queue. rewrite Hen. cbn [negb].
    split_all; try reflexivity.
    + apply incl_refl.
    + discriminate.
    + rewrite app_nil_r. reflexivity.
Qed.

End WithFloat.

(** Two equal entries and a gateway that accepts both orders. *)
Lemma drain_all_placed_empties_queue_witness :
  let ex := Examples.gateway [Examples.success; Examples.success] in
  let queue := [Examples.short_entry; Examples.short_entry] in
  let '(queue', ex', reopened) := process_reopen_queue Examples.base queue ex in
  queue' = []
  /\ (reopened = true <-> queue <> [])
  /\ Exchange.calls ex' = Exchange.calls ex ++ map (order_of Examples.base) queue
  /\ process_reopen_queue Examples.base queue' ex' = ([], ex', false).
Proof.
  apply (drain_all_placed_empties_queue Examples.base
           [Examples.short_entry; Examples.short_entry]
           (Examples.gateway [Examples.success; Examples.success])).
  - reflexivity.
  - intros i Hi. cbn [List.length] in Hi.
    destruct i as [|[|i]]; [reflexivity | reflexivity | exfalso; lia].
Defined.

End ReopenFacts.

(* ================================================================== *)
(** * The market-position manager: retries, rate limit, bookkeeping *)

Module MarketFacts.
Import MarketPositionManager MarketProps.

Section WithFloat.
Context `{FloatOps}.

(** The three states [close_market_position] and [open_market_position]
    can move a manager to. *)
Definition gone (st : State) : State :=
  mkState (last_analysis_time st) (last_analysis_result st) None
    (market_position_entry_price st) None
    (market_position_reopens st) (last_signal st).

Definition cleared (st : State) : State :=
  mkState (last_analysis_time st) (last_analysis_result st) None
    None None (market_position_reopens st) (last_signal st).

Definition opened (cfg : Config) (st : State) (side : Side)
    (current_price : Dec.Decimal) : State :=
  mkState (last_analysis_time st) (last_analysis_result st) (Some side)
    (Some (of_decimal current_price))
    (Some (_calculate_market_position_targets cfg (of_decimal current_price) side))
    (market_position_reopens st) (last_signal st).

(** What [process_analysis] does with a successful analysis. *)
Definition act (cfg : Config) (st : State) (ex : Exchange.Exchange)
    (analysis_result : Analysis) (current_price : Dec.Decimal)
    : State * Exchange.Exchange :=
  match determine_action cfg st analysis_result with
  | (None, st2) => (st2, ex)
  | (Some OPEN_LONG, st2) =>
      let '(_, st3, ex3) := close_market_position cfg st2 ex in
      let '(_, st5, ex5) :=
        open_market_position cfg (set_reopens st3 0) ex3 BUY current_price in
      (st5, ex5)
  | (Some OPEN_SHORT, st2) =>
      let '(_, st3, ex3) := close_market_position cfg st2 ex in
      let '(_, st5, ex5) :=
        open_market_position cfg (set_reopens st3 0) ex3 SELL current_price in
      (st5, ex5)
  | (Some CLOSE, st2) =>
      let '(_, st3, ex3) := close_market_position cfg st2 ex in
      (set_reopens st3 0, ex3)
  end.

Lemma process_analysis_act (cfg : Config) (st : State) (ex : Exchange.Exchange)
    (an : Analyzer) (now : Z) (price : Dec.Decimal) :
  process_analysis cfg st ex an now price
  = if negb (enableMarketPositionLogic cfg) then (false, st, ex, an)
    else if negb (should_run_analysis cfg st now) then (false, st, ex, an)
    else
      match run_volatility_detector_analysis cfg st an now with
      | (None, st1, an1) => (false, st1, ex, an1)
      | (Some a, st1, an1) =>
          (true, fst (act cfg st1 ex a price), snd (act cfg st1 ex a price), an1)
      end.
Proof.
  unfold process_analysis, act.
  destruct (negb (enableMarketPositionLogic cfg)); [reflexivity|].
  destruct (negb (should_run_analysis cfg st now)); [reflexivity|].
  destruct (run_volatility_detector_analysis cfg st an now) as [[[a|] st1] an1];
    [|reflexivity].
  destruct (determine_action cfg st1 a) as [[[| |]|] st2]; try reflexivity.
  - destruct (close_market_position cfg st2 ex) as [[c st3] ex3].
    destruct (open_market_position _ _ _ _ _) as [[o st5] ex5]. reflexivity.
  - destruct (close_market_position cfg st2 ex) as [[c st3] ex3].
    destruct (open_market_position _ _ _ _ _) as [[o st5] ex5]. reflexivity.
  - destruct (close_market_position cfg st2 ex) as [[c st3] ex3]. reflexivity.
Qed.

Lemma close_shape (cfg : Config) (st : State) (ex : Exchange.Exchange) :
  let st' := snd (fst (close_market_position cfg st ex)) in
  st' = st \/ st' = gone st \/ st' = cleared st.
Proof.
  unfold close_market_position.
  destruct (market_position st); [|left; reflexivity].
  unfold Exchange.get_position_information.
  destruct (Exchange.call ex _) as [rep ex1].
  destruct (Exchange.position rep) as [info|]; [|right; left; reflexivity].
  destruct (feqb _ _); [right; left; reflexivity|].
  unfold Exchange.close_position_market.
  destruct (Exchange.call ex1 _) as [rep2 ex2].
  destruct (Exchange.ok rep2); [right; right; reflexivity | left; reflexivity].
Qed.

Lemma open_shape (cfg : Config) (st : State) (ex : Exchange.Exchange)
    (side : Side) (price : Dec.Decimal) :
  let '(o, st', _) := open_market_position cfg st ex side price in
  (o = false /\ st' = st) \/ (o = true /\ st' = opened cfg st side price).
Proof.
  unfold open_market_position.
  destruct (if String.eqb _ _ then _ else _); [|left; split; reflexivity].
  unfold Exchange.create_order. destruct (Exchange.call ex _) as [rep ex'].
  destruct (Exchange.ok rep); [right | left]; split; reflexivity.
Qed.

(** A property of the manager's state that the elementary moves keep is
    kept by every method that is built from them. *)
Section Invariant.
Variables (cfg : Config) (Inv : State -> Prop).
Hypothesis Inv_gone : forall st, Inv st -> Inv (gone st).
Hypothesis Inv_cleared : forall st, Inv st -> Inv (cleared st).
Hypothesis Inv_opened : forall st side price, Inv st -> Inv (opened cfg st side price).
Hypothesis Inv_reopens : forall st n, Inv st -> Inv (set_reopens st n).
Hypothesis Inv_determine :
  forall st a, Inv st -> Inv (snd (determine_action cfg st a)).

Lemma close_preserves (st : State) (ex : Exchange.Exchange) :
  Inv st -> Inv (snd (fst (close_market_position cfg st ex))).
Proof.
  intros HI. destruct (close_shape cfg st ex) as [E | [E | E]];
    cbv zeta in E; rewrite E; auto.
Qed.

Lemma open_preserves (st : State) (ex : Exchange.Exchange) (side : Side)
    (price : Dec.Decimal) :
  Inv st -> Inv (snd (fst (open_market_position cfg st ex side price))).
Proof.
  intros HI. pose proof (open_shape cfg st ex side price) as S.
  destruct (open_market_position cfg st ex side price) as [[o st'] ex'].
  cbn [fst snd]. destruct S as [[_ ->] | [_ ->]]; auto.
Qed.

Lemma act_preserves (st : State) (ex : Exchange.Exchange) (a : Analysis)
    (price : Dec.Decimal) :
  Inv st -> Inv (fst (act cfg st ex a price)).
Proof.
  intros HI. unfold act.
  pose proof (Inv_determine st a HI) as HD.
  destruct (determine_action cfg st a) as [[[| |]|] st2]; cbn [snd] in HD.
  - pose proof (close_preserves st2 ex HD) as HC.
    destruct (close_market_position cfg st2 ex) as [[c st3] ex3]. cbn [fst snd] in HC.
    pose proof (open_preserves (set_reopens st3 0) ex3 BUY price
                  (Inv_reopens _ _ HC)) as HO.
    destruct (open_market_position _ _ _ _ _) as [[o st5] ex5]. exact HO.
  - pose proof (close_preserves st2 ex HD) as HC.
    destruct (close_market_position cfg st2 ex) as [[c st3] ex3]. cbn [fst snd] in HC.
    pose proof (open_preserves (set_reopens st3 0) ex3 SELL price
                  (Inv_reopens _ _ HC)) as HO.
    destruct (open_market_position _ _ _ _ _) as [[o st5] ex5]. exact HO.
  - pose proof (close_preserves st2 ex HD) as HC.
    destruct (close_market_position cfg st2 ex) as [[c st3] ex3]. cbn [fst snd] in *.
    apply Inv_reopens. exact HC.
  - exact HD.
Qed.

Lemma handle_preserves (st : State) (ex : Exchange.Exchange) (trigger : Trigger)
    (price : Dec.Decimal) :
  Inv st -> Inv (snd (fst (handle_market_position_tp_sl cfg st ex trigger price))).
Proof.
  intros HI. unfold handle_market_position_tp_sl.
  destruct (market_position st); [|exact HI].
  destruct (negb (_can_reopen_market_position cfg st)).
  { pose proof (close_preserves st ex HI) as HC.
    destruct (close_market_position cfg st ex) as [[c st1] ex1]. exact HC. }
  destruct (match last_analysis_result st with
            | Some prev => value_eqb (momentum prev) (Some "NEUTRAL"%string)
            | None => false
            end).
  { pose proof (close_preserves st ex HI) as HC.
    destruct (close_market_position cfg st ex) as [[c st1] ex1]. exact HC. }
  unfold Exchange.get_position_information.
  destruct (Exchange.call ex _) as [rep ex1].
  destruct (Exchange.position rep) as [info|]; [|exact HI].
  destruct (feqb _ _); [exact HI|].
  pose proof (close_preserves st ex1 HI) as HC.
  destruct (close_market_position cfg st ex1) as [[c st2] ex2]. cbn [fst snd] in HC.
  match goal with
  | |- context [open_market_position cfg ?s ?e ?sd ?p] =>
      pose proof (open_preserves s e sd p (Inv_reopens _ _ HC)) as HO;
      destruct (open_market_position cfg s e sd p) as [[o st4] ex4]
  end.
  exact HO.
Qed.

Hypothesis Inv_run :
  forall st an now, Inv st ->
    Inv (snd (fst (run_volatility_detector_analysis cfg st an now))).

Lemma process_preserves (st : State) (ex : Exchange.Exchange) (an : Analyzer)
    (now : Z) (price : Dec.Decimal) :
  Inv st -> Inv (snd (fst (fst (process_analysis cfg st ex an now price)))).
Proof.
  intros HI. rewrite process_analysis_act.
  destruct (negb (enableMarketPositionLogic cfg)); [exact HI|].
  destruct (negb (should_run_analysis cfg st now)); [exact HI|].
  pose proof (Inv_run st an now HI) as HR.
  destruct (run_volatility_detector_analysis cfg st an now) as [[[a|] st1] an1];
    cbn [fst snd] in *; [|exact HR].
  apply act_preserves. exact HR.
Qed.

End Invariant.

(** The retry loop, read on the analyzer's runs. *)
Lemma attempt_loop_spec (attempts : nat) :
  forall an,
    let '(r, an') := attempt_loop attempts an in
    runs an' = runs an
    /\ match r with
       | Some a =>
           exists k, (k < attempts)%nat
             /\ run_count an' = (run_count an + S k)%nat
             /\ runs an (run_count an + k)%nat = Some a
             /\ forall i, (i < k)%nat -> runs an (run_count an + i)%nat = None
       | None =>
           run_count an' = (run_count an + attempts)%nat
           /\ forall i, (i < attempts)%nat -> runs an (run_count an + i)%nat = None
       end.
Proof.
  induction attempts as [|n IH]; intros an; cbn [attempt_loop].
  - split; [reflexivity|]. split; [lia | intros i Hi; lia].
  - destruct (runs an (run_count an)) as [a|] eqn:Hrun.
    + cbn [runs run_count]. split; [reflexivity|].
      exists 0%nat. rewrite Nat.add_0_r. split_all; [lia | lia | exact Hrun |].
      intros i Hi. lia.
    + specialize (IH (mkAnalyzer (runs an) (S (run_count an)))).
      destruct (attempt_loop n _) as [[a|] an']; cbn [runs run_count] in IH.
      * destruct IH as [Hr [k [Hk [Hc [Hs Hnone]]]]].
        split; [exact Hr|]. exists (S k). split_all.
        -- lia.
        -- lia.
        -- replace (run_count an + S k)%nat with (S (run_count an) + k)%nat by lia.
           exact Hs.
        -- intros [|i] Hi; [rewrite Nat.add_0_r; exact Hrun|].
           replace (run_count an + S i)%nat with (S (run_count an) + i)%nat by lia.
           apply Hnone. lia.
      * destruct IH as [Hr [Hc Hnone]].
        split; [exact Hr|]. split; [lia|].
        intros [|i] Hi; [rewrite Nat.add_0_r; exact Hrun|].
        replace (run_count an + S i)%nat with (S (run_count an) + i)%nat by lia.
        apply Hnone. lia.
Qed.

(** What a run of the analysis leaves in the manager: the time of the
    run when it succeeded, nothing otherwise. *)
Lemma run_analysis_state (cfg : Config) (st : State) (an : Analyzer) (now : Z) :
  let '(r, st', _) := run_volatility_detector_analysis cfg st an now in
  match r with
  | Some _ => last_analysis_time st' = Some now
  | None => st' = st
  end.
Proof.
  unfold run_volatility_detector_analysis.
  pose proof (attempt_loop_spec (Z.to_nat (volatilityDetectorMaxRetries cfg)) an) as L.
  destruct (attempt_loop (Z.to_nat (volatilityDetectorMaxRetries cfg)) an)
    as [[a|] an']; reflexivity.
Qed.

(** X9.  [run_volatility_detector_analysis] starts the analyzer at most
    [volatilityDetectorMaxRetries] times (never, when that is zero or
    negative) and stops at the first run that succeeds: it returns that
    run's result and records the time; it returns [None], with the
    manager unchanged, exactly when every one of the runs failed. *)
Theorem analysis_retries_are_bounded (cfg : Config) (st : State) (an : Analyzer)
    (now : Z) :
  let n := Z.to_nat (volatilityDetectorMaxRetries cfg) in
  let '(r, st', an') := run_volatility_detector_analysis cfg st an now in
  runs an' = runs an
  /\ (run_count an <= run_count an' <= run_count an + n)%nat
  /\ match r with
     | Some a =>
         exists k, (k < n)%nat
           /\ run_count an' = (run_count an + S k)%nat
           /\ runs an (run_count an + k)%nat = Some a
           /\ (forall i, (i < k)%nat -> runs an (run_count an + i)%nat = None)
           /\ last_analysis_time st' = Some now
     | None =>
         run_count an' = (run_count an + n)%nat
         /\ (forall i, (i < n)%nat -> runs an (run_count an + i)%nat = None)
         /\ st' = st
     end.
Proof.
  intros n. unfold run_volatility_detector_analysis. fold n.
  pose proof (attempt_loop_spec n an) as L.
  destruct (attempt_loop n an) as [[a|] an'].
  - destruct L as [Hr [k [Hk [Hc [Hs Hnone]]]]].
    split_all; [exact Hr | lia | lia |].
    exists k. split_all; auto.
  - destruct L as [Hr [Hc Hnone]].
    split_all; auto; lia.
Qed.

(** X10.  The analysis is rate-limited by its successes only.  When
    [process_analysis] returns [True] at the time [t], that time is
    recorded, and until [analysisIntervalMinutes] have passed every
    further call is a no-op: no analyzer run, no gateway call, no change
    of state.  When it returns [False] the manager and the gateway are
    as before, so that a failed analysis is tried again at the next
    call. *)
Theorem analysis_is_rate_limited (cfg : Config) (st : State)
    (ex : Exchange.Exchange) (an : Analyzer) (t : Z) (price : Dec.Decimal) :
  let '(ran, st1, ex1, an1) := process_analysis cfg st ex an t price in
  (ran = true ->
     last_analysis_time st1 = Some t
     /\ forall now ex' an' price',
          now - t < analysisIntervalMinutes cfg * 60 ->
          process_analysis cfg st1 ex' an' now price' = (false, st1, ex', an'))
  /\ (ran = false -> st1 = st /\ ex1 = ex).
Proof.
  rewrite process_analysis_act.
  destruct (negb (enableMarketPositionLogic cfg)) eqn:Hen;
    [split; [discriminate | auto]|].
  destruct (negb (should_run_analysis cfg st t));
    [split; [discriminate | auto]|].
  pose proof (run_analysis_state cfg st an t) as R.
  destruct (run_volatility_detector_analysis cfg st an t) as [[[a|] st0] an0].
  2:{ rewrite R. split; [discriminate | auto]. }
  rename R into Htime.
  split; [intros _ | discriminate].
  assert (Ht : last_analysis_time (fst (act cfg st0 ex a price)) = Some t).
  { apply (act_preserves cfg (fun s => last_analysis_time s = Some t)); auto.
    intros s a' Hs. unfold determine_action. cbn [last_analysis_result].
    destruct (match last_analysis_result s with
              | Some prev => _
              | None => false
              end); exact Hs. }
  split; [exact Ht|].
  intros now ex' an' price' Hnow. rewrite process_analysis_act, Hen.
  unfold should_run_analysis. rewrite Ht.
  destruct (Z.geb_spec (now - t) (analysisIntervalMinutes cfg * 60)) as [Hge | _];
    [exfalso; lia | reflexivity].
Qed.

(** The manager's books agree: a position on record has its targets,
    computed for its side from the recorded entry price; no position,
    no targets. *)
Definition consistent (st : State) : Prop :=
  match market_position st with
  | Some side =>
      exists targets,
        market_position_targets st = Some targets
        /\ target_side targets = side
        /\ market_position_entry_price st = Some (target_entry_price targets)
  | None => market_position_targets st = None
  end.

(** X11.  The books of the market-position manager agree after
    [__init__] and after every method, whatever the gateway and the
    analyzer answer: whenever a market position is on record, so are its
    targets, for the same side and the recorded entry price; whenever
    none is on record, there are no targets. *)
Theorem position_and_targets_agree (cfg : Config) :
  consistent init
  /\ forall st, consistent st ->
       (forall a, consistent (snd (determine_action cfg st a)))
       /\ (forall an now,
             consistent (snd (fst (run_volatility_detector_analysis cfg st an now))))
       /\ (forall ex side price,
             consistent (snd (fst (open_market_position cfg st ex side price))))
       /\ (forall ex, consistent (snd (fst (close_market_position cfg st ex))))
       /\ (forall ex an now price,
             consistent (snd (fst (fst (process_analysis cfg st ex an now price)))))
       /\ (forall ex trigger price,
             consistent
               (snd (fst (handle_market_position_tp_sl cfg st ex trigger price)))).
Proof.
  assert (Hgone : forall st, consistent st -> consistent (gone st))
    by (intros st _; reflexivity).
  assert (Hcleared : forall st, consistent st -> consistent (cleared st))
    by (intros st _; reflexivity).
  assert (Hopened : forall st side price,
            consistent st -> consistent (opened cfg st side price)).
  { intros st side price _. unfold consistent, opened. cbn [market_position
      market_position_targets market_position_entry_price].
    eexists. split_all; reflexivity. }
  assert (Hreopens : forall st n, consistent st -> consistent (set_reopens st n))
    by (intros st n Hs; exact Hs).
  assert (Hdet : forall st a,
            consistent st -> consistent (snd (determine_action cfg st a))).
  { intros st a Hs. unfold determine_action. cbn [last_analysis_result].
    destruct (match last_analysis_result st with
              | Some prev => _
              | None => false
              end); exact Hs. }
  assert (Hrun : forall st an now, consistent st ->
            consistent (snd (fst (run_volatility_detector_analysis cfg st an now)))).
  { intros st an now Hs. unfold run_volatility_detector_analysis.
    destruct (attempt_loop _ an) as [[a|] an']; exact Hs. }
  split; [reflexivity|].
  intros st Hs. split_all.
  - intros a. apply Hdet. exact Hs.
  - intros an now. apply Hrun. exact Hs.
  - intros ex side price. apply (open_preserves cfg consistent); auto.
  - intros ex. apply (close_preserves cfg consistent); auto.
  - intros ex an now price. apply (process_preserves cfg consistent); auto.
  - intros ex trigger price. apply (handle_preserves cfg consistent); auto.
Qed.


(** X13.  With neither [stopLossPercent] nor [takeProfitPercent] set
    (absent or zero), a market position that has just been opened has
    no target price, and [check_market_position_tp_sl] answers [None] at
    every price. *)
Theorem market_position_without_percentages (cfg : Config) (st : State)
    (ex : Exchange.Exchange) (side : Side) (price current_price : Dec.Decimal) :
  truthy (stopLossPercent cfg) = false ->
  truthy (takeProfitPercent cfg) = false ->
  fst (fst (open_market_position cfg st ex side price)) = true ->
  check_market_position_tp_sl
    (snd (fst (open_market_position cfg st ex side price))) current_price = None.
Proof.
  intros Hsl Htp Ho.
  pose proof (open_shape cfg st ex side price) as S.
  destruct (open_market_position cfg st ex side price) as [[o st'] ex'].
  cbn [fst snd] in *. subst o.
  destruct S as [[E _] | [_ ->]]; [discriminate E|].
  unfold check_market_position_tp_sl, opened, _calculate_market_position_targets.
  cbn [market_position market_position_targets tp_price sl_price target_side].
  rewrite Hsl, Htp.
  destruct (stopLossPercent cfg), (takeProfitPercent cfg); reflexivity.
Qed.

End WithFloat.

(** The configuration of the scenario has no percentage set: a long
    opened at 1000 is not closed at the price 1. *)
Lemma market_position_without_percentages_witness :
  check_market_position_tp_sl
    (snd (fst (open_market_position Examples.base (@init DecimalFloat.ops)
                 (Examples.gateway [Examples.success]) BUY (Dec.of_Z 1000))))
    (Dec.of_Z 1) = None.
Proof.
  exact (market_position_without_percentages Examples.base init
           (Examples.gateway [Examples.success]) BUY (Dec.of_Z 1000) (Dec.of_Z 1)
           eq_refl eq_refl eq_refl).
Defined.

End MarketFacts.

(* ================================================================== *)
(** * From the indicators to the action *)

Module AnalyzerFacts.
Import AnalyzeTicker MarketPositionManager.

Section WithFloat.
Context `{FloatOps}.

Lemma determine_action_classifies (cfg : Config) (st : State) (a : Analysis) :
  fst (determine_action cfg st a) = None
  \/ fst (determine_action cfg st a) = classify cfg (trend a) (momentum a).
Proof.
  unfold determine_action. cbn [last_analysis_result].
  destruct (match last_analysis_result st with
            | Some prev => _
            | None => false
            end); [left | right]; reflexivity.
Qed.

Lemma determine_action_first (cfg : Config) (st : State) (a : Analysis) :
  last_analysis_result st = None ->
  fst (determine_action cfg st a) = classify cfg (trend a) (momentum a).
Proof.
  intros Hnone. unfold determine_action. cbn [last_analysis_result].
  rewrite Hnone. reflexivity.
Qed.

Lemma gtb_finite (a b : Q) : gtb (Finite a) (Finite b) = true <-> (b < a)%Q.
Proof.
  unfold gtb. rewrite negb_true_iff. split.
  - intros Hle. apply Qnot_le_lt. intros Hab. apply Qle_bool_iff in Hab.
    rewrite Hab in Hle. discriminate.
  - intros Hlt. destruct (Qle_bool a b) eqn:E; [|reflexivity].
    apply Qle_bool_iff in E. exfalso. exact (Qlt_not_le _ _ Hlt E).
Qed.

Lemma gtb_finite_false (a b : Q) : gtb (Finite a) (Finite b) = false <-> (a <= b)%Q.
Proof.
  unfold gtb. rewrite negb_false_iff. apply Qle_bool_iff.
Qed.

Lemma truth_finite (q : Q) : truth (Some (Finite q)) = true <-> ~ (q == 0)%Q.
Proof.
  unfold truth. rewrite negb_true_iff. split.
  - intros Hb E. apply Qeq_bool_iff in E. rewrite E in Hb. discriminate.
  - intros Hn. destruct (Qeq_bool q 0) eqn:E; [|reflexivity].
    apply Qeq_bool_iff in E. contradiction.
Qed.

(** The action for the signal extracted from three finite indicators. *)
Lemma classify_indicators (cfg : Config) (s9 s26 k : Q) :
  exists a,
    extract_trend_and_momentum
      (Some (mkIndicators (Some (Finite s9)) (Some (Finite s26)) (Some (Finite k))))
    = Some a
    /\ (classify cfg (trend a) (momentum a) = Some OPEN_LONG
        <-> ~ (s9 == 0)%Q /\ ~ (s26 == 0)%Q /\ (s26 < s9)%Q /\ (80 < k)%Q)
    /\ (classify cfg (trend a) (momentum a) = Some OPEN_SHORT
        <-> ~ (s9 == 0)%Q /\ ~ (s26 == 0)%Q /\ (s9 <= s26)%Q /\ (k < 20)%Q)
    /\ (classify cfg (trend a) (momentum a) = Some CLOSE
        <-> (20 <= k <= 80)%Q
            /\ Py.lower (Py.get (neutralMomentumAction cfg) "stop"%string)
               = "stop"%string).
Proof.
  eexists. split; [reflexivity|].
  cbn [extract_trend_and_momentum sma_9 sma_26 stoch_k_14 trend momentum].
  unfold ltb.
  pose proof (truth_finite s9) as T9. pose proof (truth_finite s26) as T26.
  pose proof (gtb_finite s9 s26) as Gup. pose proof (gtb_finite_false s9 s26) as Gdown.
  pose proof (gtb_finite 20 k) as Glow. pose proof (gtb_finite_false 20 k) as Glow'.
  pose proof (gtb_finite k 80) as Ghigh. pose proof (gtb_finite_false k 80) as Ghigh'.
  pose proof (String.eqb_spec
                (Py.lower (Py.get (neutralMomentumAction cfg) "stop"%string))
                "stop"%string) as Hstop.
  unfold classify.
  destruct (truth (Some (Finite s9))), (truth (Some (Finite s26)));
    cbn [andb];
    destruct (gtb (Finite s9) (Finite s26));
    destruct (gtb (Finite 20) (Finite k));
    destruct (gtb (Finite k) (Finite 80));
    cbn [value_eqb String.eqb Ascii.eqb Bool.eqb andb];
    destruct Hstop as [Hs | Hs];
    split_all; split; intros Hx;
    try discriminate Hx; try reflexivity;
    try (exfalso; lra); try (exfalso; tauto);
    repeat match goal with
           | H : _ /\ _ |- _ => destruct H
           end;
    try (exfalso; lra); try (exfalso; tauto);
    try (exfalso;
         match goal with
         | H1 : true = true <-> _, H2 : false = false <-> _ |- _ =>
             pose proof (proj1 H1 eq_refl); pose proof (proj1 H2 eq_refl); lra
         end);
    split_all; try tauto; try (apply Qnot_lt_le; tauto); try lra; try assumption.
Qed.

(** X14.  From the indicators to the action.  For finite indicators
    [sma_9], [sma_26] and [stoch_k_14], the signal
    [extract_trend_and_momentum] reports makes [determine_action]
    answer, whatever the manager's state, [OPEN_LONG] only if both
    averages are non-zero, [sma_9 > sma_26] and [stoch_k > 80];
    [OPEN_SHORT] only if both are non-zero, [sma_9 <= sma_26] and
    [stoch_k < 20]; [CLOSE] only if [20 <= stoch_k <= 80] and the
    neutral action is [stop] in some letter case.  For a manager with
    no analysis on record these conditions are also sufficient. *)
Theorem actions_follow_indicators (cfg : Config) (s9 s26 k : Q) :
  exists a,
    extract_trend_and_momentum
      (Some (mkIndicators (Some (Finite s9)) (Some (Finite s26)) (Some (Finite k))))
    = Some a
    /\ (forall st,
          (fst (determine_action cfg st a) = Some OPEN_LONG ->
             ~ (s9 == 0)%Q /\ ~ (s26 == 0)%Q /\ (s26 < s9)%Q /\ (80 < k)%Q)
          /\ (fst (determine_action cfg st a) = Some OPEN_SHORT ->
                ~ (s9 == 0)%Q /\ ~ (s26 == 0)%Q /\ (s9 <= s26)%Q /\ (k < 20)%Q)
          /\ (fst (determine_action cfg st a) = Some CLOSE ->
                (20 <= k <= 80)%Q
                /\ Py.lower (Py.get (neutralMomentumAction cfg) "stop"%string)
                   = "stop"%string))
    /\ (forall st,
          last_analysis_result st = None ->
          (~ (s9 == 0)%Q /\ ~ (s26 == 0)%Q /\ (s26 < s9)%Q /\ (80 < k)%Q ->
             fst (determine_action cfg st a) = Some OPEN_LONG)
          /\ (~ (s9 == 0)%Q /\ ~ (s26 == 0)%Q /\ (s9 <= s26)%Q /\ (k < 20)%Q ->
                fst (determine_action cfg st a) = Some OPEN_SHORT)
          /\ ((20 <= k <= 80)%Q
              /\ Py.lower (Py.get (neutralMomentumAction cfg) "stop"%string)
                 = "stop"%string ->
                fst (determine_action cfg st a) = Some CLOSE)).
Proof.
  destruct (classify_indicators cfg s9 s26 k) as [a [Ha [HL [HS HC]]]].
  exists a. split; [exact Ha|]. split.
  - intros st.
    destruct (determine_action_classifies cfg st a) as [E | E]; rewrite E.
    + split_all; discriminate.
    + split_all; [apply HL | apply HS | apply HC].
  - intros st Hnone. rewrite (determine_action_first cfg st a Hnone).
    split_all; [apply HL | apply HS | apply HC].
Qed.

(** X15.  Missing indicators give no order.  When the analysis has no
    [stoch_k_14], [determine_action] answers no action at all; when it
    lacks [sma_9] or [sma_26], or one of them is zero, it never answers
    [OPEN_LONG] or [OPEN_SHORT]. *)
Theorem missing_indicators_open_nothing (cfg : Config) (st : State)
    (indicators : Indicators) :
  exists a,
    extract_trend_and_momentum (Some indicators) = Some a
    /\ (stoch_k_14 indicators = None -> fst (determine_action cfg st a) = None)
    /\ (truth (sma_9 indicators) && truth (sma_26 indicators) = false ->
        fst (determine_action cfg st a) <> Some OPEN_LONG
        /\ fst (determine_action cfg st a) <> Some OPEN_SHORT).
Proof.
  eexists. split; [reflexivity|].
  match goal with
  | |- context [determine_action cfg st ?a] =>
      destruct (determine_action_classifies cfg st a) as [E | E]; rewrite E
  end.
  - split; [reflexivity | intros _; split; discriminate].
  - cbn [trend momentum]. split.
    + intros ->. unfold classify. cbn [value_eqb]. rewrite !andb_false_r.
      reflexivity.
    + intros Hsma. unfold classify.
      destruct (sma_9 indicators) as [s9|], (sma_26 indicators) as [s26|];
        try rewrite Hsma; cbn [value_eqb andb];
        repeat match goal with
               | |- context [if ?c then _ else _] => destruct c
               end; split; discriminate.
Qed.

End WithFloat.

End AnalyzerFacts.

(* ================================================================== *)
(** * The grid orders of the bot *)

Module OrderFacts.
Import Bot.

Lemma pow10_le (a b : Z) : a <= b -> (DecProps.pow10 a <= DecProps.pow10 b)%Q.
Proof.
  intros Hab. rewrite (DecProps.pow10_split a b Hab).
  pose proof (DecProps.pow10_pos a) as Ha.
  assert (H1 : (1 <= inject_Z (10 ^ (b - a)))%Q).
  { change 1%Q with (inject_Z 1). rewrite <- Zle_Qle.
    pose proof (DecProps.Zpow10_pos (b - a) ltac:(lia)). lia. }
  setoid_replace (DecProps.pow10 a) with (DecProps.pow10 a * 1)%Q at 1 by ring.
  apply Qmult_le_l; assumption.
Qed.

(** [round(q, 5)] raises for a quantity of 100000 or more: the result
    would need more than ten digits. *)
Lemma round_to_overflow (q : Dec.Decimal) :
  (100000 <= Dec.dval q)%Q -> Dec.round_to 5 q = None.
Proof.
  intros Hq. unfold Dec.round_to.
  assert (Hc : 0 < Dec.coef q).
  { destruct (Z.lt_trichotomy 0 (Dec.coef q)) as [Hpos | Hnon]; [exact Hpos|].
    exfalso. rewrite DecProps.dval_pow10 in Hq.
    pose proof (DecProps.pow10_pos (Dec.expo q)) as Hp.
    assert (Hle : (inject_Z (Dec.coef q) <= 0)%Q).
    { change 0%Q with (inject_Z 0). rewrite <- Zle_Qle. lia. }
    assert (Hprod : (inject_Z (Dec.coef q) * DecProps.pow10 (Dec.expo q) <= 0)%Q).
    { setoid_replace 0%Q with (0 * DecProps.pow10 (Dec.expo q))%Q by ring.
      apply Qmult_le_compat_r; [exact Hle | apply Qlt_le_weak; exact Hp]. }
    lra. }
  destruct (Z.eqb_spec (Dec.coef q) 0) as [E | _]; [lia|].
  rewrite Z.abs_eq by lia.
  destruct (DecProps.ndigits_spec (Dec.coef q) Hc) as [Hn [_ Hhi]].
  set (n := Dec.ndigits (Dec.coef q)) in *.
  lazymatch goal with
  | |- (if Dec.prec <? ?x then _ else _) = _ =>
      destruct (Z.ltb_spec Dec.prec x) as [_ | Hsmall]
  end; [reflexivity|].
  exfalso. unfold Dec.prec in Hsmall.
  assert (Hlt : (Dec.dval q < DecProps.pow10 (n + Dec.expo q))%Q).
  { rewrite DecProps.dval_pow10, DecProps.pow10_add.
    rewrite (DecProps.pow10_nonneg n) by lia.
    apply DecProps.value_lt_same. exact Hhi. }
  pose proof (pow10_le (n + Dec.expo q) 5 ltac:(lia)) as Hmono.
  assert (H5 : (DecProps.pow10 5 == 100000)%Q) by reflexivity.
  lra.
Qed.

Section WithFloat.
Context `{FloatOps}.





(** X17.  With a [positionSizeType] that is neither [BASE] nor [QUOTE],
    or with [BASE] and a size that is not positive, [place_grid_orders]
    returns without a single gateway call, whatever the levels and the
    price. *)
Theorem place_grid_orders_without_quantity (cfg : Config)
    (levels : list Dec.Decimal) (current_price : Dec.Decimal)
    (ex : Exchange.Exchange) :
  (positionSizeType cfg <> "BASE"%string /\ positionSizeType cfg <> "QUOTE"%string)
  \/ (positionSizeType cfg = "BASE"%string /\ (Dec.dval (positionSize cfg) <= 0)%Q) ->
  place_grid_orders cfg levels current_price ex = Returns ex.
Proof.
  intros Hcase.
  assert (Hq : forall level,
             Dec.leb (_calculate_quantity cfg level) Dec.zero = true).
  { intros level. unfold _calculate_quantity.
    destruct Hcase as [[Hb Hquote] | [Hb Hsize]].
    - apply String.eqb_neq in Hb, Hquote. rewrite Hb, Hquote. reflexivity.
    - rewrite Hb. cbn [String.eqb Ascii.eqb Bool.eqb]. cbv iota.
      apply DecProps.leb_spec. exact Hsize. }
  induction levels as [|level levels IH]; [reflexivity|].
  cbn [place_grid_orders].
  destruct (grid_order_side cfg level current_price) as [[side ps]|]; [|exact IH].
  rewrite Hq. exact IH.
Qed.

End WithFloat.



(** The configuration of the scenario with a size type the bot does not
    know. *)
Definition unknown_size_type : Config :=
  {| mode := Long; symbol := "BTCUSDT"; leverage := 20;
     startPrice := Examples.tenths 9000; endPrice := Examples.tenths 11000;
     gridSize := Examples.tenths 40;
     positionSizeType := "USDT"; positionSize := Examples.tenths 100;
     enableRangeExitRule := true;
     rangeExitThresholdPercent := Examples.tenths 1000;
     tpMode := PERCENTAGE; takeProfitPercent := None; stopLossPercent := None;
     dualSidePosition := false; enableMarketPositionLogic := true;
     analysisIntervalMinutes := 10; volatilityDetectorMaxRetries := 3;
     enablePositionReopen := true;
     maxConsecutiveGridPositions := Some (Py.VStr "3");
     gridBotNeutralOnly := false;
     maxMarketPositionReopens := Some (Py.VStr "unlimited");
     neutralMomentumAction := Some "stop"%string |}.

Lemma place_grid_orders_without_quantity_witness :
  place_grid_orders unknown_size_type (Grid.grid_levels Examples.grid1000)
    (Examples.tenths 10000) (Examples.gateway [Examples.success])
  = Returns (Examples.gateway [Examples.success]).
Proof.
  apply (@place_grid_orders_without_quantity DecimalFloat.ops).
  left. split; discriminate.
Defined.

(** The configuration of the scenario sized in the base asset, 100000 a
    level. *)
Definition large_base_size : Config :=
  {| mode := Long; symbol := "BTCUSDT"; leverage := 20;
     startPrice := Examples.tenths 9000; endPrice := Examples.tenths 11000;
     gridSize := Examples.tenths 40;
     positionSizeType := "BASE"; positionSize := Examples.tenths 1000000;
     enableRangeExitRule := true;
     rangeExitThresholdPercent := Examples.tenths 1000;
     tpMode := PERCENTAGE; takeProfitPercent := None; stopLossPercent := None;
     dualSidePosition := false; enableMarketPositionLogic := true;
     analysisIntervalMinutes := 10; volatilityDetectorMaxRetries := 3;
     enablePositionReopen := true;
     maxConsecutiveGridPositions := Some (Py.VStr "3");
     gridBotNeutralOnly := false;
     maxMarketPositionReopens := Some (Py.VStr "unlimited");
     neutralMomentumAction := Some "stop"%string |}.

Section WithFloat.
Context `{FloatOps}.


(** X18.  A quantity of 100000 or more stops the placement: as soon as
    one level of the grid is to be ordered for such a quantity,
    [round(quantity, 5)] raises in the ten-digit context and
    [place_grid_orders] raises with it, whatever the gateway answers. *)
Theorem place_grid_orders_raises_on_large_quantity (cfg : Config)
    (levels : list Dec.Decimal) (current_price : Dec.Decimal)
    (ex : Exchange.Exchange) (level : Dec.Decimal) :
  In level levels ->
  grid_order_side cfg level current_price <> None ->
  (100000 <= Dec.dval (_calculate_quantity cfg level))%Q ->
  place_grid_orders cfg levels current_price ex = Raises.
Proof.
  intros Hin Hside Hq. revert ex.
  induction levels as [|l levels IH]; intros ex; [destruct Hin|].
  cbn [place_grid_orders].
  destruct Hin as [-> | Hin].
  - destruct (grid_order_side cfg level current_price) as [[side ps]|];
      [|contradiction].
    assert (Hpos : Dec.leb (_calculate_quantity cfg level) Dec.zero = false).
    { apply DecProps.leb_false. change (Dec.dval Dec.zero) with (0 * 1)%Q. lra. }
    rewrite Hpos, (round_to_overflow _ Hq). reflexivity.
  - destruct (grid_order_side cfg l current_price) as [[side ps]|]; [|apply IH, Hin].
    destruct (Dec.leb _ Dec.zero); [apply IH, Hin|].
    destruct (Dec.round_to 5 _); [|reflexivity].
    unfold Exchange.create_order, Exchange.call. apply IH, Hin.
Qed.

End WithFloat.

Lemma place_grid_orders_raises_on_large_quantity_witness :
  place_grid_orders large_base_size (Grid.grid_levels Examples.grid1000)
    (Examples.tenths 10000) (Examples.gateway [Examples.success])
  = Raises.
Proof.
  apply (@place_grid_orders_raises_on_large_quantity DecimalFloat.ops
           large_base_size (Grid.grid_levels Examples.grid1000)
           (Examples.tenths 10000) (Examples.gateway [Examples.success])
           (Examples.tenths 9000)).
  - left. reflexivity.
  - discriminate.
  - vm_compute. discriminate.
Defined.

End OrderFacts.

(* ================================================================== *)
(** * The tick of the bot: what it keeps from one tick to the next *)

Module BotFacts.
Import Bot.

Section WithFloat.
Context `{FloatOps}.

(** The bot a tick leaves behind, whether the loop goes on or the bot
    exits. *)
Definition bot_of (t : Tick) : Bot :=
  match t with
  | Next b => b
  | Exit b => b
  end.

(** [P] holds of the bot after the tick, if the tick returns. *)
Definition after (o : Outcome Tick) (P : Bot -> Prop) : Prop :=
  match o with
  | Returns t => P (bot_of t)
  | _ => True
  end.

(** The steps of a tick that leave the grid side of the bot alone. *)
Definition grid_side_kept (b b' : Bot) : Prop :=
  config b' = config b
  /\ grid b' = grid b
  /\ is_grid_active b' = is_grid_active b
  /\ open_positions b' = open_positions b
  /\ position_counter b' = position_counter b
  /\ position_targets b' = position_targets b
  /\ _last_position_amt b' = _last_position_amt b
  /\ _last_entry_price b' = _last_entry_price b
  /\ _last_position_side b' = _last_position_side b.

Lemma grid_side_kept_refl (b : Bot) : grid_side_kept b b.
Proof. unfold grid_side_kept. split_all; reflexivity. Qed.

Lemma grid_side_kept_trans (a b c : Bot) :
  grid_side_kept a b -> grid_side_kept b c -> grid_side_kept a c.
Proof.
  unfold grid_side_kept. intros Hab Hbc.
  repeat match goal with H : _ /\ _ |- _ => destruct H end.
  split_all; congruence.
Qed.

Lemma set_exchange_kept (b : Bot) (ex : Exchange.Exchange) :
  grid_side_kept b (set_exchange b ex)
  /\ market_position_manager (set_exchange b ex) = market_position_manager b.
Proof. unfold grid_side_kept. split_all; reflexivity. Qed.

Lemma shutdown_kept (b : Bot) :
  config (shutdown b) = config b
  /\ position_counter (shutdown b) = position_counter b
  /\ _last_position_amt (shutdown b) = _last_position_amt b
  /\ _last_entry_price (shutdown b) = _last_entry_price b.
Proof.
  unfold shutdown. destruct (Exchange.get_position_information _ _) as [info ex2].
  split_all; reflexivity.
Qed.

Lemma market_tp_sl_kept (b : Bot) (price : Dec.Decimal) :
  grid_side_kept b (market_tp_sl b price)
  /\ MarketPositionManager.last_analysis_result
       (market_position_manager (market_tp_sl b price))
     = MarketPositionManager.last_analysis_result (market_position_manager b).
Proof.
  unfold market_tp_sl.
  destruct (MarketPositionManager.market_position (market_position_manager b));
    [|split; [apply grid_side_kept_refl | reflexivity]].
  destruct (MarketPositionManager.check_market_position_tp_sl _ _) as [trigger|];
    [|split; [apply grid_side_kept_refl | reflexivity]].
  pose proof (MarketFacts.handle_preserves (config b)
                (fun s => MarketPositionManager.last_analysis_result s
                          = MarketPositionManager.last_analysis_result
                              (market_position_manager b))
                ltac:(intros st Hs; exact Hs) ltac:(intros st Hs; exact Hs)
                ltac:(intros st sd p Hs; exact Hs) ltac:(intros st n Hs; exact Hs)
                (market_position_manager b) (exchange b) trigger price eq_refl) as HP.
  destruct (MarketPositionManager.handle_market_position_tp_sl _ _ _ _ _)
    as [[r mpm'] ex'].
  cbn [fst snd] in HP. unfold grid_side_kept.
  split_all; try reflexivity. exact HP.
Qed.

Lemma drain_kept (b : Bot) :
  grid_side_kept b (drain b)
  /\ market_position_manager (drain b) = market_position_manager b.
Proof.
  unfold drain.
  destruct (PositionReopenManager.process_reopen_queue _ _ _) as [[queue' ex'] r].
  unfold grid_side_kept. split_all; reflexivity.
Qed.

Lemma analysis_kept (b : Bot) (now : Z) (price : Dec.Decimal) :
  grid_side_kept b (analysis b now price).
Proof.
  unfold analysis.
  destruct (MarketPositionManager.process_analysis _ _ _ _ _ _)
    as [[[r mpm'] ex'] an'].
  unfold grid_side_kept. split_all; reflexivity.
Qed.

Lemma zero_is_zero : feqb (float_of_Z 0) (float_of_Z 0) = true.
Proof. apply feqb_eq. reflexivity. Qed.

(** [reset_grid]: what both resets of the tick leave. *)
Lemma reset_grid_leaves (b : Bot) :
  config (reset_grid b) = config b
  /\ market_position_manager (reset_grid b) = market_position_manager b
  /\ is_grid_active (reset_grid b) = false
  /\ position_counter (reset_grid b) = 0
  /\ _last_position_amt (reset_grid b) = float_of_Z 0
  /\ position_reopen_manager (reset_grid b) = [].
Proof. unfold reset_grid. split_all; reflexivity. Qed.

(** The last position amount is zero, or an entry price is on record. *)
Definition entry_on_record (b : Bot) : Prop :=
  feqb (_last_position_amt b) (float_of_Z 0) = false ->
  _last_entry_price b <> None.


Lemma entry_on_record_zero (b : Bot) :
  _last_position_amt b = float_of_Z 0 -> entry_on_record b.
Proof.
  unfold entry_on_record. intros -> E. rewrite zero_is_zero in E. discriminate E.
Qed.

(** [track_position]: the ways it ends. *)
Lemma track_position_cases (b : Bot) :
  match track_position b with
  | Returns b3 =>
      config b3 = config b
      /\ grid b3 = grid b
      /\ market_position_manager b3 = market_position_manager b
      /\ is_grid_active b3 = is_grid_active b
      /\ (position_counter b3 = position_counter b
          \/ position_counter b3 = position_counter b + 1)
      /\ (entry_on_record b -> entry_on_record b3)
  | Raises =>
      feqb (_last_position_amt b) (float_of_Z 0) = false
      /\ _last_entry_price b = None
  | Diverges => False
  end.
Proof.
  unfold track_position.
  destruct (Exchange.get_position_information _ _) as [info ex1].
  destruct (positions_of info) as [|i rest] eqn:Hpos.
  - destruct (feqb (_last_position_amt b) (float_of_Z 0)) eqn:Hz; cbn [negb andb].
    + split_all; try reflexivity; [left; reflexivity|].
      intros _. apply entry_on_record_zero. reflexivity.
    + destruct (enablePositionReopen (config b)).
      * destruct (if fltb (float_of_Z 0) (_last_position_amt b)
                  then ("SELL", "1")%string else ("BUY", "0")%string)
          as [reopen_side position_idx].
        destruct (_last_entry_price b) as [last_entry|].
        -- split_all; try reflexivity; [left; reflexivity|].
           intros _. apply entry_on_record_zero. reflexivity.
        -- split; reflexivity.
      * split_all; try reflexivity; [left; reflexivity|].
        intros _. apply entry_on_record_zero. reflexivity.
  - assert (Hamt : feqb (Exchange.positionAmt i) (float_of_Z 0) = false).
    { unfold positions_of in Hpos. destruct info as [info|]; [|discriminate Hpos].
      destruct (feqb (Exchange.positionAmt info) (float_of_Z 0)) eqn:E;
        [discriminate Hpos|].
      injection Hpos as <- _. exact E. }
    destruct (feqb (_last_position_amt b) (float_of_Z 0)) eqn:Hz.
    + split_all; try reflexivity; [right; reflexivity|].
      intros _ _. discriminate.
    + split_all; try reflexivity; [left; reflexivity|].
      intros Hrec _. apply Hrec. exact Hz.
Qed.

(** [check_exits]: the grid is reset, or the counters are what they
    were and the limit of consecutive positions is not reached. *)
Lemma check_exits_cases (b : Bot) (price : Dec.Decimal) :
  config (check_exits b price) = config b
  /\ market_position_manager (check_exits b price) = market_position_manager b
  /\ ((is_grid_active (check_exits b price) = false
       /\ position_counter (check_exits b price) = 0
       /\ _last_position_amt (check_exits b price) = float_of_Z 0)
      \/ (is_grid_active (check_exits b price) = is_grid_active b
          /\ position_counter (check_exits b price) = position_counter b
          /\ _last_position_amt (check_exits b price) = _last_position_amt b
          /\ _last_entry_price (check_exits b price) = _last_entry_price b
          /\ RiskManager._check_max_consecutive_positions (config b)
               (position_counter b) = false)).
Proof.
  unfold check_exits.
  set (b1 := match check_tp_sl_targets (config b) (position_targets b) price with
             | Some _ => _
             | None => b
             end).
  assert (K : config b1 = config b
              /\ market_position_manager b1 = market_position_manager b
              /\ is_grid_active b1 = is_grid_active b
              /\ position_counter b1 = position_counter b
              /\ _last_position_amt b1 = _last_position_amt b
              /\ _last_entry_price b1 = _last_entry_price b).
  { unfold b1. destruct (check_tp_sl_targets _ _ _); split_all; reflexivity. }
  destruct K as [Kc [Km [Ka [Kn [Kl Ke]]]]].
  rewrite ?Kc, ?Kn.
  destruct (RiskManager.check_exit_conditions _ _ _ _ _) as [reason|] eqn:Hexit.
  - destruct (reset_grid_leaves b1) as [Rc [Rm [Ra [Rn [Rl _]]]]].
    split_all; [congruence | congruence |]. left. auto.
  - split_all; [exact Kc | exact Km |]. right. split_all; auto.
    destruct (RiskManager._check_max_consecutive_positions (config b)
                (position_counter b)) eqn:Hmax; [|reflexivity].
    rewrite (RiskProps.max_consecutive_first _ _ _ _ _ Hmax) in Hexit.
    discriminate Hexit.
Qed.

(** [activate_grid]: when it returns, nothing but the grid, the gateway
    and the flag has changed, and nothing at all when the grid was
    active or the neutral-only setting forbids it. *)
Lemma activate_grid_cases (fuel : nat) (b b5 : Bot) (price : Dec.Decimal) :
  activate_grid fuel b price = Returns b5 ->
  config b5 = config b
  /\ market_position_manager b5 = market_position_manager b
  /\ position_counter b5 = position_counter b
  /\ _last_position_amt b5 = _last_position_amt b
  /\ _last_entry_price b5 = _last_entry_price b
  /\ (is_grid_active b = true
      \/ gridBotNeutralOnly (config b) && momentum_not_neutral b = true ->
      b5 = b).
Proof.
  unfold activate_grid.
  destruct (is_grid_active b).
  { intros E. injection E as <-. split_all; auto. }
  destruct (gridBotNeutralOnly (config b) && momentum_not_neutral b); cbn [negb].
  { intros E. injection E as <-. split_all; auto. }
  destruct (Grid.generate fuel (grid b) price) as [g| |]; try discriminate.
  destruct (place_grid_orders _ _ _ _) as [ex'| |]; try discriminate.
  intros E. injection E as <-. split_all; try reflexivity.
  intros [E | E]; discriminate E.
Qed.

Lemma neutral_only_deactivate_cases (b : Bot) :
  (neutral_only_deactivate b = b
   /\ is_grid_active b && gridBotNeutralOnly (config b) && momentum_not_neutral b
      = false)
  \/ neutral_only_deactivate b = reset_grid b.
Proof.
  unfold neutral_only_deactivate.
  destruct (is_grid_active b && gridBotNeutralOnly (config b)
            && momentum_not_neutral b); [right | left; split]; reflexivity.
Qed.

Lemma momentum_of_manager (b' b : Bot) :
  market_position_manager b' = market_position_manager b ->
  momentum_not_neutral b' = momentum_not_neutral b.
Proof. unfold momentum_not_neutral. intros ->. reflexivity. Qed.

(** The steps before the grid block: the price is known. *)
Definition before_grid (b : Bot) (ex1 : Exchange.Exchange)
    (price : Dec.Decimal) : Bot :=
  drain (market_tp_sl (set_exchange b ex1) price).

Lemma before_grid_kept (b : Bot) (ex1 : Exchange.Exchange) (price : Dec.Decimal) :
  grid_side_kept b (before_grid b ex1 price)
  /\ momentum_not_neutral (before_grid b ex1 price) = momentum_not_neutral b.
Proof.
  unfold before_grid.
  destruct (set_exchange_kept b ex1) as [K0 M0].
  destruct (market_tp_sl_kept (set_exchange b ex1) price) as [K1 M1].
  destruct (drain_kept (market_tp_sl (set_exchange b ex1) price)) as [K2 M2].
  split.
  - eapply grid_side_kept_trans; [|exact K2].
    eapply grid_side_kept_trans; [exact K0 | exact K1].
  - unfold momentum_not_neutral. rewrite M2, M1, M0. reflexivity.
Qed.

(** A property of the bot that every step of a tick keeps holds after
    the tick.  The position check and the exit check count as one
    step. *)
Lemma run_keeps (P : Bot -> Prop) (fuel : nat) (b : Bot) (close_now : bool)
    (now : Z) :
  P b ->
  (forall b, P b -> P (shutdown b)) ->
  (forall b ex, P b -> P (set_exchange b ex)) ->
  (forall b price, P b -> P (market_tp_sl b price)) ->
  (forall b, P b -> P (drain b)) ->
  (forall b b3 price,
     P b -> track_position b = Returns b3 -> P (check_exits b3 price)) ->
  (forall fuel b b5 price, P b -> activate_grid fuel b price = Returns b5 -> P b5) ->
  (forall b, P b -> P (reset_grid b)) ->
  (forall b now price, P b -> P (analysis b now price)) ->
  after (run fuel b close_now now) P.
Proof.
  intros Hb Hshut Hset Hmkt Hdrain Htrack Hact Hreset Han.
  unfold run.
  destruct close_now; [cbn [after bot_of]; apply Hshut; exact Hb|].
  destruct (Exchange.get_market_price (exchange b) (symbol (config b)))
    as [[price|] ex1]; [|cbn [after bot_of]; apply Hset; exact Hb].
  destruct (Dec.coef price =? 0); [cbn [after bot_of]; apply Hset; exact Hb|].
  set (b2 := drain (market_tp_sl (set_exchange b ex1) price)).
  assert (H2 : P b2) by (unfold b2; apply Hdrain, Hmkt, Hset; exact Hb).
  assert (H4 : match (if is_grid_active b2
                      then bind (track_position b2)
                             (fun b3 => Returns (check_exits b3 price))
                      else Returns b2) with
               | Returns b4 => P b4
               | _ => True
               end).
  { destruct (is_grid_active b2); [|exact H2].
    destruct (track_position b2) as [b3| |] eqn:Ht; cbn [bind]; auto.
    apply (Htrack b2 b3 price H2 Ht). }
  destruct (if is_grid_active b2 then _ else _) as [b4| |]; cbn [bind after]; auto.
  destruct (activate_grid fuel b4 price) as [b5| |] eqn:Ha; cbn [bind after]; auto.
  cbn [bot_of]. apply Han.
  destruct (neutral_only_deactivate_cases b5) as [[-> _] | ->].
  - exact (Hact _ _ _ _ H4 Ha).
  - apply Hreset. exact (Hact _ _ _ _ H4 Ha).
Qed.

(** X19.  A finite limit [N] of consecutive grid positions is never
    reached at the end of a tick: if the counter is within
    [0 .. max (N - 1) 0] before a tick, it is after it, whatever the
    gateway and the analyzer answer (a counter that reaches [N] during
    the tick resets the grid, and the counter with it). *)
Theorem position_counter_stays_below_limit (fuel : nat) (b : Bot)
    (close_now : bool) (now : Z) (N : Z) :
  let v := Py.get (maxConsecutiveGridPositions (config b)) (Py.VStr "3") in
  Py.is_unlimited v = false ->
  Py.int v = Some N ->
  0 <= position_counter b <= Z.max (N - 1) 0 ->
  after (run fuel b close_now now)
    (fun b' =>
       config b' = config b
       /\ 0 <= position_counter b' <= Z.max (N - 1) 0).
Proof.
  intros v Hfin Hint Hb.
  assert (Hmax : forall b' : Bot,
             config b' = config b ->
             RiskManager._check_max_consecutive_positions (config b')
               (position_counter b') = false ->
             position_counter b' < N).
  { intros b' Hc. rewrite Hc. unfold RiskManager._check_max_consecutive_positions.
    fold v. rewrite Hfin, Hint. intros E. rewrite Z.geb_leb in E.
    apply Z.leb_gt in E. exact E. }
  apply run_keeps.
  - split; [reflexivity | exact Hb].
  - intros b0 [Hc Hn]. destruct (shutdown_kept b0) as [Sc [Sn _]].
    rewrite Sc, Sn. auto.
  - intros b0 ex [Hc Hn]. auto.
  - intros b0 price [Hc Hn].
    destruct (market_tp_sl_kept b0 price) as [[Kc [_ [_ [_ [Kn _]]]]] _].
    rewrite Kc, Kn. auto.
  - intros b0 [Hc Hn]. destruct (drain_kept b0) as [[Kc [_ [_ [_ [Kn _]]]]] _].
    rewrite Kc, Kn. auto.
  - intros b0 b3 price [Hc Hn] Ht.
    pose proof (track_position_cases b0) as T. rewrite Ht in T.
    destruct T as [Tc [_ [_ [_ [Tn _]]]]].
    destruct (check_exits_cases b3 price) as [Cc [_ [[_ [Cn _]] | [_ [Cn [_ [_ Cm]]]]]]].
    + rewrite Cc, Tc, Cn. split; [exact Hc | lia].
    + rewrite Cc, Tc, Cn. split; [exact Hc|].
      pose proof (Hmax b3 ltac:(congruence) Cm). lia.
  - intros fuel0 b0 b5 price [Hc Hn] Ha.
    destruct (activate_grid_cases _ _ _ _ Ha) as [Ac [_ [An _]]].
    rewrite Ac, An. auto.
  - intros b0 [Hc Hn]. destruct (reset_grid_leaves b0) as [Rc [_ [_ [Rn _]]]].
    rewrite Rc, Rn. split; [exact Hc | lia].
  - intros b0 now0 price [Hc Hn].
    destruct (analysis_kept b0 now0 price) as [Kc [_ [_ [_ [Kn _]]]]].
    rewrite Kc, Kn. auto.
Qed.


(** X21.  The neutral-only setting keeps the grid off.  With
    [gridBotNeutralOnly] set and an analysis on record whose momentum is
    not [NEUTRAL], a tick that gets a price ends with the grid inactive:
    an inactive grid is not activated, an active one is reset. *)
Theorem neutral_only_keeps_grid_off (fuel : nat) (b : Bot) (now : Z)
    (price : Dec.Decimal) :
  gridBotNeutralOnly (config b) = true ->
  momentum_not_neutral b = true ->
  fst (Exchange.get_market_price (exchange b) (symbol (config b))) = Some price ->
  Dec.coef price <> 0 ->
  after (run fuel b false now) (fun b' => is_grid_active b' = false).
Proof.
  intros Honly Hmom Hprice Hnz. unfold run.
  destruct (Exchange.get_market_price (exchange b) (symbol (config b))) as [p ex1]. cbn [fst] in Hprice. subst p.
  destruct (Z.eqb_spec (Dec.coef price) 0) as [E | _]; [contradiction|].
  fold (before_grid b ex1 price).
  destruct (before_grid_kept b ex1 price) as [[Kc [_ [Ka _]]] Km].
  set (b2 := before_grid b ex1 price) in *.
  assert (H4 : match (if is_grid_active b2
                      then bind (track_position b2)
                             (fun b3 => Returns (check_exits b3 price))
                      else Returns b2) with
               | Returns b4 =>
                   config b4 = config b /\ momentum_not_neutral b4 = true
               | _ => True
               end).
  { destruct (is_grid_active b2).
    - pose proof (track_position_cases b2) as T.
      destruct (track_position b2) as [b3| |]; cbn [bind]; auto.
      destruct T as [Tc [_ [Tm _]]].
      destruct (check_exits_cases b3 price) as [Cc [Cm _]].
      split; [congruence|].
      rewrite (momentum_of_manager _ b2) by congruence. congruence.
    - split; congruence. }
  destruct (if is_grid_active b2 then _ else _) as [b4| |]; cbn [bind after]; auto.
  destruct H4 as [Hc4 Hm4].
  destruct (activate_grid fuel b4 price) as [b5| |] eqn:Ha; cbn [bind after]; auto.
  destruct (activate_grid_cases _ _ _ _ Ha) as [_ [_ [_ [_ [_ Hsame]]]]].
  assert (E5 : b5 = b4).
  { apply Hsame. right. rewrite Hc4, Honly, Hm4. reflexivity. }
  subst b5. cbn [bot_of].
  destruct (analysis_kept (neutral_only_deactivate b4) now price) as [_ [_ [Aa _]]].
  rewrite Aa.
  destruct (neutral_only_deactivate_cases b4) as [[-> Hoff] | ->].
  - rewrite Hc4, Honly, Hm4, !andb_true_r in Hoff. exact Hoff.
  - apply reset_grid_leaves.
Qed.

(** X22.  A market price of zero is no price: the tick ends after the
    price query, and the bot is as before except that the gateway has
    that one call more on record. *)
Theorem run_skips_tick_at_zero_price (fuel : nat) (b : Bot) (now : Z)
    (price : Dec.Decimal) :
  fst (Exchange.get_market_price (exchange b) (symbol (config b))) = Some price ->
  Dec.coef price = 0 ->
  run fuel b false now
  = Returns (Next (set_exchange b
                     (snd (Exchange.get_market_price (exchange b)
                             (symbol (config b))))))
  /\ Exchange.calls
       (snd (Exchange.get_market_price (exchange b) (symbol (config b))))
     = Exchange.calls (exchange b) ++ [Exchange.GetMarketPrice (symbol (config b))].
Proof.
  intros Hprice Hz. unfold run.
  destruct (Exchange.get_market_price (exchange b) (symbol (config b))) as [p ex1] eqn:Hcall.
  cbn [fst snd] in *. subst p. rewrite Hz. cbn [Z.eqb].
  split; [reflexivity|].
  unfold Exchange.get_market_price, Exchange.call in Hcall.
  injection Hcall as _ <-. reflexivity.
Qed.

(** X23.  A range written the wrong way round activates an empty grid.
    With [endPrice] below [startPrice] (and nothing rounded by the
    context in the width and the boundaries), a bot whose grid is
    inactive and may be activated generates no level, places no order,
    and marks the grid active all the same. *)
Theorem reversed_range_activates_empty_grid (fuel : nat) (b : Bot)
    (price : Dec.Decimal) :
  let cfg := Grid.config (grid b) in
  let C := Dec.dval price in
  let W := (Dec.dval (endPrice cfg) - Dec.dval (startPrice cfg))%Q in
  is_grid_active b = false ->
  gridBotNeutralOnly (config b) && momentum_not_neutral b = false ->
  (W < 0)%Q ->
  Dec.coef (gridSize cfg) <> 0 ->
  DecProps.representable W ->
  DecProps.representable (W / 2) ->
  DecProps.representable (C - W / 2) ->
  DecProps.representable (C + W / 2) ->
  exists b',
    activate_grid (S fuel) b price = Returns b'
    /\ Grid.grid_levels (grid b') = []
    /\ exchange b' = exchange b
    /\ is_grid_active b' = true.
Proof.
  intros cfg C W Hoff Hok HW HD RW Rh Rlo Rhi.
  unfold activate_grid. rewrite Hoff, Hok. cbn [negb].
  rewrite (GridFacts.generate_reversed fuel (grid b) price HW HD RW Rh Rlo Rhi).
  cbn [Grid.grid_levels place_grid_orders].
  eexists. split; [reflexivity|]. split_all; reflexivity.
Qed.

End WithFloat.

(** A tick of the bot of the scenario (limit 3, one position counted)
    that finds a position on the exchange. *)
Lemma position_counter_stays_below_limit_witness :
  after
    (run 10
       (Examples.running_bot
          (Examples.gateway
             [Examples.quote (Examples.tenths 10000); Examples.success;
              Examples.holding 1 1000]))
       false 600)
    (fun b' =>
       config b' = Examples.two_reopens
       /\ 0 <= position_counter b' <= Z.max (3 - 1) 0).
Proof.
  apply (position_counter_stays_below_limit (H := DecimalFloat.ops) 10
           (Examples.running_bot
              (Examples.gateway
                 [Examples.quote (Examples.tenths 10000); Examples.success;
                  Examples.holding 1 1000]))
           false 600 3).
  - reflexivity.
  - reflexivity.
  - cbn. lia.
Defined.

(** The configuration of the scenario with the neutral-only setting,
    and a bot with an active grid whose manager has the signal
    [(UPTREND, OVERBOUGHT)] on record. *)
Definition neutral_only : Config :=
  {| mode := Long; symbol := "BTCUSDT"; leverage := 20;
     startPrice := Examples.tenths 9000; endPrice := Examples.tenths 11000;
     gridSize := Examples.tenths 40;
     positionSizeType := "QUOTE"; positionSize := Examples.tenths 100;
     enableRangeExitRule := true;
     rangeExitThresholdPercent := Examples.tenths 1000;
     tpMode := PERCENTAGE; takeProfitPercent := None; stopLossPercent := None;
     dualSidePosition := false; enableMarketPositionLogic := true;
     analysisIntervalMinutes := 10; volatilityDetectorMaxRetries := 3;
     enablePositionReopen := true;
     maxConsecutiveGridPositions := Some (Py.VStr "3");
     gridBotNeutralOnly := true;
     maxMarketPositionReopens := Some (Py.VStr "unlimited");
     neutralMomentumAction := Some "stop"%string |}.

Definition trending_bot (ex : @Exchange.Exchange DecimalFloat.ops)
    : @Bot DecimalFloat.ops :=
  mkBot (H := DecimalFloat.ops) neutral_only ex Examples.grid1000
    (Examples.long_after neutral_only 0)
    (MarketPositionManager.mkAnalyzer (fun _ => None) 0)
    [] true [] 0 None (Dec.of_Z 0) None None.

Lemma neutral_only_keeps_grid_off_witness :
  after
    (run 10 (trending_bot (Examples.gateway [Examples.quote (Examples.tenths 10000)]))
       false 600)
    (fun b' => is_grid_active b' = false).
Proof.
  apply (neutral_only_keeps_grid_off (H := DecimalFloat.ops) 10
           (trending_bot (Examples.gateway [Examples.quote (Examples.tenths 10000)]))
           600 (Examples.tenths 10000)).
  - reflexivity.
  - reflexivity.
  - reflexivity.
  - discriminate.
Defined.

(** The bot of the scenario and a gateway that quotes the price 0.0. *)
Lemma run_skips_tick_at_zero_price_witness :
  let b := Examples.running_bot (Examples.gateway [Examples.quote (Examples.tenths 0)]) in
  run 10 b false 600
  = Returns (Next (set_exchange b
                     (snd (Exchange.get_market_price (exchange b)
                             (symbol (config b))))))
  /\ Exchange.calls
       (snd (Exchange.get_market_price (exchange b) (symbol (config b))))
     = Exchange.calls (exchange b) ++ [Exchange.GetMarketPrice (symbol (config b))].
Proof.
  apply (run_skips_tick_at_zero_price (H := DecimalFloat.ops) 10
           (Examples.running_bot
              (Examples.gateway [Examples.quote (Examples.tenths 0)]))
           600 (Examples.tenths 0)).
  - reflexivity.
  - reflexivity.
Defined.

(** The range of the scenario written the wrong way round: start 1100,
    end 900. *)
Definition reversed_bot : @Bot DecimalFloat.ops :=
  mkBot (H := DecimalFloat.ops)
    (Examples.with_range Examples.base (Examples.tenths 11000)
       (Examples.tenths 9000) (Examples.tenths 40))
    (Examples.gateway [])
    (Grid.init (Examples.with_range Examples.base (Examples.tenths 11000)
                  (Examples.tenths 9000) (Examples.tenths 40)))
    MarketPositionManager.init
    (MarketPositionManager.mkAnalyzer (fun _ => None) 0)
    [] false [] 0 None (Dec.of_Z 0) None None.

Lemma reversed_range_activates_empty_grid_witness :
  exists b',
    activate_grid 1 reversed_bot (Examples.tenths 10000) = Returns b'
    /\ Grid.grid_levels (grid b') = []
    /\ exchange b' = exchange reversed_bot
    /\ is_grid_active b' = true.
Proof.
  apply (reversed_range_activates_empty_grid (H := DecimalFloat.ops) 0
           reversed_bot (Examples.tenths 10000)).
  - reflexivity.
  - reflexivity.
  - reflexivity.
  - discriminate.
  - exists (-200), 0. split; reflexivity.
  - exists (-100), 0. split; reflexivity.
  - exists 1100, 0. split; reflexivity.
  - exists 900, 0. split; reflexivity.
Defined.

End BotFacts.

(* ================================================================== *)
(** * The take-profit target in [GRID_RANGE] mode *)

Module TargetFacts.
Import Bot.

Section WithFloat.
Context `{FloatOps}.

Lemma insert_sorted_in (x y : float) (l : list float) :
  In y (insert_sorted x l) <-> y = x \/ In y l.
Proof.
  induction l as [|z l IH]; cbn [insert_sorted].
  - cbn. intuition.
  - destruct (fltb x z); cbn [In]; [intuition|].
    rewrite IH. intuition.
Qed.

Lemma sort_in (y : float) (l : list float) : In y (sort l) <-> In y l.
Proof.
  unfold sort.
  assert (G : forall acc, In y (fold_left (fun acc x => insert_sorted x acc) l acc)
                          <-> In y acc \/ In y l).
  { induction l as [|x l IH]; intros acc; cbn [fold_left In].
    - intuition.
    - rewrite IH, insert_sorted_in. intuition. }
  rewrite G. cbn [In]. intuition.
Qed.

Lemma find_none_iff {A : Type} (f : A -> bool) (l : list A) :
  find f l = None <-> forall x, In x l -> f x = false.
Proof.
  split; [apply find_none|].
  intros Hall. destruct (find f l) as [x|] eqn:E; [|reflexivity].
  apply find_some in E. destruct E as [Hin Hf].
  rewrite (Hall x Hin) in Hf. discriminate Hf.
Qed.

(** X24.  The next grid level is a level of the grid beyond the entry
    price: above it in long mode, below it in short mode.  There is none
    exactly when no level of the grid is beyond the entry price (so
    never for an empty grid), and never in neutral mode.  In
    [GRID_RANGE] mode the take-profit target of a position is such a
    level, or is absent. *)
Theorem next_grid_level_is_beyond_entry (cfg : Config) (g : Grid.Grid)
    (entry_price : float) :
  let levels := map of_decimal (Grid.grid_levels g) in
  (forall level,
     _find_next_grid_level cfg g entry_price = Some level ->
     In level levels
     /\ ((mode cfg = Long /\ fltb entry_price level = true)
         \/ (mode cfg = Short /\ fltb level entry_price = true)))
  /\ (mode cfg = Long ->
      (_find_next_grid_level cfg g entry_price = None
       <-> forall level, In level levels -> fltb entry_price level = false))
  /\ (mode cfg = Short ->
      (_find_next_grid_level cfg g entry_price = None
       <-> forall level, In level levels -> fltb level entry_price = false))
  /\ (mode cfg = Neutral -> _find_next_grid_level cfg g entry_price = None)
  /\ (forall position_side tp,
        tpMode cfg = GRID_RANGE ->
        tp_price (calculate_tp_sl_targets cfg g entry_price position_side) = Some tp ->
        In tp levels
        /\ ((mode cfg = Long /\ fltb entry_price tp = true)
            \/ (mode cfg = Short /\ fltb tp entry_price = true))).
Proof.
  intros levels. subst levels.
  assert (Hsome : forall level,
             _find_next_grid_level cfg g entry_price = Some level ->
             In level (map of_decimal (Grid.grid_levels g))
             /\ ((mode cfg = Long /\ fltb entry_price level = true)
                 \/ (mode cfg = Short /\ fltb level entry_price = true))).
  { intros level. unfold _find_next_grid_level.
    destruct (Grid.grid_levels g) as [|l0 ls] eqn:Hl; [discriminate|].
    destruct (mode cfg); intros E; [| |discriminate E].
    - apply find_some in E. destruct E as [Hin Hf].
      apply (proj1 (sort_in _ _)) in Hin. split; [exact Hin | left; auto].
    - apply find_some in E. destruct E as [Hin Hf].
      apply in_rev in Hin. apply (proj1 (sort_in _ _)) in Hin.
      split; [exact Hin | right; auto]. }
  split_all.
  - exact Hsome.
  - intros Hm. unfold _find_next_grid_level. rewrite Hm.
    destruct (Grid.grid_levels g) as [|l0 ls] eqn:Hl.
    + split; [intros _ level [] | reflexivity].
    + rewrite find_none_iff. split; intros Hall level Hin.
      * apply Hall. apply (proj2 (sort_in _ _)). exact Hin.
      * apply Hall. apply (proj1 (sort_in _ _)). exact Hin.
  - intros Hm. unfold _find_next_grid_level. rewrite Hm.
    destruct (Grid.grid_levels g) as [|l0 ls] eqn:Hl.
    + split; [intros _ level [] | reflexivity].
    + rewrite find_none_iff. split; intros Hall level Hin.
      * apply Hall. rewrite <- in_rev. apply (proj2 (sort_in _ _)). exact Hin.
      * apply Hall. apply in_rev in Hin. apply (proj1 (sort_in _ _)). exact Hin.
  - intros Hm. unfold _find_next_grid_level. rewrite Hm.
    destruct (Grid.grid_levels g); reflexivity.
  - intros position_side tp Hmode. unfold calculate_tp_sl_targets.
    rewrite Hmode. cbn [tp_price].
    destruct (_find_next_grid_level cfg g entry_price) as [level|] eqn:Hfind;
      [|discriminate].
    destruct (feqb level (float_of_Z 0)); [discriminate|].
    intros E. injection E as <-. apply Hsome. reflexivity.
Qed.

End WithFloat.

End TargetFacts.
